(** * Account and authorization core: token codec, login, MFA, discriminator
    allocation, gateway session limits and value normalization.

    Shallow embedding of [derailedapi/database.py] and
    [discorse/users/routes.py].  Python values are modelled as Rocq data,
    exceptions as an explicit error result, the Cassandra tables as lists of
    rows, and the external collaborators (password hasher, TOTP generator,
    timestamp signer) as interfaces. *)

From Stdlib Require Import ZArith NArith List Bool Lia Ascii String FinFun.
From Stdlib Require Import Numbers.DecimalString Numbers.DecimalZ.
From Stdlib Require Import Numbers.DecimalPos Numbers.DecimalFacts.
Import ListNotations.

Set Warnings "-register-all".

Open Scope string_scope.
Open Scope Z_scope.

(** ** Python primitives used by the code

    A [str] is kept as its sequence of UTF-8 bytes, so [s.encode()] and
    [b.decode()] are the identity on the model. *)

Module Py.

(** [str(n)] for an [int]: decimal digits, with a leading minus sign. *)
Definition str_int (n : Z) : string := NilZero.string_of_int (Z.to_int n).

(** [str(b)] for a [bool]. *)
Definition str_bool (b : bool) : string := if b then "True" else "False".

(** [needle in hay] for two [str]. *)
Fixpoint contains (needle hay : string) : bool :=
  if String.prefix needle hay then true
  else match hay with
       | EmptyString => false
       | String _ rest => contains needle rest
       end.

Definition dot : ascii := "."%char.

(** [c in s] for a single character. *)
Fixpoint has_char (c : ascii) (s : string) : bool :=
  match s with
  | EmptyString => false
  | String a rest => Ascii.eqb a c || has_char c rest
  end.

(** [s.split('.')[0]]: what stands before the first separator, the whole
    string when there is none. *)
Fixpoint split_head (s : string) : string :=
  match s with
  | EmptyString => EmptyString
  | String a rest =>
      if Ascii.eqb a dot then EmptyString else String a (split_head rest)
  end.

(** [s.rsplit('.', 1)] when ['.' in s]: the parts before and after the last
    separator. *)
Fixpoint rsplit1 (s : string) : option (string * string) :=
  match s with
  | EmptyString => None
  | String a rest =>
      match rsplit1 rest with
      | Some (l, r) => Some (String a l, r)
      | None =>
          if Ascii.eqb a dot then Some (EmptyString, rest) else None
      end
  end.

(** *** [int(b)] on a [bytes] object *)

(** The bytes [bytes.strip()] removes. *)
Definition is_space (c : ascii) : bool :=
  match N_of_ascii c with
  | 9%N | 10%N | 11%N | 12%N | 13%N | 32%N => true
  | _ => false
  end.

Fixpoint lstrip (l : list ascii) : list ascii :=
  match l with
  | c :: rest => if is_space c then lstrip rest else l
  | [] => []
  end.

Definition strip (s : string) : string :=
  string_of_list_ascii
    (rev (lstrip (rev (lstrip (list_ascii_of_string s))))).

(** The bytes ['0'] to ['9']. *)
Definition is_digit (c : ascii) : bool :=
  (48 <=? N_of_ascii c)%N && (N_of_ascii c <=? 57)%N.

Fixpoint all_digits (s : string) : bool :=
  match s with
  | EmptyString => true
  | String c rest => is_digit c && all_digits rest
  end.

(** Underscores are allowed between two digits only; they are dropped here
    and the digits are read afterwards. *)
Fixpoint drop_underscores (s : string) (after_digit : bool)
  : option string :=
  match s with
  | EmptyString => if after_digit then Some EmptyString else None
  | String c rest =>
      if Ascii.eqb c "_"%char then
        if after_digit then drop_underscores rest false else None
      else
        match drop_underscores rest true with
        | Some r => Some (String c r)
        | None => None
        end
  end.

(** [int(b)]: optional surrounding white space, an optional sign, decimal
    digits.  [None] stands for [ValueError]. *)
Definition int (b : string) : option Z :=
  let body := strip b in
  let '(negative, digits) :=
    match body with
    | String "-"%char rest => (true, rest)
    | String "+"%char rest => (false, rest)
    | _ => (false, body)
    end in
  match drop_underscores digits false with
  | None => None
  | Some ds =>
      match NilEmpty.uint_of_string ds with
      | Some d =>
          Some (Z.of_int (if negative then Decimal.Neg d else Decimal.Pos d))
      | None => None
      end
  end.

(** *** [base64.b64encode] and [base64.b64decode] *)

Definition b64_alphabet : string :=
  "ABCDEFGHIJKLMNOPQRSTUVWXYZabcdefghijklmnopqrstuvwxyz0123456789+/".

Definition pad : ascii := "="%char.

(** The character of a 6-bit group. *)
Definition b2a (d : N) : ascii :=
  match String.get (N.to_nat d) b64_alphabet with
  | Some c => c
  | None => pad
  end.

Fixpoint index_from (c : ascii) (s : string) (i : N) : option N :=
  match s with
  | EmptyString => None
  | String a rest =>
      if Ascii.eqb a c then Some i else index_from c rest (N.succ i)
  end.

(** The 6-bit group of a character, [None] outside the alphabet. *)
Definition a2b (c : ascii) : option N := index_from c b64_alphabet 0%N.

(** [b64encode]: three bytes give four characters, the last group is
    padded with ['=']. *)
Fixpoint b64encode (s : string) : string :=
  match s with
  | EmptyString => EmptyString
  | String x EmptyString =>
      let a := N_of_ascii x in
      String (b2a (a / 4)) (String (b2a ((a mod 4) * 16))
        (String pad (String pad EmptyString)))
  | String x (String y EmptyString) =>
      let a := N_of_ascii x in
      let b := N_of_ascii y in
      String (b2a (a / 4)) (String (b2a ((a mod 4) * 16 + b / 16))
        (String (b2a ((b mod 16) * 4)) (String pad EmptyString)))
  | String x (String y (String z rest)) =>
      let a := N_of_ascii x in
      let b := N_of_ascii y in
      let c := N_of_ascii z in
      String (b2a (a / 4)) (String (b2a ((a mod 4) * 16 + b / 16))
        (String (b2a ((b mod 16) * 4 + c / 64)) (String (b2a (c mod 64))
           (b64encode rest))))
  end%N.

Definition emit (n : N) (r : option string) : option string :=
  match r with
  | Some s => Some (String (ascii_of_N (n mod 256)) s)
  | None => None
  end.

(** The decoding loop of [binascii.a2b_base64] without [strict_mode]:
    characters outside the alphabet are skipped, a pad sequence that
    completes a quad ends the decoding, and data left in an incomplete
    quad is an error ([None] stands for [binascii.Error]).  Shifts and
    masks of the 6-bit groups are written with [*], [/] and [mod]. *)
Fixpoint a2b_base64 (s : string) (quad_pos leftchar pads : N)
  : option string :=
  match s with
  | EmptyString => if (quad_pos =? 0)%N then Some EmptyString else None
  | String ch rest =>
      if Ascii.eqb ch pad then
        if (2 <=? quad_pos)%N then
          if (4 <=? quad_pos + (pads + 1))%N then Some EmptyString
          else a2b_base64 rest quad_pos leftchar (pads + 1)%N
        else a2b_base64 rest quad_pos leftchar pads
      else
        match a2b ch with
        | None => a2b_base64 rest quad_pos leftchar pads
        | Some d =>
            match quad_pos with
            | 0%N => a2b_base64 rest 1%N d 0%N
            | 1%N =>
                emit (leftchar * 4 + d / 16)%N
                  (a2b_base64 rest 2%N (d mod 16)%N 0%N)
            | 2%N =>
                emit (leftchar * 16 + d / 4)%N
                  (a2b_base64 rest 3%N (d mod 4)%N 0%N)
            | _ =>
                emit (leftchar * 64 + d)%N (a2b_base64 rest 0%N 0%N 0%N)
            end
        end
  end.

Definition b64decode (s : string) : option string :=
  a2b_base64 s 0%N 0%N 0%N.

(** ['%04d' % n] *)
Definition format_04d (n : Z) : string :=
  let digits := str_int (Z.abs n) in
  let zeros :=
    string_of_list_ascii
      (repeat "0"%char
         (Nat.sub (if n <? 0 then 3 else 4) (String.length digits))) in
  if n <? 0 then "-" ++ zeros ++ digits else zeros ++ digits.

End Py.

(** ** Exceptions and results *)

(** The exceptions that can leave a function of the model.  [HTTPError] is
    apiflask's; [NotFound] is what [.get()] raises when no row matches;
    [MultipleObjectsReturned] and [QueryException] are the store client's;
    [BadSignature] covers itsdangerous' [BadSignature] and its subclass
    [BadTimeSignature]; [OtherError] is any exception of a library that no
    handler of the code names. *)
Inductive exn : Type :=
| HTTPError (status_code : Z) (message : string)
| NotFound
| MultipleObjectsReturned
| QueryException
| BadSignature
| OtherError (name : string).

Inductive result (A : Type) : Type :=
| Ok (a : A)
| Raise (e : exn).

Arguments Ok {A} a.
Arguments Raise {A} e.

Definition bind {A B : Type} (c : result A) (k : A -> result B) : result B :=
  match c with
  | Ok a => k a
  | Raise e => Raise e
  end.

Notation "x <- c ;; k" := (bind c (fun x => k))
  (at level 61, c at next level, right associativity).
Notation "' pat <- c ;; k" := (bind c (fun x => let 'pat := x in k))
  (at level 61, pat pattern, c at next level, right associativity).

(** ** Records handed to the transport boundary

    A record is what [dict(row)] or decoded JSON gives: a tree of mappings
    with [str] keys, sequences and scalars, without shared sub-objects.
    [bool] is a subclass of [int] in Python, so [isinstance(v, int)] holds
    for both [VInt] and [VBool]. *)

Inductive value : Type :=
| VNone
| VBool (b : bool)
| VInt (n : Z)
| VStr (s : string)
| VList (items : list value)
| VDict (entries : list (string * value)).

(** ** Tables of [database.py] *)

(** Columns declared without a default are [None] on an instance that was
    not given them, hence the [option]. *)
Record User : Type := mkUser {
  id : Z;
  email : option string;
  password : option string;
  username : option string;
  discriminator : option string;
  avatar : string;
  banner : string;
  flags : Z;
  bot : bool;
  verified : option bool
}.

Record Settings : Type := mkSettings {
  settings_user_id : Z;
  locale : string;
  developer_mode : bool;
  theme : string;
  status : string;
  mfa_enabled : bool;
  mfa_code : option string;
  friend_requests_off : bool
}.

Record RecoveryCode : Type := mkRecoveryCode {
  recovery_user_id : Z;
  code : string
}.

(** Of [Member] only the two key columns are read by the code modelled
    here. *)
Record Member : Type := mkMember {
  member_guild_id : Z;
  member_user_id : Z
}.

(** On an instance read with [defer(['user_id'])] the column is [None]. *)
Record GatewaySessionLimit : Type := mkGatewaySessionLimit {
  limit_user_id : option Z;
  total : Z;
  remaining : Z;
  max_concurrency : Z
}.

Record Event : Type := mkEvent {
  event_name : string;
  event_data : value;
  event_guild_id : option Z;
  event_user_id : option Z;
  event_user_ids : option (list Z)
}.

(** The keyed-record store, and the events handed to the event sink.  A row
    of [gateway_session_limit] is kept with the time it was written, for
    the table's [default_time_to_live]. *)
Record Store : Type := mkStore {
  users : list User;
  settings : list Settings;
  recovery_codes : list RecoveryCode;
  members : list Member;
  gateway_session_limit : list (GatewaySessionLimit * Z);
  dispatched : list (string * Event)
}.

(** What a request takes from outside the store: the clock (seconds), the
    id handed out by [forger.forge] (the default of [User.id], from a module
    that is not among the sources, hence a parameter), the salt the hasher
    draws and the results of the successive [random.randint(1, 9999)]
    calls. *)
Record World : Type := mkWorld {
  now : Z;
  forged : Z;
  salt : string;
  rolls : nat -> Z
}.

(** ** The store client *)

(** Modelled from the spec: [NotFound] is imported by [routes.py] from the
    database module, whose source at hand does not define it; the store
    interface of the specification is
    [get(model, predicate, projection?) -> record | NotFound].
    [queryset.get()] gives the row that matches, raises [NotFound] when none
    does, and the store client's [MultipleObjectsReturned] when several
    do. *)
Definition get {A : Type} (rows : list A) : result A :=
  match rows with
  | [] => Raise NotFound
  | [row] => Ok row
  | _ => Raise MultipleObjectsReturned
  end.

(** [queryset.count()] *)
Definition count {A : Type} (rows : list A) : Z := Z.of_nat (List.length rows).

Definition opt_eqb (a : option string) (b : string) : bool :=
  match a with
  | Some s => String.eqb s b
  | None => false
  end.

Definition mem (s : string) (l : list string) : bool :=
  existsb (String.eqb s) l.

Definition user_columns : list string :=
  ["id"; "email"; "password"; "username"; "discriminator"; "avatar";
   "banner"; "flags"; "bot"; "verified"].

(** The columns a query reads, from the [only] and [defer] lists ([[]] when
    not given).  A name that is no column of the table is refused; deferring
    every column leaves the partition key; an empty selection is refused. *)
Definition select_fields (only defer : list string) : result (list string) :=
  if negb (forallb (fun f => mem f user_columns) (only ++ defer)) then
    Raise QueryException
  else
    let kept := filter (fun f => negb (mem f defer)) user_columns in
    let kept := match kept with [] => ["id"] | _ => kept end in
    let kept :=
      match only with
      | [] => kept
      | _ => filter (fun f => mem f only) kept
      end in
    match kept with
    | [] => Raise QueryException
    | _ => Ok kept
    end.

(** The instance built from the selected columns of a row: a column that was
    not read holds its declared default ([forger.forge] for [id]), [None]
    when it has none. *)
Definition instance (w : World) (selected : list string) (row : User)
  : User :=
  {| id := if mem "id" selected then id row else forged w;
     email := if mem "email" selected then email row else None;
     password := if mem "password" selected then password row else None;
     username := if mem "username" selected then username row else None;
     discriminator :=
       if mem "discriminator" selected then discriminator row else None;
     avatar := if mem "avatar" selected then avatar row else "";
     banner := if mem "banner" selected then banner row else "";
     flags := if mem "flags" selected then flags row else 0;
     bot := if mem "bot" selected then bot row else false;
     verified :=
       if mem "verified" selected then verified row else Some false |}.

(** [User.objects(<filter>).only(only).defer(defer).get()] *)
Definition get_user (w : World) (rows : list User) (only defer : list string)
  : result User :=
  selected <- select_fields only defer ;;
  row <- get rows ;;
  Ok (instance w selected row).

(** [User.objects(User.id == user_id)] *)
Definition users_by_id (st : Store) (user_id : Z) : list User :=
  filter (fun u => id u =? user_id) (users st).

(** [User.objects(User.email == email)] *)
Definition users_by_email (st : Store) (e : string) : list User :=
  filter (fun u => opt_eqb (email u) e) (users st).

(** [User.objects(User.username == username)]; no row is equal to [None]. *)
Definition users_by_username (st : Store) (name : option string)
  : list User :=
  filter
    (fun u => match name with
              | Some n => opt_eqb (username u) n
              | None => false
              end) (users st).

(** [User.objects(User.username == username,
                  User.discriminator == discriminator)] *)
Definition users_by_tag (st : Store) (name d : option string) : list User :=
  filter
    (fun u => match d with
              | Some d => opt_eqb (discriminator u) d
              | None => false
              end) (users_by_username st name).

(** The 12-hour [default_time_to_live] of [gateway_session_limit]. *)
Definition default_time_to_live : Z := 43200.

(** [GatewaySessionLimit.objects(GatewaySessionLimit.user_id == user_id)]:
    the rows written less than [default_time_to_live] seconds ago. *)
Definition limits_by_user_id (w : World) (st : Store) (user_id : Z)
  : list GatewaySessionLimit :=
  map fst
    (filter
       (fun entry : GatewaySessionLimit * Z =>
          let (row, written) := entry in
          match limit_user_id row with
          | Some u =>
              (u =? user_id) && (now w - written <? default_time_to_live)
          | None => false
          end) (gateway_session_limit st)).

(** ** External collaborators *)

Inductive verify_outcome : Type :=
| Verified
| VerifyMismatchError
| VerificationError.

(** argon2's [PasswordHasher]: [hash] with the salt it draws, and [verify] of
    a stored hash against a password. *)
Class PasswordHasher : Type := {
  hasher_hash : string -> string -> string;
  hasher_verify : string -> string -> verify_outcome
}.

(** pyotp's [TOTP(secret).now()] at a given time. *)
Class TOTPOracle : Type := {
  totp_now : string -> Z -> string
}.

(** What itsdangerous' [TimestampSigner] computes with the key: the encoded
    signature of a value, its verification, and the encoding of the
    timestamp. *)
Class Signer : Type := {
  get_signature : string -> string -> string;
  verify_signature : string -> string -> string -> bool;
  encode_timestamp : Z -> string;
  decode_timestamp : string -> option Z
}.

(** [TimestampSigner(key).sign(value)] *)
Definition sign `{Signer} (key : string) (w : World) (v : string) : string :=
  let v := v ++ "." ++ encode_timestamp (now w) in
  v ++ "." ++ get_signature key v.

(** [TimestampSigner(key).unsign(signed)] without [max_age]: the signature
    after the last separator is verified, then the timestamp after the last
    separator of what remains is decoded. *)
Definition unsign `{Signer} (key : string) (signed : string) : result string :=
  match Py.rsplit1 signed with
  | None => Raise BadSignature
  | Some (v, sig) =>
      if verify_signature key v sig then
        match Py.rsplit1 v with
        | None => Raise BadSignature
        | Some (payload, ts) =>
            match decode_timestamp ts with
            | Some _ => Ok payload
            | None => Raise BadSignature
            end
        end
      else Raise BadSignature
  end.

(** ** [derailedapi/database.py] *)

(** Defaults of [GatewaySessionLimit(user_id=...)]. *)
Definition new_session_limit (user_id : Z) : GatewaySessionLimit :=
  {| limit_user_id := Some user_id;
     total := 1000;
     remaining := 1000;
     max_concurrency := 16 |}.

Definition create_token `{Signer} (w : World) (user_id : Z)
  (user_password : string) : string :=
  let user_id := Py.str_int user_id in
  let user_id := Py.b64encode user_id in
  sign user_password w user_id.

(** The [fields] and [rm_fields] arguments: a list of names, or one [str]. *)
Inductive names : Type :=
| NameList (l : list string)
| NameStr (s : string).

(** [list(s)] for a [str]: its characters (one byte each in the model). *)
Fixpoint chars (s : string) : list string :=
  match s with
  | EmptyString => []
  | String c rest => String c EmptyString :: chars rest
  end.

(** [if x is not None and not isinstance(x, list): x = list(x)] *)
Definition as_list (x : option names) : option (list string) :=
  match x with
  | None => None
  | Some (NameList l) => Some l
  | Some (NameStr s) => Some (chars s)
  end.

(** Truth value of an optional list. *)
Definition truthy (x : option (list string)) : bool :=
  match x with
  | None | Some [] => false
  | Some (_ :: _) => true
  end.

Definition or_empty (x : option (list string)) : list string :=
  match x with
  | Some l => l
  | None => []
  end.

(** [fields in ['id', ['id']]], for [fields] a list or [None]. *)
Definition is_id_only (fields : option (list string)) : bool :=
  match fields with
  | Some [f] => String.eqb f "id"
  | _ => false
  end.

(** The first [try] of [verify_token]: the id segment of the token. *)
Definition token_user_id (token : string) : option Z :=
  match Py.b64decode (Py.split_head token) with
  | Some b => Py.int b
  | None => None
  end.

Definition set_id (user : User) (user_id : Z) : User :=
  {| id := user_id;
     email := email user;
     password := password user;
     username := username user;
     discriminator := discriminator user;
     avatar := avatar user;
     banner := banner user;
     flags := flags user;
     bot := bot user;
     verified := verified user |}.

Definition verify_token `{Signer} (w : World) (st : Store)
  (token : option string) (fields rm_fields : option names) : result User :=
  match token with
  | None => Raise (HTTPError 401 "Authorization is invalid")
  | Some token =>
      match token_user_id token with
      | None =>
          Raise (HTTPError 401
                   "Failed to get container volume for Authorization")
      | Some user_id =>
          match get_user w (users_by_id st user_id) ["password"] [] with
          | Raise _ =>
              Raise (HTTPError 401 "Object for Authorization not found")
          | Ok user =>
              match password user with
              | None => Raise (OtherError "TypeError")
              | Some key =>
                  match unsign key token with
                  | Raise BadSignature =>
                      Raise (HTTPError 401
                               "Signature on Authorization is Invalid")
                  | Raise e => Raise e
                  | Ok _ =>
                      let fields := as_list fields in
                      let rm_fields := as_list rm_fields in
                      let rows := users_by_id st user_id in
                      if is_id_only fields then Ok (set_id user user_id)
                      else if truthy fields && truthy rm_fields then
                        get_user w rows (or_empty fields) (or_empty rm_fields)
                      else if truthy fields then
                        get_user w rows (or_empty fields) []
                      else if truthy rm_fields then
                        get_user w rows [] (or_empty rm_fields)
                      else get_user w rows [] []
                  end
              end
          end
      end
  end.

Definition MAX_INT32 : Z := 2147483647.

(** [isinstance(v, int)], giving the integer the comparison [v > 2147483647]
    sees. *)
Definition as_int (v : value) : option Z :=
  match v with
  | VInt n => Some n
  | VBool b => Some (if b then 1 else 0)
  | _ => None
  end.

(** [str(v)] for the two kinds of value that pass [isinstance(v, int)]. *)
Definition str (v : value) : value :=
  match v with
  | VInt n => VStr (Py.str_int n)
  | VBool b => VStr (Py.str_bool b)
  | _ => v
  end.

(** [isinstance(v, int) and v > 2147483647 or isinstance(v, int) and
    'permissions' in k] *)
Definition must_stringify (k : string) (v : value) : bool :=
  match as_int v with
  | Some n => (n >? MAX_INT32) || Py.contains "permissions" k
  | None => false
  end.

(** [objectify]: the mapping branch rewrites the entries of [data] under their
    own keys, the sequence branch builds a new list.  A value that is neither
    a [dict] nor a [list] is returned as it is. *)
Fixpoint objectify (data : value) : value :=
  match data with
  | VDict entries =>
      VDict
        (map
           (fun kv : string * value =>
              let (k, v) := kv in
              if must_stringify k v then (k, str v)
              else
                match v with
                | VList items =>
                    (k,
                     VList
                       (map
                          (fun item =>
                             match item with
                             | VDict _ | VList _ => objectify item
                             | _ => item
                             end) items))
                | _ => (k, v)
                end) entries)
  | VList items =>
      VList
        (map
           (fun item =>
              match item with
              | VDict _ | VList _ => objectify item
              | _ => item
              end) items)
  | _ => data
  end.

(** The body of the two [for item in ...] loops. *)
Definition objectify_item (item : value) : value :=
  match item with
  | VDict _ | VList _ => objectify item
  | _ => item
  end.

(** The body of the [for k, v in data.items()] loop, as the new entry of key
    [k]. *)
Definition objectify_entry (kv : string * value) : string * value :=
  let (k, v) := kv in
  if must_stringify k v then (k, str v)
  else
    match v with
    | VList items => (k, VList (map objectify_item items))
    | _ => (k, v)
    end.

(** Induction over records, with the hypothesis available for every item of
    a sequence and every value of a mapping. *)
Section value_induction.

Variable P : value -> Prop.
Hypothesis HNone : P VNone.
Hypothesis HBool : forall b, P (VBool b).
Hypothesis HInt : forall n, P (VInt n).
Hypothesis HStr : forall s, P (VStr s).
Hypothesis HList : forall items, Forall P items -> P (VList items).
Hypothesis HDict :
  forall entries, Forall (fun kv => P (snd kv)) entries -> P (VDict entries).

Fixpoint value_nested_ind (v : value) : P v :=
  match v with
  | VNone => HNone
  | VBool b => HBool b
  | VInt n => HInt n
  | VStr s => HStr s
  | VList items =>
      HList items
        ((fix go (l : list value) : Forall P l :=
            match l with
            | [] => Forall_nil P
            | x :: r => Forall_cons x (value_nested_ind x) (go r)
            end) items)
  | VDict entries =>
      HDict entries
        ((fix go (l : list (string * value)) :
            Forall (fun kv => P (snd kv)) l :=
            match l with
            | [] => Forall_nil _
            | kv :: r =>
                Forall_cons kv (value_nested_ind (snd kv)) (go r)
            end) entries)
  end.

End value_induction.

(** ** [discorse/users/routes.py] *)

Definition is_too_used (st : Store) (username : string) : result unit :=
  let used := count (users_by_username st (Some username)) in
  if used >? 9000 then
    Raise (HTTPError 400 "Too many people are using this username.")
  else Ok tt.

(** [roll_discriminator], given what [random.randint(1, 9999)] returned. *)
Definition roll_discriminator (discriminator_number : Z) : string :=
  Py.format_04d discriminator_number.

Definition get_recoveries (st : Store) (user_id : Z) : list string :=
  map code
    (filter (fun c => recovery_user_id c =? user_id) (recovery_codes st)).

(** The [for _ in range(10)] loop of [get_available_discriminator], with
    [left] iterations to go and [drawn] rolls already made. *)
Fixpoint pick_discriminator (w : World) (st : Store) (username : string)
  (drawn left : nat) : result (option string) :=
  match left with
  | O => Ok None
  | S left' =>
      let discriminator := roll_discriminator (rolls w drawn) in
      match get (users_by_tag st (Some username) (Some discriminator)) with
      | Raise NotFound => Ok (Some discriminator)
      | Raise e => Raise e
      | Ok _ => pick_discriminator w st username (S drawn) left'
      end
  end.

Definition get_available_discriminator (w : World) (st : Store)
  (username : string) : result (option string) :=
  _ <- is_too_used st username ;;
  pick_discriminator w st username 0%nat 10%nat.

Definition is_available (st : Store) (username discriminator : option string)
  : result unit :=
  match get (users_by_tag st username discriminator) with
  | Raise NotFound => Ok tt
  | Raise e => Raise e
  | Ok _ => Raise (HTTPError 400 "Discriminator is already taken")
  end.

Definition authorize `{Signer} (w : World) (st : Store)
  (token : option string) (fields : option (list string))
  (rm_fields : option names) : result User :=
  verify_token w st token (option_map NameList fields) rm_fields.

(** The [code] of a login request: [int | str | None]. *)
Inductive mfa_code_arg : Type :=
| CodeInt (n : Z)
| CodeStr (s : string).

(** [not code] *)
Definition code_missing (c : option mfa_code_arg) : bool :=
  match c with
  | None => true
  | Some (CodeInt n) => n =? 0
  | Some (CodeStr s) => String.eqb s ""
  end.

(** [code in recoveries], a list of [str] *)
Definition code_in (c : option mfa_code_arg) (recoveries : list string)
  : bool :=
  match c with
  | Some (CodeStr s) => mem s recoveries
  | _ => false
  end.

(** [code == current], a [str] *)
Definition code_eqb (c : option mfa_code_arg) (current : string) : bool :=
  match c with
  | Some (CodeStr s) => String.eqb s current
  | _ => false
  end.

(** [verify_mfa]; the [or] evaluates [totp.now()] only when the code is a
    recovery code. *)
Definition verify_mfa `{TOTPOracle} (w : World) (st : Store) (user_id : Z)
  (c : option mfa_code_arg) : result unit :=
  setting <- get (filter (fun s => settings_user_id s =? user_id)
                    (settings st)) ;;
  let recoveries := get_recoveries st user_id in
  if mfa_enabled setting then
    if code_missing c then
      Raise (HTTPError 403 "mfa_code is a required field for users with mfa.")
    else if negb (code_in c recoveries) then
      Raise (HTTPError 403 "mfa code is invalid.")
    else
      match mfa_code setting with
      | None => Raise (OtherError "TypeError")
      | Some secret =>
          if negb (code_eqb c (totp_now secret (now w))) then
            Raise (HTTPError 403 "mfa code is invalid.")
          else Ok tt
      end
  else Ok tt.

(** The body of a registration or login request. *)
Record Credentials : Type := mkCredentials {
  json_email : string;
  json_username : string;
  json_password : string;
  json_code : option mfa_code_arg
}.

Definition new_settings (user_id : Z) : Settings :=
  {| settings_user_id := user_id;
     locale := "en-US";
     developer_mode := false;
     theme := "dark";
     status := "invisible";
     mfa_enabled := false;
     mfa_code := None;
     friend_requests_off := false |}.

Definition with_users (st : Store) (us : list User) : Store :=
  {| users := us;
     settings := settings st;
     recovery_codes := recovery_codes st;
     members := members st;
     gateway_session_limit := gateway_session_limit st;
     dispatched := dispatched st |}.

Definition with_settings (st : Store) (ss : list Settings) : Store :=
  {| users := users st;
     settings := ss;
     recovery_codes := recovery_codes st;
     members := members st;
     gateway_session_limit := gateway_session_limit st;
     dispatched := dispatched st |}.

Definition with_limits (st : Store) (ls : list (GatewaySessionLimit * Z))
  : Store :=
  {| users := users st;
     settings := settings st;
     recovery_codes := recovery_codes st;
     members := members st;
     gateway_session_limit := ls;
     dispatched := dispatched st |}.

Definition with_dispatched (st : Store) (es : list (string * Event)) : Store :=
  {| users := users st;
     settings := settings st;
     recovery_codes := recovery_codes st;
     members := members st;
     gateway_session_limit := gateway_session_limit st;
     dispatched := es |}.

Definition create_user `{PasswordHasher} (w : World) (st : Store)
  (json : Credentials) : result (User * Store) :=
  match get (users_by_email st (json_email json)) with
  | Raise NotFound =>
      d <- get_available_discriminator w st (json_username json) ;;
      match d with
      | None =>
          Raise (HTTPError 400 "Too many people are using this username.")
      | Some discriminator =>
          let password := hasher_hash (salt w) (json_password json) in
          let user :=
            {| id := forged w;
               email := Some (json_email json);
               password := Some password;
               username := Some (json_username json);
               discriminator := Some discriminator;
               avatar := "";
               banner := "";
               flags := 0;
               bot := false;
               verified := Some false |} in
          let st := with_users st (users st ++ [user]) in
          let st :=
            with_settings st (settings st ++ [new_settings (id user)]) in
          Ok (user, st)
      end
  | Raise e => Raise e
  | Ok _ => Raise (HTTPError 400 "This email is already used.")
  end.

(** [create_token] on a column that may be [None]. *)
Definition token_for `{Signer} (w : World) (user : User) : result string :=
  match password user with
  | Some p => Ok (create_token w (id user) p)
  | None => Raise (OtherError "TypeError")
  end.

Definition register `{PasswordHasher} `{Signer} (w : World) (st : Store)
  (json : Credentials) : result (string * Store) :=
  '(user, st) <- create_user w st json ;;
  token <- token_for w user ;;
  Ok (token, st).

Definition login `{PasswordHasher} `{TOTPOracle} `{Signer} (w : World)
  (st : Store) (json : Credentials) : result string :=
  match get_user w (users_by_email st (json_email json))
          ["password"; "id"] [] with
  | Raise NotFound => Raise (HTTPError 400 "Invalid email or password")
  | Raise e => Raise e
  | Ok with_pswd =>
      match password with_pswd with
      | None => Raise (OtherError "TypeError")
      | Some stored =>
          match hasher_verify stored (json_password json) with
          | VerifyMismatchError =>
              Raise (HTTPError 400 "Invalid email or password")
          | VerificationError => Raise (OtherError "VerificationError")
          | Verified =>
              _ <- verify_mfa w st (id with_pswd) (json_code json) ;;
              Ok (create_token w (id with_pswd) stored)
          end
      end
  end.

(** The body of an edit request; an absent key is [None]. *)
Record EditUser : Type := mkEditUser {
  edit_email : option string;
  edit_discriminator : option string;
  edit_username : option string;
  edit_password : option string
}.

(** [if x:] for an optional [str]: [Some] of a non-empty string. *)
Definition given (x : option string) : option string :=
  match x with
  | Some EmptyString | None => None
  | Some s => Some s
  end.

Definition or_else (x : option string) (y : option string) : option string :=
  match x with
  | Some s => Some s
  | None => y
  end.

(** [row.update] with the keyword arguments of [query], on the columns
    [edit_me] may set. *)
Definition update_user (query : EditUser) (row : User) : User :=
  {| id := id row;
     email := or_else (edit_email query) (email row);
     password := or_else (edit_password query) (password row);
     username := or_else (edit_username query) (username row);
     discriminator := or_else (edit_discriminator query) (discriminator row);
     avatar := avatar row;
     banner := banner row;
     flags := flags row;
     bot := bot row;
     verified := verified row |}.

Definition opt_str (x : option string) : value :=
  match x with
  | Some s => VStr s
  | None => VNone
  end.

Definition opt_int (x : option Z) : value :=
  match x with
  | Some n => VInt n
  | None => VNone
  end.

Definition opt_bool (x : option bool) : value :=
  match x with
  | Some b => VBool b
  | None => VNone
  end.

(** [dict(user)]: every column of the model. *)
Definition dict_of_user (u : User) : value :=
  VDict
    [("id", VInt (id u)); ("email", opt_str (email u));
     ("password", opt_str (password u)); ("username", opt_str (username u));
     ("discriminator", opt_str (discriminator u));
     ("avatar", VStr (avatar u)); ("banner", VStr (banner u));
     ("flags", VInt (flags u)); ("bot", VBool (bot u));
     ("verified", opt_bool (verified u))].

(** [Event('USER_INTERNAL_DISCONNECT', {'type': 'password-change'},
           user_id=user_id)] *)
Definition password_change_event (user_id : Z) : Event :=
  {| event_name := "USER_INTERNAL_DISCONNECT";
     event_data := VDict [("type", VStr "password-change")];
     event_guild_id := None;
     event_user_id := Some user_id;
     event_user_ids := None |}.

(** Modelled from the spec: [dispatch_event] is imported by [routes.py] from
    the database module, whose source at hand does not define it; the event
    sink of the specification is the fire-and-forget
    [dispatch(event_name, payload, target_user_id?)].  The event is added to
    what the sink has received. *)
Definition dispatch_event (st : Store) (channel : string) (event : Event)
  : Store :=
  with_dispatched st (dispatched st ++ [(channel, event)]).

(** What [Model.validate], which [row.update] runs before it writes, leaves
    on the instance it returns: a column that is unset and has a declared
    default holds the default.  Of the columns with a default only
    [verified] can be unset on a row read from the store.  The row written
    carries the keyword arguments only. *)
Definition validate (row : User) : User :=
  {| id := id row;
     email := email row;
     password := password row;
     username := username row;
     discriminator := discriminator row;
     avatar := avatar row;
     banner := banner row;
     flags := flags row;
     bot := bot row;
     verified :=
       match verified row with
       | Some b => Some b
       | None => Some false
       end |}.

(** [edit_me]: the record returned is [dict] of the instance [user.update]
    gives back, the row stored is the old row with the keyword arguments. *)
Definition edit_me `{PasswordHasher} `{Signer} (w : World) (st : Store)
  (json : EditUser) (authorization : option string)
  : result (value * Store) :=
  user <- authorize w st authorization None None ;;
  let new_email := given (edit_email json) in
  let new_discriminator := given (edit_discriminator json) in
  let new_username := given (edit_username json) in
  let new_password := given (edit_password json) in
  _ <- match new_discriminator with
       | Some d => is_available st (username user) (Some d)
       | None => Ok tt
       end ;;
  _ <- match new_username with
       | Some n =>
           is_available st (Some n)
             (or_else new_discriminator (discriminator user))
       | None => Ok tt
       end ;;
  let hashed := option_map (hasher_hash (salt w)) new_password in
  let st :=
    match new_password with
    | Some _ =>
        dispatch_event st "security" (password_change_event (id user))
    | None => st
    end in
  let query :=
    {| edit_email := new_email;
       edit_discriminator := new_discriminator;
       edit_username := new_username;
       edit_password := hashed |} in
  let update := validate (update_user query user) in
  let st :=
    with_users st
      (map (fun row => if id row =? id user then update_user query row
                       else row) (users st)) in
  Ok (objectify (dict_of_user update), st).

(** The answer of [get_gateway]. *)
Record Gateway : Type := mkGateway {
  url : string;
  shards : Z;
  session_start_limit : value
}.

(** [dict(row)] for a [GatewaySessionLimit] instance. *)
Definition dict_of_limit (row : GatewaySessionLimit) : value :=
  VDict
    [("user_id", opt_int (limit_user_id row)); ("total", VInt (total row));
     ("remaining", VInt (remaining row));
     ("max_concurrency", VInt (max_concurrency row))].

(** [d.pop(key)] on a mapping that has the key. *)
Definition pop (key : string) (d : value) : value :=
  match d with
  | VDict entries =>
      VDict (filter (fun kv => negb (String.eqb (fst kv) key)) entries)
  | _ => d
  end.

(** The instance of a row read with [defer(['user_id'])]. *)
Definition defer_user_id (row : GatewaySessionLimit) : GatewaySessionLimit :=
  {| limit_user_id := None;
     total := total row;
     remaining := remaining row;
     max_concurrency := max_concurrency row |}.

(** [GatewaySessionLimit.create(user_id=...)]: the row written now replaces
    the one under the same key. *)
Definition create_limit (w : World) (st : Store) (user_id : Z)
  : GatewaySessionLimit * Store :=
  let row := new_session_limit user_id in
  let others :=
    filter
      (fun entry : GatewaySessionLimit * Z =>
         match limit_user_id (fst entry) with
         | Some u => negb (u =? user_id)
         | None => true
         end) (gateway_session_limit st) in
  (row, with_limits st (others ++ [(row, now w)])).

(** [Member.objects(Member.user_id == user_id).count()] *)
Definition guild_count (st : Store) (user_id : Z) : Z :=
  count (filter (fun m => member_user_id m =? user_id) (members st)).

(** [get_gateway]; [int(guild_count / 1000)] truncates the quotient. *)
Definition get_gateway `{Signer} (w : World) (st : Store)
  (authorization : option string) : result (Gateway * Store) :=
  user <- authorize w st authorization (Some ["id"]) None ;;
  '(gateway_session_limit, st) <-
    match get (limits_by_user_id w st (id user)) with
    | Ok row => Ok (dict_of_limit (defer_user_id row), st)
    | Raise NotFound =>
        let (row, st) := create_limit w st (id user) in
        Ok (pop "user_id" (dict_of_limit row), st)
    | Raise e => Raise e
    end ;;
  let shards :=
    if bot user then Z.max (Z.quot (guild_count st (id user)) 1000) 1
    else 1 in
  Ok ({| url := "wss://gateway.derailed.one";
         shards := shards;
         session_start_limit := gateway_session_limit |}, st).

(** ** What the properties are stated with *)

(** What [TimestampSigner] guarantees for every key: its own signature
    verifies, and neither the encoded signature nor the encoded timestamp
    (both URL-safe base64) holds the separator. *)
Class SignerLaws (S : Signer) : Prop := {
  signature_verifies :
    forall key v, verify_signature key v (get_signature key v) = true;
  signature_no_sep :
    forall key v, Py.has_char Py.dot (get_signature key v) = false;
  timestamp_no_sep :
    forall t, Py.has_char Py.dot (encode_timestamp t) = false;
  timestamp_decodes :
    forall t, 0 <= t -> decode_timestamp (encode_timestamp t) = Some t
}.

(** The keyed signature binds the key: a signature made with one key does
    not verify with another. *)
Class KeyBinding (S : Signer) : Prop := {
  other_key_rejected :
    forall key key' v,
      key <> key' -> verify_signature key' v (get_signature key v) = false
}.

(** The three checks of [verify_token] that can reject a token. *)
Inductive failure_mode : Type :=
| MalformedToken
| UnknownUser
| SignatureMismatch.

Definition failure_message (m : failure_mode) : string :=
  match m with
  | MalformedToken => "Failed to get container volume for Authorization"
  | UnknownUser => "Object for Authorization not found"
  | SignatureMismatch => "Signature on Authorization is Invalid"
  end.

(** When each check rejects: the id segment does not decode, the row of the
    decoded id cannot be fetched, the signature does not verify with the
    stored password. *)
Inductive rejects `{Signer} (st : Store) (token : string)
  : failure_mode -> Prop :=
| rejects_malformed :
    token_user_id token = None -> rejects st token MalformedToken
| rejects_unknown (user_id : Z) (e : exn) :
    token_user_id token = Some user_id ->
    get (users_by_id st user_id) = Raise e ->
    rejects st token UnknownUser
| rejects_signature (user_id : Z) (row : User) (key : string) :
    token_user_id token = Some user_id ->
    get (users_by_id st user_id) = Ok row ->
    password row = Some key ->
    unsign key token = Raise BadSignature ->
    rejects st token SignatureMismatch.

(** The normalization as the specification words it: every integer field
    above the bound or named after permissions becomes a string, in nested
    mappings and sequences at any depth. *)
Fixpoint normalize_spec (data : value) : value :=
  match data with
  | VDict entries =>
      VDict
        (map
           (fun kv : string * value =>
              let (k, v) := kv in
              if must_stringify k v then (k, str v)
              else (k, normalize_spec v)) entries)
  | VList items => VList (map normalize_spec items)
  | _ => data
  end.

(** Records in which no mapping is the direct value of a field. *)
Fixpoint nested_through_lists (data : value) : bool :=
  match data with
  | VDict entries =>
      forallb
        (fun kv : string * value =>
           match snd kv with
           | VDict _ => false
           | VList items => forallb nested_through_lists items
           | _ => true
           end) entries
  | VList items => forallb nested_through_lists items
  | _ => true
  end.

(** The user a registration created, if it did. *)
Definition registered (r : result (User * Store)) : option User :=
  match r with
  | Ok (user, _) => Some user
  | Raise _ => None
  end.

(** A pick collides when the row of the tag is found, and is free when the
    query raises [NotFound]. *)
Definition collides (st : Store) (username : string) (d : string) : Prop :=
  exists row, get (users_by_tag st (Some username) (Some d)) = Ok row.

Definition free (st : Store) (username : string) (d : string) : Prop :=
  get (users_by_tag st (Some username) (Some d)) = Raise NotFound.

(** ** Sample collaborators and stores

    Small instances of the three interfaces and a few stores, on which the
    functions above can be run. *)

Module Sample.

(** The [n] integers from [first] on. *)
Fixpoint range (first : Z) (n : nat) : list Z :=
  match n with
  | O => []
  | Datatypes.S n' => first :: range (first + 1) n'
  end.

Definition ends_with (suffix s : string) : bool :=
  let n := String.length suffix in
  String.eqb (String.substring (String.length s - n) n s) suffix.

(** A hasher that keeps the password after the salt. *)
Definition hasher : PasswordHasher :=
  {| hasher_hash := fun salt pw => salt ++ "$" ++ pw;
     hasher_verify := fun stored pw =>
       if ends_with ("$" ++ pw) stored then Verified
       else VerifyMismatchError |}.

(** A code generator that changes every 30 seconds. *)
Definition totp : TOTPOracle :=
  {| totp_now := fun secret t => secret ++ Py.str_int (t / 30) |}.

(** A signer whose signature is the encoded key and value. *)
Definition signer : Signer :=
  {| get_signature := fun key v => Py.b64encode (key ++ ":" ++ v);
     verify_signature := fun key v sig =>
       String.eqb sig (Py.b64encode (key ++ ":" ++ v));
     encode_timestamp := fun t => Py.b64encode (Py.str_int t);
     decode_timestamp := fun ts =>
       match Py.b64decode ts with
       | Some b => Py.int b
       | None => None
       end |}.

Definition world : World :=
  {| now := 1667000000;
     forged := 77;
     salt := "s";
     rolls := fun i => 9001 + Z.of_nat i |}.

(** A world whose rolls start at 1. *)
Definition low_rolls : World :=
  {| now := 1667000000;
     forged := 78;
     salt := "s";
     rolls := fun i => 1 + Z.of_nat i |}.

Definition new_alice : Credentials :=
  {| json_email := "alice@example.com";
     json_username := "alice";
     json_password := "tea-party";
     json_code := None |}.

Definition alice : User :=
  {| id := 42;
     email := Some "alice@example.org";
     password := Some "s$wonderland";
     username := Some "alice";
     discriminator := Some "0001";
     avatar := "";
     banner := "";
     flags := 0;
     bot := false;
     verified := Some true |}.

Definition robot : User :=
  {| id := 7;
     email := Some "robot@example.org";
     password := Some "s$beep";
     username := Some "robot";
     discriminator := Some "0001";
     avatar := "";
     banner := "";
     flags := 0;
     bot := true;
     verified := Some true |}.

Definition alice_settings : Settings :=
  {| settings_user_id := 42;
     locale := "en-US";
     developer_mode := false;
     theme := "dark";
     status := "invisible";
     mfa_enabled := true;
     mfa_code := Some "JBSWY3DPEHPK3PXP";
     friend_requests_off := false |}.

(** Alice has MFA enabled and two recovery codes; the robot is a bot
    account with 5000 guild memberships. *)
Definition store : Store :=
  {| users := [alice; robot];
     settings := [alice_settings; new_settings 7];
     recovery_codes :=
       [ {| recovery_user_id := 42; code := "recovery-one" |};
         {| recovery_user_id := 42; code := "recovery-two" |} ];
     members :=
       map (fun g => {| member_guild_id := g; member_user_id := 7 |})
         (range 1 (Z.to_nat 5000));
     gateway_session_limit := [];
     dispatched := [] |}.

Definition empty_store : Store :=
  {| users := [];
     settings := [];
     recovery_codes := [];
     members := [];
     gateway_session_limit := [];
     dispatched := [] |}.

(** The code [totp] shows at the time of [world]. *)
Definition live_code : string := "JBSWY3DPEHPK3PXP55566666".

Definition login_with (c : option mfa_code_arg) : Credentials :=
  {| json_email := "alice@example.org";
     json_username := "";
     json_password := "wonderland";
     json_code := c |}.

Definition bob (n : Z) : User :=
  {| id := 1000 + n;
     email := Some ("bob" ++ Py.str_int n ++ "@example.org");
     password := Some "s$builder";
     username := Some "bob";
     discriminator := Some (Py.format_04d n);
     avatar := "";
     banner := "";
     flags := 0;
     bot := false;
     verified := Some true |}.

(** 9000 users named bob, with the discriminators 0001 to 9000. *)
Definition crowded_store : Store :=
  with_users empty_store (map bob (range 1 (Z.to_nat 9000))).

Definition new_bob : Credentials :=
  {| json_email := "newbob@example.org";
     json_username := "bob";
     json_password := "builder";
     json_code := None |}.

(** A mapping that is the direct value of a field. *)
Definition nested_record : value :=
  VDict [("role", VDict [("permissions", VInt 8); ("id", VInt 3000000000)])].

End Sample.

(** ** More of [database.py] and [routes.py] *)

(** [s.split(sep)] for a one-character separator: never an empty list. *)
Fixpoint split_on (sep : ascii) (s : string) : list string :=
  match s with
  | EmptyString => [EmptyString]
  | String c rest =>
      if Ascii.eqb c sep then EmptyString :: split_on sep rest
      else
        match split_on sep rest with
        | head :: tail => String c head :: tail
        | [] => [String c EmptyString]
        end
  end.

(** [sep.join(parts)] *)
Fixpoint join_with (sep : ascii) (parts : list string) : string :=
  match parts with
  | [] => EmptyString
  | [part] => part
  | part :: rest => part ++ String sep (join_with sep rest)
  end.

(** [get_hosts], given what [os.getenv('SCYLLA_HOSTS')] returned. *)
Definition get_hosts (hs : option string) : option (list string) :=
  match hs with
  | None => None
  | Some hs => Some (split_on ","%char hs)
  end.

(** [d.get(key)] on a mapping. *)
Definition dict_get (key : string) (d : value) : option value :=
  match d with
  | VDict entries =>
      option_map snd
        (find (fun kv : string * value => String.eqb (fst kv) key) entries)
  | _ => None
  end.

Definition set_verified (row : User) (v : option bool) : User :=
  {| id := id row;
     email := email row;
     password := password row;
     username := username row;
     discriminator := discriminator row;
     avatar := avatar row;
     banner := banner row;
     flags := flags row;
     bot := bot row;
     verified := v |}.

(** [get_me]: the record read without the [password] column; an unset
    [verified] is written back as [False]. *)
Definition get_me `{Signer} (w : World) (st : Store)
  (authorization : option string) : result (value * Store) :=
  me <- authorize w st authorization None (Some (NameList ["password"])) ;;
  match verified me with
  | None =>
      let st :=
        with_users st
          (map (fun row => if id row =? id me
                           then set_verified row (Some false) else row)
             (users st)) in
      Ok (dict_of_user (set_verified me (Some false)), st)
  | Some _ => Ok (dict_of_user me, st)
  end.

(** ** What the further properties are stated with *)

(** The keyword arguments [edit_me] collects in [query]. *)
Definition edit_query `{PasswordHasher} (w : World) (json : EditUser)
  : EditUser :=
  {| edit_email := given (edit_email json);
     edit_discriminator := given (edit_discriminator json);
     edit_username := given (edit_username json);
     edit_password :=
       option_map (hasher_hash (salt w)) (given (edit_password json)) |}.

(** What argon2's hasher guarantees: a hash verifies against the password
    it was made from. *)
Class HasherLaws (H : PasswordHasher) : Prop := {
  hash_verifies :
    forall salt pw, hasher_verify (hasher_hash salt pw) pw = Verified
}.

(** No two users share a (username, discriminator) pair. *)
Definition unique_tags (st : Store) : Prop :=
  forall name d,
    (List.length (users_by_tag st (Some name) (Some d)) <= 1)%nat.

(** No two users share an id (it is the primary key). *)
Definition unique_ids (st : Store) : Prop :=
  forall user_id, (List.length (users_by_id st user_id) <= 1)%nat.

(** No two users share an email. *)
Definition unique_emails (st : Store) : Prop :=
  forall e, (List.length (users_by_email st e) <= 1)%nat.

(** The ledger rows of a user, live or expired. *)
Definition ledger_rows (st : Store) (user_id : Z)
  : list (GatewaySessionLimit * Z) :=
  filter
    (fun entry : GatewaySessionLimit * Z =>
       match limit_user_id (fst entry) with
       | Some u => u =? user_id
       | None => false
       end) (gateway_session_limit st).

(** The ledger holds at most one row per user. *)
Definition unique_ledger (st : Store) : Prop :=
  forall user_id, (List.length (ledger_rows st user_id) <= 1)%nat.

(** [y] is [x] with some of its integers and booleans replaced by what
    [str] prints for them, and nothing else changed: same keys in the same
    order, same lengths, same strings. *)
Fixpoint only_stringified (x y : value) : bool :=
  match x, y with
  | VNone, VNone => true
  | VBool b, VBool b' => Bool.eqb b b'
  | VBool b, VStr s => String.eqb s (Py.str_bool b)
  | VInt n, VInt n' => n =? n'
  | VInt n, VStr s => String.eqb s (Py.str_int n)
  | VStr s, VStr s' => String.eqb s s'
  | VList xs, VList ys =>
      (fix go (xs ys : list value) {struct xs} : bool :=
         match xs, ys with
         | [], [] => true
         | x :: xs, y :: ys => only_stringified x y && go xs ys
         | _, _ => false
         end) xs ys
  | VDict xs, VDict ys =>
      (fix go (xs ys : list (string * value)) {struct xs} : bool :=
         match xs, ys with
         | [], [] => true
         | kx :: xs, ky :: ys =>
             String.eqb (fst kx) (fst ky)
             && only_stringified (snd kx) (snd ky) && go xs ys
         | _, _ => false
         end) xs ys
  | _, _ => false
  end.

(** The two loops of [only_stringified]. *)
Fixpoint items_stringified (xs ys : list value) : bool :=
  match xs, ys with
  | [], [] => true
  | x :: xs, y :: ys => only_stringified x y && items_stringified xs ys
  | _, _ => false
  end.

Fixpoint entries_stringified (xs ys : list (string * value)) : bool :=
  match xs, ys with
  | [], [] => true
  | kx :: xs, ky :: ys =>
      String.eqb (fst kx) (fst ky)
      && only_stringified (snd kx) (snd ky) && entries_stringified xs ys
  | _, _ => false
  end.

(** More sample data. *)
Module Fixture.

(** A user whose [verified] column was never set. *)
Definition carol : User :=
  {| id := 99;
     email := Some "carol@example.org";
     password := Some "s$croquet";
     username := Some "carol";
     discriminator := Some "0420";
     avatar := "";
     banner := "";
     flags := 0;
     bot := false;
     verified := None |}.

Definition store : Store :=
  {| users := [Sample.alice; Sample.robot; carol];
     settings := [Sample.alice_settings; new_settings 7; new_settings 99];
     recovery_codes := recovery_codes Sample.store;
     members := [];
     gateway_session_limit := [];
     dispatched := [] |}.

Definition alice_token : string :=
  @create_token Sample.signer Sample.world 42 "s$wonderland".

Definition carol_token : string :=
  @create_token Sample.signer Sample.world 99 "s$croquet".

Definition robot_token : string :=
  @create_token Sample.signer Sample.world 7 "s$beep".

Definition no_edit : EditUser :=
  {| edit_email := None;
     edit_discriminator := None;
     edit_username := None;
     edit_password := None |}.

Definition later : World :=
  {| now := 1667003600;
     forged := 79;
     salt := "t";
     rolls := fun i => 5000 + Z.of_nat i |}.

Definition much_later : World :=
  {| now := 1667050000;
     forged := 80;
     salt := "u";
     rolls := fun i => 6000 + Z.of_nat i |}.

(** Carol's row once [verified] is written, and carol as [get_me] shows
    her. *)
Definition carol_verified : User := set_verified carol (Some false).

Definition carol_seen : User :=
  {| id := 99;
     email := Some "carol@example.org";
     password := None;
     username := Some "carol";
     discriminator := Some "0420";
     avatar := "";
     banner := "";
     flags := 0;
     bot := false;
     verified := Some false |}.

Definition seen_store : Store :=
  with_users store [Sample.alice; Sample.robot; carol_verified].

(** An edit of every field. *)
Definition carol_edit : EditUser :=
  {| edit_email := Some "carol@example.com";
     edit_discriminator := Some "0421";
     edit_username := Some "caroline";
     edit_password := Some "mallet" |}.

Definition carol_edited : User :=
  {| id := 99;
     email := Some "carol@example.com";
     password := Some "s$mallet";
     username := Some "caroline";
     discriminator := Some "0421";
     avatar := "";
     banner := "";
     flags := 0;
     bot := false;
     verified := None |}.

Definition edited_store : Store :=
  with_dispatched
    (with_users store [Sample.alice; Sample.robot; carol_edited])
    [("security", password_change_event 99)].

(** An edit of the username alone. *)
Definition rename : EditUser :=
  {| edit_email := None;
     edit_discriminator := None;
     edit_username := Some "caroline";
     edit_password := None |}.

Definition carol_renamed : User :=
  {| id := 99;
     email := Some "carol@example.org";
     password := Some "s$croquet";
     username := Some "caroline";
     discriminator := Some "0420";
     avatar := "";
     banner := "";
     flags := 0;
     bot := false;
     verified := None |}.

Definition renamed_store : Store :=
  with_users store [Sample.alice; Sample.robot; carol_renamed].

(** Carol sends the username she has. *)
Definition same_name : EditUser :=
  {| edit_email := None;
     edit_discriminator := None;
     edit_username := Some "carol";
     edit_password := None |}.

(** An edit of the email alone, to the address alice has. *)
Definition email_only : EditUser :=
  {| edit_email := Some "alice@example.org";
     edit_discriminator := None;
     edit_username := None;
     edit_password := None |}.

(** The registration of a second alice in [Sample.world]. *)
Definition new_alice_row : User :=
  {| id := 77;
     email := Some "alice@example.com";
     password := Some "s$tea-party";
     username := Some "alice";
     discriminator := Some "9001";
     avatar := "";
     banner := "";
     flags := 0;
     bot := false;
     verified := Some false |}.

Definition registered_store : Store :=
  with_settings
    (with_users store
       [Sample.alice; Sample.robot; carol; new_alice_row])
    [Sample.alice_settings; new_settings 7; new_settings 99;
     new_settings 77].

Definition new_alice_token : string :=
  @create_token Sample.signer Sample.world 77 "s$tea-party".

Definition new_alice_login : Credentials :=
  {| json_email := "alice@example.com";
     json_username := "";
     json_password := "tea-party";
     json_code := Some (CodeStr "000000") |}.

Definition robot_login : Credentials :=
  {| json_email := "robot@example.org";
     json_username := "";
     json_password := "beep";
     json_code := None |}.

(** Carol as [authorize] gives her for [fields=['id']]. *)
Definition carol_by_id : User :=
  {| id := 99;
     email := None;
     password := Some "s$croquet";
     username := None;
     discriminator := None;
     avatar := "";
     banner := "";
     flags := 0;
     bot := false;
     verified := Some false |}.

Definition fresh_limit : value :=
  VDict [("total", VInt 1000); ("remaining", VInt 1000);
         ("max_concurrency", VInt 16)].

Definition first_gateway : Gateway :=
  {| url := "wss://gateway.derailed.one";
     shards := 1;
     session_start_limit := fresh_limit |}.

(** The store after carol's first call of [get_gateway] in
    [Sample.world]. *)
Definition gateway_store : Store :=
  with_limits store [(new_session_limit 99, 1667000000)].

(** A record with an id above the 32-bit bound and two permission
    fields. *)
Definition role_record : list (string * value) :=
  [("id", VInt 3000000000); ("permissions", VInt 8);
   ("has_permissions", VBool true); ("name", VStr "admin")].

(** Carol after she has taken the address alice has. *)
Definition carol_shared : User :=
  {| id := 99;
     email := Some "alice@example.org";
     password := Some "s$croquet";
     username := Some "carol";
     discriminator := Some "0420";
     avatar := "";
     banner := "";
     flags := 0;
     bot := false;
     verified := None |}.

Definition shared_email_store : Store :=
  with_users store [Sample.alice; Sample.robot; carol_shared].

(** A login with a password that no user has. *)
Definition wrong_password (address : string) : Credentials :=
  {| json_email := address;
     json_username := "";
     json_password := "looking-glass";
     json_code := None |}.

(** The robot as [authorize] gives it for [fields=['id']]: the [bot] column
    was not read. *)
Definition robot_by_id : User :=
  {| id := 7;
     email := None;
     password := Some "s$beep";
     username := None;
     discriminator := None;
     avatar := "";
     banner := "";
     flags := 0;
     bot := false;
     verified := Some false |}.

(** The store after the robot's first call of [get_gateway], an hour after
    carol's. *)
Definition two_limits_store : Store :=
  with_limits store
    [(new_session_limit 99, 1667000000); (new_session_limit 7, 1667003600)].

End Fixture.

(** * Properties *)

(** ** The Python primitives *)

Module PyFacts.

Import Py.

(** Strings can be taken three bytes at a time, as [b64encode] does. *)
Lemma string_triples_ind (P : string -> Prop) :
  P EmptyString ->
  (forall a, P (String a EmptyString)) ->
  (forall a b, P (String a (String b EmptyString))) ->
  (forall a b c rest, P rest -> P (String a (String b (String c rest)))) ->
  forall s, P s.
Proof.
  intros H0 H1 H2 H3.
  assert (Hboth : forall s, P s /\ (forall a, P (String a s)) /\
                            (forall a b, P (String a (String b s)))).
  { induction s as [ | c s [IH0 [IH1 IH2]]].
    - auto.
    - split; [apply IH1 | split; [intros a; apply IH2 | ] ].
      intros a b. apply H3, IH0. }
  intros s. apply Hboth.
Qed.

Lemma has_char_app (c : ascii) (s t : string) :
  has_char c (s ++ t) = has_char c s || has_char c t.
Proof.
  induction s as [ | a s IH]; simpl; [reflexivity | ].
  rewrite IH. apply orb_assoc.
Qed.

(** *** Separators *)

Lemma split_head_app (p rest : string) :
  has_char dot p = false ->
  split_head (p ++ String dot rest) = p.
Proof.
  induction p as [ | a p IH]; simpl; intros H.
  - reflexivity.
  - apply orb_false_elim in H as [Ha Hp]. rewrite Ha, IH; auto.
Qed.

Lemma rsplit1_no_dot (s : string) :
  has_char dot s = false -> rsplit1 s = None.
Proof.
  induction s as [ | a s IH]; simpl; intros H; [reflexivity | ].
  apply orb_false_elim in H as [Ha Hs]. now rewrite IH, Ha.
Qed.

Lemma rsplit1_app (l r : string) :
  has_char dot r = false ->
  rsplit1 (l ++ String dot r) = Some (l, r).
Proof.
  intros Hr. induction l as [ | a l IH]; simpl.
  - now rewrite (rsplit1_no_dot r Hr).
  - now rewrite IH.
Qed.

(** *** Base64 *)

Lemma get_not_dot (s : string) :
  has_char dot s = false ->
  forall n, Ascii.eqb
              (match String.get n s with Some c => c | None => pad end)
              dot = false.
Proof.
  induction s as [ | a s IH]; simpl; intros H n.
  - reflexivity.
  - apply orb_false_elim in H as [Ha Hs].
    destruct n as [ | n]; [exact Ha | apply IH, Hs].
Qed.

Lemma b2a_not_dot (d : N) : Ascii.eqb (b2a d) dot = false.
Proof. unfold b2a. apply get_not_dot. reflexivity. Qed.

(** An encoded byte string holds no separator. *)
Lemma b64encode_no_dot (s : string) : has_char dot (b64encode s) = false.
Proof.
  induction s as [ | a | a b | a b c rest IH] using string_triples_ind.
  - reflexivity.
  - cbn [b64encode has_char]. rewrite !b2a_not_dot. reflexivity.
  - cbn [b64encode has_char]. rewrite !b2a_not_dot. reflexivity.
  - cbn [b64encode has_char]. rewrite !b2a_not_dot, IH. reflexivity.
Qed.

Lemma a2b_b2a_nat (n : nat) :
  (n < 64)%nat ->
  a2b (b2a (N.of_nat n)) = Some (N.of_nat n) /\
  Ascii.eqb (b2a (N.of_nat n)) pad = false.
Proof.
  intros H.
  do 64 (destruct n as [ | n]; [split; reflexivity | ]).
  lia.
Qed.

Lemma a2b_b2a (d : N) : (d < 64)%N -> a2b (b2a d) = Some d.
Proof.
  intros H. rewrite <- (N2Nat.id d). apply a2b_b2a_nat. lia.
Qed.

Lemma b2a_not_pad (d : N) : (d < 64)%N -> Ascii.eqb (b2a d) pad = false.
Proof.
  intros H. rewrite <- (N2Nat.id d). apply a2b_b2a_nat. lia.
Qed.

Lemma byte_bound (x : ascii) : (N_of_ascii x < 256)%N.
Proof. apply N_ascii_bounded. Qed.

(** One turn of the decoding loop on a character of the alphabet. *)
Lemma a2b_base64_data (d : N) (rest : string) (quad_pos leftchar pads : N) :
  (d < 64)%N ->
  a2b_base64 (String (b2a d) rest) quad_pos leftchar pads =
  match quad_pos with
  | 0%N => a2b_base64 rest 1%N d 0%N
  | 1%N =>
      emit (leftchar * 4 + d / 16)%N (a2b_base64 rest 2%N (d mod 16)%N 0%N)
  | 2%N =>
      emit (leftchar * 16 + d / 4)%N (a2b_base64 rest 3%N (d mod 4)%N 0%N)
  | _ => emit (leftchar * 64 + d)%N (a2b_base64 rest 0%N 0%N 0%N)
  end.
Proof.
  intros H. cbn [a2b_base64].
  now rewrite (b2a_not_pad d H), (a2b_b2a d H).
Qed.

Lemma emit_byte (n : N) (x : ascii) (r : option string) (s : string) :
  n = N_of_ascii x -> r = Some s -> emit n r = Some (String x s).
Proof.
  intros -> ->. unfold emit.
  rewrite N.mod_small by apply byte_bound.
  now rewrite ascii_N_embedding.
Qed.

Ltac bytes_lia :=
  repeat match goal with
         | H : (N_of_ascii ?x < 256)%N |- _ =>
             generalize dependent (N_of_ascii x); intros
         end; zify; Z.to_euclidean_division_equations; lia.

Lemma a2b_base64_b64encode (s : string) :
  forall leftchar pads,
    a2b_base64 (b64encode s) 0 leftchar pads = Some s.
Proof.
  induction s as [ | x | x y | x y z rest IH] using string_triples_ind;
    intros leftchar pads.
  - reflexivity.
  - pose proof (byte_bound x).
    cbn [b64encode]; cbv zeta.
    rewrite a2b_base64_data by bytes_lia.
    rewrite a2b_base64_data by bytes_lia.
    apply emit_byte; [bytes_lia | reflexivity].
  - pose proof (byte_bound x). pose proof (byte_bound y).
    cbn [b64encode]; cbv zeta.
    do 3 rewrite a2b_base64_data by bytes_lia.
    apply emit_byte; [bytes_lia | ].
    apply emit_byte; [bytes_lia | reflexivity].
  - pose proof (byte_bound x). pose proof (byte_bound y).
    pose proof (byte_bound z).
    cbn [b64encode]; cbv zeta.
    do 4 rewrite a2b_base64_data by bytes_lia.
    apply emit_byte; [bytes_lia | ].
    apply emit_byte; [bytes_lia | ].
    apply emit_byte; [bytes_lia | apply IH].
Qed.

(** Decoding an encoded byte string gives it back. *)
Lemma b64decode_b64encode (s : string) : b64decode (b64encode s) = Some s.
Proof. apply a2b_base64_b64encode. Qed.

(** *** Decimal integers *)

Lemma string_of_uint_digits (d : Decimal.uint) :
  all_digits (NilEmpty.string_of_uint d) = true.
Proof. induction d; simpl; auto. Qed.

Lemma string_of_uint_nonempty (d : Decimal.uint) :
  d <> Decimal.Nil -> NilEmpty.string_of_uint d <> EmptyString.
Proof. destruct d; simpl; congruence. Qed.

Lemma digit_facts (c : ascii) :
  is_digit c = true ->
  (is_space c = false) /\ (Ascii.eqb c "_"%char = false) /\
  (Ascii.eqb c "-"%char = false) /\ (Ascii.eqb c "+"%char = false).
Proof.
  destruct c as [[] [] [] [] [] [] [] []]; cbv; intros H;
    try discriminate H; repeat split; reflexivity.
Qed.

Lemma lstrip_digits (s : string) :
  all_digits s = true ->
  lstrip (list_ascii_of_string s) = list_ascii_of_string s.
Proof.
  destruct s as [ | c s]; simpl; [reflexivity | ].
  intros H. apply andb_prop in H as [Hc _].
  now destruct (digit_facts c Hc) as [-> _].
Qed.

Lemma lstrip_rev_digits (s : string) :
  all_digits s = true ->
  lstrip (rev (list_ascii_of_string s)) = rev (list_ascii_of_string s).
Proof.
  intros H.
  assert (Hall : Forall (fun c => is_space c = false)
                   (rev (list_ascii_of_string s))).
  { apply Forall_rev. induction s as [ | c s IH]; simpl in *.
    - constructor.
    - apply andb_prop in H as [Hc Hs]. constructor; auto.
      apply (digit_facts c Hc). }
  destruct Hall as [ | c l Hc _]; simpl; [reflexivity | now rewrite Hc].
Qed.

Lemma strip_digits (s : string) : all_digits s = true -> strip s = s.
Proof.
  intros H. unfold strip.
  rewrite (lstrip_digits s H), (lstrip_rev_digits s H), rev_involutive.
  apply string_of_list_ascii_of_string.
Qed.

Lemma strip_minus_digits (s : string) :
  all_digits s = true -> s <> EmptyString ->
  strip (String "-"%char s) = String "-"%char s.
Proof.
  intros H Hne. unfold strip.
  change (lstrip (list_ascii_of_string (String "-"%char s)))
    with (list_ascii_of_string (String "-"%char s)).
  cbn [list_ascii_of_string rev].
  assert (Hrev : lstrip (rev (list_ascii_of_string s) ++ ["-"%char])%list =
                 (rev (list_ascii_of_string s) ++ ["-"%char])%list).
  { pose proof (lstrip_rev_digits s H) as Hl.
    destruct (rev (list_ascii_of_string s)) as [ | c l] eqn:E.
    - reflexivity.
    - simpl in *. destruct (is_space c); [ | reflexivity].
      exfalso. clear -Hl.
      assert (Hlen : (List.length (lstrip l) <= List.length l)%nat).
      { clear. induction l as [ | a l IH]; simpl; [lia | ].
        destruct (is_space a); simpl; lia. }
      rewrite Hl in Hlen. simpl in Hlen. lia. }
  rewrite Hrev, rev_app_distr, rev_involutive. simpl.
  now rewrite string_of_list_ascii_of_string.
Qed.

Lemma drop_underscores_digits (s : string) (after_digit : bool) :
  all_digits s = true ->
  (s = EmptyString -> after_digit = true) ->
  drop_underscores s after_digit = Some s.
Proof.
  revert after_digit.
  induction s as [ | c s IH]; simpl; intros after_digit H Hne.
  - now rewrite Hne.
  - apply andb_prop in H as [Hc Hs].
    destruct (digit_facts c Hc) as (_ & -> & _).
    now rewrite IH.
Qed.

Lemma int_digits (d : Decimal.uint) :
  d <> Decimal.Nil ->
  int (NilEmpty.string_of_uint d) = Some (Z.of_int (Decimal.Pos d)).
Proof.
  intros Hd. unfold int.
  pose proof (string_of_uint_digits d) as Hall.
  pose proof (string_of_uint_nonempty d Hd) as Hne.
  rewrite (strip_digits _ Hall).
  destruct (NilEmpty.string_of_uint d) as [ | c s] eqn:E; [congruence | ].
  assert (Hc : is_digit c = true)
    by (simpl in Hall; now apply andb_prop in Hall).
  destruct (digit_facts c Hc) as (_ & _ & Hminus & Hplus).
  assert (Hsplit :
            match String c s with
            | String "-"%char rest => (true, rest)
            | String "+"%char rest => (false, rest)
            | _ => (false, String c s)
            end = (false, String c s)).
  { clear -Hminus Hplus.
    destruct c as [[] [] [] [] [] [] [] []]; try reflexivity;
      discriminate. }
  rewrite Hsplit, drop_underscores_digits by (auto; discriminate).
  now rewrite <- E, NilEmpty.usu.
Qed.

Lemma int_minus_digits (d : Decimal.uint) :
  d <> Decimal.Nil ->
  int (String "-"%char (NilEmpty.string_of_uint d)) =
  Some (Z.of_int (Decimal.Neg d)).
Proof.
  intros Hd. unfold int.
  pose proof (string_of_uint_digits d) as Hall.
  pose proof (string_of_uint_nonempty d Hd) as Hne.
  rewrite (strip_minus_digits _ Hall Hne).
  rewrite drop_underscores_digits by (auto; intros; congruence).
  now rewrite NilEmpty.usu.
Qed.

(** [int(str(n).encode())] is [n]. *)
Lemma int_str_int (n : Z) : int (str_int n) = Some n.
Proof.
  unfold str_int.
  rewrite <- (DecimalZ.of_to n) at 2.
  destruct n as [ | p | p]; simpl Z.to_int.
  - reflexivity.
  - unfold NilZero.string_of_int, NilZero.string_of_uint.
    pose proof (Unsigned.to_uint_nonnil p) as Hp.
    destruct (Pos.to_uint p) eqn:E; try congruence;
      rewrite <- E; apply int_digits; congruence.
  - unfold NilZero.string_of_int, NilZero.string_of_uint.
    pose proof (Unsigned.to_uint_nonnil p) as Hp.
    destruct (Pos.to_uint p) eqn:E; try congruence;
      rewrite <- E; apply int_minus_digits; congruence.
Qed.

End PyFacts.

(** ** Value normalization *)

Lemma objectify_list (items : list value) :
  objectify (VList items) = VList (map objectify_item items).
Proof. reflexivity. Qed.

Lemma objectify_dict (entries : list (string * value)) :
  objectify (VDict entries) = VDict (map objectify_entry entries).
Proof. reflexivity. Qed.

Lemma must_stringify_str (k : string) (v : value) :
  must_stringify k v = true -> must_stringify k (str v) = false.
Proof.
  destruct v; simpl; try discriminate; reflexivity.
Qed.

Lemma objectify_item_idem (item : value) :
  objectify (objectify item) = objectify item ->
  objectify_item (objectify_item item) = objectify_item item.
Proof.
  destruct item; simpl; intros H; try reflexivity; exact H.
Qed.

Lemma objectify_entry_idem (kv : string * value) :
  objectify (objectify (snd kv)) = objectify (snd kv) ->
  objectify_entry (objectify_entry kv) = objectify_entry kv.
Proof.
  destruct kv as [k v]; simpl; intros H.
  destruct (must_stringify k v) eqn:E.
  - simpl. rewrite (must_stringify_str _ _ E).
    destruct v; simpl in *; try discriminate; reflexivity.
  - destruct v; simpl; rewrite ?E; try reflexivity.
    change (must_stringify k (VList (map objectify_item items))) with false.
    rewrite !objectify_list in H. injection H as H. rewrite H. reflexivity.
Qed.

(** C3: [objectify] is idempotent: for every record [x],
    [objectify (objectify x)] equals [objectify x]. *)
Theorem objectify_idempotent (x : value) :
  objectify (objectify x) = objectify x.
Proof.
  induction x as [ | b | n | s | items IH | entries IH ]
    using value_nested_ind; try reflexivity.
  - rewrite !objectify_list, map_map. f_equal.
    apply map_ext_in. intros item Hin.
    apply objectify_item_idem.
    rewrite Forall_forall in IH. now apply IH.
  - rewrite !objectify_dict, map_map. f_equal.
    apply map_ext_in. intros kv Hin.
    apply objectify_entry_idem.
    rewrite Forall_forall in IH. now apply IH.
Qed.

(** C2: on a mapping that is the direct value of a field [objectify] changes
    nothing: the field [id] above the bound and the field [permissions]
    inside it stay integers, where the normalization of the specification
    makes both strings. *)
Theorem objectify_skips_nested_mapping :
  objectify Sample.nested_record = Sample.nested_record /\
  normalize_spec Sample.nested_record =
    VDict [("role", VDict [("permissions", VStr "8");
                           ("id", VStr "3000000000")])] /\
  objectify Sample.nested_record <> normalize_spec Sample.nested_record.
Proof.
  split; [reflexivity | split; [reflexivity | discriminate]].
Qed.

Lemma normalize_spec_item (item : value) :
  (nested_through_lists item = true -> objectify item = normalize_spec item) ->
  nested_through_lists item = true ->
  objectify_item item = normalize_spec item.
Proof.
  destruct item; simpl; intros IH H; try reflexivity; now apply IH.
Qed.

(** Where mappings are nested through sequences only, [objectify] is the
    normalization of the specification: the fields of the record itself and
    of every mapping reached through sequences are rewritten. *)
Lemma objectify_normalizes_through_lists (x : value) :
  nested_through_lists x = true -> objectify x = normalize_spec x.
Proof.
  induction x as [ | b | n | s | items IH | entries IH ]
    using value_nested_ind; try reflexivity; intros Hx.
  - rewrite objectify_list. cbn [normalize_spec]. f_equal.
    apply map_ext_in. intros item Hin.
    rewrite Forall_forall in IH. cbn [nested_through_lists] in Hx.
    rewrite forallb_forall in Hx.
    apply normalize_spec_item; auto.
  - rewrite objectify_dict. cbn [normalize_spec]. f_equal.
    apply map_ext_in. intros [k v] Hin.
    rewrite Forall_forall in IH. specialize (IH _ Hin).
    cbn [nested_through_lists] in Hx. rewrite forallb_forall in Hx.
    specialize (Hx _ Hin). cbn [snd] in *.
    unfold objectify_entry.
    destruct (must_stringify k v); [reflexivity | ].
    destruct v; try reflexivity; try discriminate.
    rewrite <- IH by exact Hx. now rewrite objectify_list.
Qed.

(** The top-level fields of a mapping are always rewritten. *)
Lemma objectify_top_level_field (entries : list (string * value))
  (k : string) (n : Z) :
  In (k, VInt n) entries ->
  n > MAX_INT32 \/ Py.contains "permissions" k = true ->
  exists entries',
    objectify (VDict entries) = VDict entries' /\
    In (k, VStr (Py.str_int n)) entries'.
Proof.
  intros Hin Hcond. exists (map objectify_entry entries). split.
  - apply objectify_dict.
  - apply in_map_iff. exists (k, VInt n). split; [ | exact Hin].
    unfold objectify_entry, must_stringify. cbn [as_int].
    destruct Hcond as [Hbig | Hname].
    + assert (Hgt : (n >? MAX_INT32) = true) by (apply Z.gtb_lt; lia).
      now rewrite Hgt.
    + now rewrite Hname, orb_true_r.
Qed.

(** ** Login and MFA *)

Section login_facts.

Context {H : PasswordHasher} {T : TOTPOracle} {S : Signer}.

(** With MFA enabled, [verify_mfa] lets a code through exactly when it is
    both a recovery code and the live code. *)
Lemma verify_mfa_accepts (w : World) (st : Store) (user_id : Z)
  (c : option mfa_code_arg) (setting : Settings) (secret : string) :
  get (filter (fun s => settings_user_id s =? user_id) (settings st)) =
    Ok setting ->
  mfa_enabled setting = true ->
  mfa_code setting = Some secret ->
  (verify_mfa w st user_id c = Ok tt <->
   code_missing c = false /\
   code_in c (get_recoveries st user_id) = true /\
   code_eqb c (totp_now secret (now w)) = true).
Proof.
  intros Hget Hon Hsecret. unfold verify_mfa.
  rewrite Hget. cbn [bind]. rewrite Hon, Hsecret.
  destruct (code_missing c);
    [split; [discriminate | intros (? & _); discriminate] | ].
  destruct (code_in c (get_recoveries st user_id));
    cbn [negb]; [ | split; [discriminate | intros (_ & ? & _); discriminate]].
  destruct (code_eqb c (totp_now secret (now w))); cbn [negb].
  - split; auto.
  - split; [discriminate | intros (_ & _ & ?); discriminate].
Qed.

(** With MFA enabled and the password right, [login] hands out a token
    exactly when the code is both a recovery code and the live code. *)
Lemma login_mfa_needs_both (w : World) (st : Store) (json : Credentials)
  (row : User) (stored : string) (setting : Settings) (secret : string) :
  get (users_by_email st (json_email json)) = Ok row ->
  password row = Some stored ->
  hasher_verify stored (json_password json) = Verified ->
  get (filter (fun s => settings_user_id s =? id row) (settings st)) =
    Ok setting ->
  mfa_enabled setting = true ->
  mfa_code setting = Some secret ->
  ((exists token, login w st json = Ok token) <->
   code_missing (json_code json) = false /\
   code_in (json_code json) (get_recoveries st (id row)) = true /\
   code_eqb (json_code json) (totp_now secret (now w)) = true).
Proof.
  intros Hrow Hstored Hright Hsetting Hon Hsecret.
  rewrite <- (verify_mfa_accepts w st (id row) (json_code json) setting secret
                Hsetting Hon Hsecret).
  unfold login, get_user.
  change (select_fields ["password"; "id"] []) with (Ok ["id"; "password"]).
  cbn [bind]. rewrite Hrow. cbn [bind].
  change (password (instance w ["id"; "password"] row)) with (password row).
  change (id (instance w ["id"; "password"] row)) with (id row).
  rewrite Hstored, Hright.
  destruct (verify_mfa w st (id row) (json_code json)) as [[] | e]; cbn [bind].
  - split; [reflexivity | eexists; reflexivity].
  - split; [intros [token Htoken]; discriminate | discriminate].
Qed.

(** Where the email of the request belongs to exactly one user, a wrong
    password and an email that is absent raise the same error: status 400
    and the message [Invalid email or password]. *)
Lemma login_failures_indistinguishable (w w' : World) (st : Store)
  (known unknown : Credentials) (row : User) (stored : string) :
  get (users_by_email st (json_email known)) = Ok row ->
  password row = Some stored ->
  hasher_verify stored (json_password known) = VerifyMismatchError ->
  get (users_by_email st (json_email unknown)) = Raise NotFound ->
  login w st known = Raise (HTTPError 400 "Invalid email or password") /\
  login w' st unknown = Raise (HTTPError 400 "Invalid email or password") /\
  login w st known = login w' st unknown.
Proof.
  intros Hrow Hstored Hwrong Habsent.
  assert (Hknown : login w st known =
                   Raise (HTTPError 400 "Invalid email or password")).
  { unfold login, get_user. cbn [select_fields bind].
    change (select_fields ["password"; "id"] [])
      with (Ok ["id"; "password"]).
    cbn [bind]. rewrite Hrow. cbn [bind instance password mem existsb].
    cbn. rewrite Hstored, Hwrong. reflexivity. }
  assert (Hunknown : login w' st unknown =
                     Raise (HTTPError 400 "Invalid email or password")).
  { unfold login, get_user.
    change (select_fields ["password"; "id"] [])
      with (Ok ["id"; "password"]).
    cbn [bind]. rewrite Habsent. reflexivity. }
  now rewrite Hknown, Hunknown.
Qed.

End login_facts.

(** C1: Alice has MFA enabled and her password matches; [login] with one of
    her recovery codes, and [login] with the live code of her secret, both
    raise the MFA-invalid error. *)
Theorem login_rejects_recovery_code_and_live_code :
  In "recovery-one" (get_recoveries Sample.store 42) /\
  @totp_now Sample.totp "JBSWY3DPEHPK3PXP" (now Sample.world) =
    Sample.live_code /\
  @login Sample.hasher Sample.totp Sample.signer Sample.world Sample.store
    (Sample.login_with (Some (CodeStr "recovery-one"))) =
    Raise (HTTPError 403 "mfa code is invalid.") /\
  @login Sample.hasher Sample.totp Sample.signer Sample.world Sample.store
    (Sample.login_with (Some (CodeStr Sample.live_code))) =
    Raise (HTTPError 403 "mfa code is invalid.").
Proof.
  split; [left; reflexivity | ].
  split; [vm_compute; reflexivity | ].
  split; vm_compute; reflexivity.
Qed.

(** C6: emails are unique in the store; carol then takes the address alice
    has, which [edit_me] writes without a check.  From then on [login] with
    that address and a password that is wrong for both holders raises
    [MultipleObjectsReturned], where [login] with an address that is absent
    raises the error 400: the two failures differ. *)
Theorem login_distinguishes_shared_email :
  unique_emails Fixture.store /\
  @edit_me Sample.hasher Sample.signer Sample.world Fixture.store
    Fixture.email_only (Some Fixture.carol_token) =
    Ok (objectify (dict_of_user (validate Fixture.carol_shared)),
        Fixture.shared_email_store) /\
  users_by_email Fixture.shared_email_store "alice@example.org" =
    [Sample.alice; Fixture.carol_shared] /\
  @hasher_verify Sample.hasher "s$wonderland" "looking-glass" =
    VerifyMismatchError /\
  @hasher_verify Sample.hasher "s$croquet" "looking-glass" =
    VerifyMismatchError /\
  @login Sample.hasher Sample.totp Sample.signer Sample.world
    Fixture.shared_email_store (Fixture.wrong_password "alice@example.org") =
    Raise MultipleObjectsReturned /\
  @login Sample.hasher Sample.totp Sample.signer Sample.world
    Fixture.shared_email_store (Fixture.wrong_password "nobody@example.org")
    = Raise (HTTPError 400 "Invalid email or password") /\
  @login Sample.hasher Sample.totp Sample.signer Sample.world
    Fixture.shared_email_store (Fixture.wrong_password "alice@example.org")
  <>
  @login Sample.hasher Sample.totp Sample.signer Sample.world
    Fixture.shared_email_store (Fixture.wrong_password "nobody@example.org").
Proof.
  split.
  { intros e. unfold users_by_email.
    cbn [users Fixture.store filter email Sample.alice Sample.robot
           Fixture.carol opt_eqb].
    destruct (String.eqb "alice@example.org" e) eqn:E1;
      destruct (String.eqb "robot@example.org" e) eqn:E2;
      destruct (String.eqb "carol@example.org" e) eqn:E3;
      cbn [List.length]; try lia;
      repeat match goal with
             | E : String.eqb _ _ = true |- _ => apply String.eqb_eq in E
             end;
      congruence. }
  repeat split; try (vm_compute; reflexivity).
  vm_compute. discriminate.
Qed.

(** ** The token codec *)

Lemma append_assoc (a b c : string) : (a ++ b) ++ c = a ++ (b ++ c).
Proof. induction a as [ | x a IH]; simpl; [reflexivity | now rewrite IH]. Qed.

Lemma get_filter_id (rows : list User) (user_id : Z) (row : User) :
  get (filter (fun u => id u =? user_id) rows) = Ok row -> id row = user_id.
Proof.
  intros Hget.
  assert (Hin : In row (filter (fun u => id u =? user_id) rows)).
  { destruct (filter (fun u => id u =? user_id) rows) as [ | r [ | r' l]];
      try discriminate. injection Hget as ->. now left. }
  apply filter_In in Hin as [_ Hid]. now apply Z.eqb_eq.
Qed.

Lemma instance_all_columns (w : World) (row : User) :
  instance w user_columns row = row.
Proof. destruct row; reflexivity. Qed.

Lemma get_user_password_only (w : World) (rows : list User) :
  get_user w rows ["password"] [] =
  match get rows with
  | Ok row => Ok (instance w ["password"] row)
  | Raise e => Raise e
  end.
Proof. unfold get_user. destruct (get rows); reflexivity. Qed.

Lemma get_user_all_columns (w : World) (rows : list User) :
  get_user w rows [] [] = get rows.
Proof.
  unfold get_user. destruct (get rows) as [row | e]; cbn; [ | reflexivity].
  now destruct row.
Qed.

Section token_facts.

Context {S : Signer}.

(** The id segment of an issued token decodes to the id it was issued
    for. *)
Lemma token_user_id_create_token (w0 : World) (user_id : Z) (key : string) :
  token_user_id (create_token w0 user_id key) = Some user_id.
Proof.
  unfold token_user_id, create_token, sign.
  rewrite !append_assoc.
  change ("." ++ ?x) with (String Py.dot x).
  rewrite PyFacts.split_head_app by apply PyFacts.b64encode_no_dot.
  rewrite PyFacts.b64decode_b64encode. apply PyFacts.int_str_int.
Qed.

Lemma rsplit1_create_token (w0 : World) (user_id : Z) (key : string) :
  SignerLaws S ->
  let payload := Py.b64encode (Py.str_int user_id) in
  let stamped := payload ++ "." ++ encode_timestamp (now w0) in
  Py.rsplit1 (create_token w0 user_id key) =
    Some (stamped, get_signature key stamped) /\
  Py.rsplit1 stamped = Some (payload, encode_timestamp (now w0)).
Proof.
  intros laws payload stamped. unfold create_token, sign.
  fold payload. fold stamped. split.
  - apply PyFacts.rsplit1_app, signature_no_sep.
  - apply PyFacts.rsplit1_app, timestamp_no_sep.
Qed.

(** A token verifies with the key it was signed with. *)
Lemma unsign_create_token (w0 : World) (user_id : Z) (key : string) :
  SignerLaws S ->
  0 <= now w0 ->
  unsign key (create_token w0 user_id key) =
  Ok (Py.b64encode (Py.str_int user_id)).
Proof.
  intros laws Hnow.
  destruct (rsplit1_create_token w0 user_id key laws) as [Hsig Hts].
  unfold unsign. rewrite Hsig, signature_verifies, Hts.
  now rewrite timestamp_decodes.
Qed.

(** A token does not verify with another key. *)
Lemma unsign_other_key (w0 : World) (user_id : Z) (key key' : string) :
  SignerLaws S ->
  KeyBinding S ->
  key <> key' ->
  unsign key' (create_token w0 user_id key) = Raise BadSignature.
Proof.
  intros laws binding Hkeys.
  destruct (rsplit1_create_token w0 user_id key laws) as [Hsig _].
  unfold unsign. rewrite Hsig. now rewrite other_key_rejected.
Qed.

(** [verify_token] up to the signature check. *)
Lemma verify_token_checked (w : World) (st : Store) (token : string)
  (fields rm_fields : option names) (user_id : Z) (row : User)
  (key payload : string) :
  token_user_id token = Some user_id ->
  get (users_by_id st user_id) = Ok row ->
  password row = Some key ->
  unsign key token = Ok payload ->
  verify_token w st (Some token) fields rm_fields =
  let fields := as_list fields in
  let rm_fields := as_list rm_fields in
  let rows := users_by_id st user_id in
  if is_id_only fields then
    Ok (set_id (instance w ["password"] row) user_id)
  else if truthy fields && truthy rm_fields then
    get_user w rows (or_empty fields) (or_empty rm_fields)
  else if truthy fields then get_user w rows (or_empty fields) []
  else if truthy rm_fields then get_user w rows [] (or_empty rm_fields)
  else get_user w rows [] [].
Proof.
  intros Hid Hrow Hkey Hsig. unfold verify_token.
  rewrite Hid, get_user_password_only, Hrow.
  cbn [instance mem existsb String.eqb Ascii.eqb Bool.eqb orb password].
  change (password (instance w ["password"] row)) with (password row).
  rewrite Hkey, Hsig. reflexivity.
Qed.

(** C4: a token created for a user id and a password hash, verified against
    a store that holds that hash under that id, is accepted, and the record
    returned is the user's, with the originating id. *)
Theorem create_token_verify_token (w0 w : World) (st : Store) (user_id : Z)
  (password_hash : string) (row : User) :
  SignerLaws S ->
  0 <= now w0 ->
  get (users_by_id st user_id) = Ok row ->
  password row = Some password_hash ->
  verify_token w st (Some (create_token w0 user_id password_hash)) None None =
    Ok row /\
  id row = user_id.
Proof.
  intros laws Hnow Hrow Hkey. split.
  - rewrite (verify_token_checked w st _ None None user_id row password_hash
               (Py.b64encode (Py.str_int user_id))); auto.
    + cbv zeta. cbn [as_list is_id_only truthy andb or_empty].
      now rewrite get_user_all_columns.
    + apply token_user_id_create_token.
    + now apply unsign_create_token.
  - eapply get_filter_id. exact Hrow.
Qed.

(** [verify_token] reads the [users] table only: there is no revocation list
    among what it consults. *)
Lemma verify_token_reads_users_only (w : World) (st st' : Store)
  (token : option string) (fields rm_fields : option names) :
  users st = users st' ->
  verify_token w st token fields rm_fields =
  verify_token w st' token fields rm_fields.
Proof.
  intros Husers. unfold verify_token, users_by_id. now rewrite Husers.
Qed.

(** A token issued under one hash is rejected once the row holds
    another. *)
Lemma stale_token_rejected (w0 w : World) (st : Store) (user_id : Z)
  (old_hash new_hash : string) (row : User)
  (fields rm_fields : option names) :
  SignerLaws S ->
  KeyBinding S ->
  get (users_by_id st user_id) = Ok row ->
  password row = Some new_hash ->
  old_hash <> new_hash ->
  verify_token w st (Some (create_token w0 user_id old_hash)) fields rm_fields =
    Raise (HTTPError 401 "Signature on Authorization is Invalid").
Proof.
  intros laws binding Hrow Hkey Hdiff. unfold verify_token.
  rewrite token_user_id_create_token, get_user_password_only, Hrow.
  change (password (instance w ["password"] row)) with (password row).
  rewrite Hkey, unsign_other_key; auto.
Qed.

(** C5: once the stored password hash of a user differs from the hash a
    token was issued under, [verify_token] rejects the token with status
    401, whatever projection is asked for; the outcome is the same in every
    store with the same [users] table, so nothing but that table is
    consulted. *)
Theorem password_change_invalidates_token (w0 w : World) (st : Store)
  (user_id : Z) (old_hash new_hash : string) (row : User)
  (fields rm_fields : option names) :
  SignerLaws S ->
  KeyBinding S ->
  get (users_by_id st user_id) = Ok row ->
  password row = Some new_hash ->
  old_hash <> new_hash ->
  verify_token w st (Some (create_token w0 user_id old_hash)) fields rm_fields =
    Raise (HTTPError 401 "Signature on Authorization is Invalid") /\
  (forall st',
      users st' = users st ->
      verify_token w st' (Some (create_token w0 user_id old_hash))
        fields rm_fields =
      Raise (HTTPError 401 "Signature on Authorization is Invalid")).
Proof.
  intros laws binding Hrow Hkey Hdiff. split.
  - now apply (stale_token_rejected w0 w st user_id old_hash new_hash row).
  - intros st' Husers.
    rewrite (verify_token_reads_users_only w st' st) by exact Husers.
    now apply (stale_token_rejected w0 w st user_id old_hash new_hash row).
Qed.

(** C8 (amended): each of the three failure modes of [verify_token] raises
    an HTTP error with status 401, with the message of the check that
    failed; the three messages differ. *)
Theorem verify_token_failures_are_401 (w : World) (st : Store)
  (token : string) (fields rm_fields : option names) (m : failure_mode) :
  rejects st token m ->
  verify_token w st (Some token) fields rm_fields =
    Raise (HTTPError 401 (failure_message m)) /\
  (forall m', failure_message m' = failure_message m -> m' = m).
Proof.
  intros Hrej. split.
  - destruct Hrej
      as [Hid | user_id e Hid Hrow | user_id row key Hid Hrow Hkey Hsig];
      unfold verify_token; rewrite Hid.
    + reflexivity.
    + rewrite get_user_password_only, Hrow. reflexivity.
    + rewrite get_user_password_only, Hrow.
      change (password (instance w ["password"] row)) with (password row).
      now rewrite Hkey, Hsig.
  - intros m'. destruct m, m'; simpl; intros Heq;
      try reflexivity; discriminate Heq.
Qed.

(** C10: with [fields='id'] the string is first turned into the list of its
    characters, so the id-only case is missed: a token that verifies runs
    the query with the projection [['i', 'd']], which the store client
    refuses; no record is returned. *)
Theorem verify_token_id_string (w : World) (st : Store) (token : string) :
  verify_token w st (Some token) (Some (NameStr "id")) None =
  match verify_token w st (Some token) None None with
  | Ok _ => Raise QueryException
  | Raise e => Raise e
  end.
Proof.
  unfold verify_token.
  destruct (token_user_id token) as [user_id | ]; [ | reflexivity].
  rewrite get_user_password_only.
  destruct (get (users_by_id st user_id)) as [row | e] eqn:Hrow;
    [ | reflexivity].
  destruct (password (instance w ["password"] row)) as [key | ];
    [ | reflexivity].
  destruct (unsign key token) as [payload | e]; [ | now destruct e].
  cbv zeta. cbn [as_list chars is_id_only truthy andb or_empty].
  rewrite get_user_all_columns, Hrow. reflexivity.
Qed.

(** With [fields=['id']] a token that verifies gives the instance read with
    the [password] column alone, its id then assigned: the stored password
    hash and the id, every other column at its default. *)
Lemma verify_token_id_list (w0 w : World) (st : Store) (user_id : Z)
  (password_hash : string) (row : User) :
  SignerLaws S ->
  0 <= now w0 ->
  get (users_by_id st user_id) = Ok row ->
  password row = Some password_hash ->
  verify_token w st (Some (create_token w0 user_id password_hash))
    (Some (NameList ["id"])) None =
  Ok {| id := user_id;
        email := None;
        password := Some password_hash;
        username := None;
        discriminator := None;
        avatar := "";
        banner := "";
        flags := 0;
        bot := false;
        verified := Some false |}.
Proof.
  intros laws Hnow Hrow Hkey.
  rewrite (verify_token_checked w st _ _ _ user_id row password_hash
             (Py.b64encode (Py.str_int user_id))); auto.
  - cbv zeta. cbn [as_list is_id_only String.eqb Ascii.eqb Bool.eqb].
    unfold set_id, instance. cbn. now rewrite Hkey.
  - apply token_user_id_create_token.
  - now apply unsign_create_token.
Qed.

End token_facts.

(** ** Discriminator allocation *)

Lemma pick_discriminator_all_collide (w : World) (st : Store)
  (username : string) (left : nat) :
  forall drawn,
    (forall i, (drawn <= i < drawn + left)%nat ->
               collides st username (roll_discriminator (rolls w i))) ->
    pick_discriminator w st username drawn left = Ok None.
Proof.
  induction left as [ | left IH]; intros drawn Hall; [reflexivity | ].
  cbn [pick_discriminator].
  destruct (Hall drawn) as [row Hrow]; [lia | ].
  rewrite Hrow. apply IH. intros i Hi. apply Hall. lia.
Qed.

Lemma pick_discriminator_first_free (w : World) (st : Store)
  (username : string) (left : nat) :
  forall drawn k,
    (k < left)%nat ->
    (forall i, (drawn <= i < drawn + k)%nat ->
               collides st username (roll_discriminator (rolls w i))) ->
    free st username (roll_discriminator (rolls w (drawn + k))) ->
    pick_discriminator w st username drawn left =
    Ok (Some (roll_discriminator (rolls w (drawn + k)))).
Proof.
  induction left as [ | left IH]; intros drawn k Hk Hbefore Hfree; [lia | ].
  cbn [pick_discriminator].
  destruct k as [ | k].
  - rewrite Nat.add_0_r in Hfree. unfold free in Hfree.
    rewrite Hfree, Nat.add_0_r. reflexivity.
  - destruct (Hbefore drawn) as [row Hrow]; [lia | ].
    rewrite Hrow.
    replace (drawn + Datatypes.S k)%nat with (Datatypes.S drawn + k)%nat
      in * by lia.
    apply IH; [lia | | exact Hfree].
    intros i Hi. apply Hbefore. lia.
Qed.

(** C7 (amended): with the email unused, a registration is rejected
    outright when more than 9000 users carry the username; with 9000 or
    fewer, the first of the ten picks that is free becomes the
    discriminator, and when all ten collide the registration is rejected
    with the same error. *)
Theorem discriminator_allocation {H : PasswordHasher} (w : World)
  (st : Store) (json : Credentials) :
  get (users_by_email st (json_email json)) = Raise NotFound ->
  let name := json_username json in
  let used := count (users_by_username st (Some name)) in
  let pick := fun i => roll_discriminator (rolls w i) in
  let saturated :=
    Raise (HTTPError 400 "Too many people are using this username.") in
  (used > 9000 -> create_user w st json = saturated) /\
  (used <= 9000 ->
   (forall i, (i < 10)%nat -> collides st name (pick i)) ->
   create_user w st json = saturated) /\
  (used <= 9000 ->
   forall k, (k < 10)%nat ->
   (forall i, (i < k)%nat -> collides st name (pick i)) ->
   free st name (pick k) ->
   exists user st',
     create_user w st json = Ok (user, st') /\
     username user = Some name /\
     discriminator user = Some (pick k) /\
     users st' = (users st ++ [user])%list).
Proof.
  intros Hemail name used pick saturated.
  unfold create_user, get_available_discriminator, is_too_used.
  rewrite Hemail. fold name. fold used.
  repeat split.
  - intros Hused.
    assert (Hgt : (used >? 9000) = true) by (apply Z.gtb_lt; lia).
    now rewrite Hgt.
  - intros Hused Hall.
    assert (Hgt : (used >? 9000) = false)
      by (rewrite Z.gtb_ltb; apply Z.ltb_ge; lia).
    rewrite Hgt. cbn [bind].
    rewrite pick_discriminator_all_collide; [reflexivity | ].
    intros i Hi. apply Hall. lia.
  - intros Hused k Hk Hbefore Hfree.
    assert (Hgt : (used >? 9000) = false)
      by (rewrite Z.gtb_ltb; apply Z.ltb_ge; lia).
    rewrite Hgt. cbn [bind].
    rewrite (pick_discriminator_first_free w st name 10 0 k); auto.
    + cbn [bind plus]. eexists _, _. repeat split.
    + intros i Hi. apply Hbefore. lia.
Qed.

(** ** Gateway session limits *)

Section gateway_facts.

Context {S : Signer}.

(** The record [authorize] gives for [['id']] was read without the [bot]
    column. *)
Lemma authorize_id_only_bot (w : World) (st : Store) (token : option string)
  (user : User) :
  authorize w st token (Some ["id"]) None = Ok user -> bot user = false.
Proof.
  unfold authorize, verify_token. cbn [option_map].
  destruct token as [token | ]; [ | discriminate].
  destruct (token_user_id token) as [user_id | ]; [ | discriminate].
  rewrite get_user_password_only.
  destruct (get (users_by_id st user_id)) as [row | e]; [ | discriminate].
  destruct (password (instance w ["password"] row)) as [key | ];
    [ | discriminate].
  destruct (unsign key token) as [payload | e]; [ | destruct e; discriminate].
  cbv zeta. cbn [as_list is_id_only String.eqb Ascii.eqb Bool.eqb].
  intros Huser. injection Huser as <-. reflexivity.
Qed.

(** C9: whenever [get_gateway] answers, the shard count is 1, for bot
    accounts as well: [user.bot] is read on a record fetched without that
    column. *)
Theorem get_gateway_single_shard (w : World) (st : Store)
  (authorization : option string) (g : Gateway) (st' : Store) :
  get_gateway w st authorization = Ok (g, st') -> shards g = 1.
Proof.
  unfold get_gateway.
  destruct (authorize w st authorization (Some ["id"]) None)
    as [user | e] eqn:Hauth; [ | discriminate].
  pose proof (authorize_id_only_bot w st authorization user Hauth) as Hbot.
  cbn [bind].
  destruct (get (limits_by_user_id w st (id user))) as [row | e].
  - cbn [bind]. rewrite Hbot. intros Hg. injection Hg as <- _. reflexivity.
  - destruct e; try discriminate.
    destruct (create_limit w st (id user)) as [row st1].
    cbn [bind]. rewrite Hbot. intros Hg. injection Hg as <- _. reflexivity.
Qed.

(** With no live ledger entry, a fresh one with the defaults is written and
    returned without the [user_id] key. *)
Lemma get_gateway_creates_default_limit (w : World) (st : Store)
  (authorization : option string) (user : User) :
  authorize w st authorization (Some ["id"]) None = Ok user ->
  limits_by_user_id w st (id user) = [] ->
  exists g st',
    get_gateway w st authorization = Ok (g, st') /\
    session_start_limit g =
      VDict [("total", VInt 1000); ("remaining", VInt 1000);
             ("max_concurrency", VInt 16)] /\
    In (new_session_limit (id user), now w) (gateway_session_limit st').
Proof.
  intros Hauth Hnone. unfold get_gateway.
  rewrite Hauth. cbn [bind]. rewrite Hnone. cbn [get].
  unfold create_limit. cbn. eexists _, _. repeat split.
  apply in_or_app. right. now left.
Qed.

(** A live ledger entry is returned as it is read with [user_id]
    deferred: the counters of the row, and [None] under [user_id]. *)
Lemma get_gateway_existing_limit (w : World) (st : Store)
  (authorization : option string) (user : User)
  (row : GatewaySessionLimit) :
  authorize w st authorization (Some ["id"]) None = Ok user ->
  limits_by_user_id w st (id user) = [row] ->
  exists g,
    get_gateway w st authorization = Ok (g, st) /\
    session_start_limit g =
      VDict [("user_id", VNone); ("total", VInt (total row));
             ("remaining", VInt (remaining row));
             ("max_concurrency", VInt (max_concurrency row))].
Proof.
  intros Hauth Hrow. unfold get_gateway.
  rewrite Hauth. cbn [bind]. rewrite Hrow. cbn. eexists. split; reflexivity.
Qed.

End gateway_facts.

(** ** Password change *)

Lemma filter_id_map (f : User -> User) (user_id : Z) (rows : list User) :
  (forall row, id (f row) = id row) ->
  filter (fun u => id u =? user_id) (map f rows) =
  map f (filter (fun u => id u =? user_id) rows).
Proof.
  intros Hid. induction rows as [ | row rows IH]; cbn; [reflexivity | ].
  rewrite Hid, IH. now destruct (id row =? user_id).
Qed.

(** [edit_me] with a password stores its new hash in the user's row and
    hands the disconnect event to the event sink. *)
Lemma edit_me_stores_new_hash {H : PasswordHasher} {S : Signer} (w : World)
  (st st' : Store) (json : EditUser) (authorization : option string)
  (ret : value) (user row : User) (p : string) :
  authorize w st authorization None None = Ok user ->
  get (users_by_id st (id user)) = Ok row ->
  given (edit_password json) = Some p ->
  edit_me w st json authorization = Ok (ret, st') ->
  (exists row',
      get (users_by_id st' (id user)) = Ok row' /\
      password row' = Some (hasher_hash (salt w) p)) /\
  dispatched st' =
    (dispatched st ++ [("security", password_change_event (id user))])%list.
Proof.
  intros Hauth Hrow Hp. unfold edit_me. rewrite Hauth. cbn [bind].
  destruct (match given (edit_discriminator json) with
            | Some d => is_available st (username user) (Some d)
            | None => Ok tt
            end); [ | discriminate].
  cbn [bind].
  destruct (match given (edit_username json) with
            | Some n => _
            | None => Ok tt
            end); [ | discriminate].
  cbn [bind]. rewrite Hp. cbn [option_map].
  intros Hret. injection Hret as _ <-. split; [ | reflexivity].
  unfold users_by_id, dispatch_event in *.
  cbn [users with_users with_dispatched].
  set (query := {| edit_email := _ |}).
  assert (Hmap :
            filter (fun u => id u =? id user)
              (map (fun r => if id r =? id user then update_user query r
                             else r) (users st)) =
            map (update_user query)
              (filter (fun u => id u =? id user) (users st))).
  { clear. induction (users st) as [ | r rows IH]; cbn; [reflexivity | ].
    destruct (id r =? id user) eqn:E.
    - cbn. rewrite E. cbn. now rewrite IH.
    - rewrite E. exact IH. }
  rewrite Hmap.
  destruct (filter (fun u => id u =? id user) (users st))
    as [ | r [ | r' rows]]; try discriminate.
  injection Hrow as ->. cbn. eexists. split; reflexivity.
Qed.

(** After [edit_me] has changed the password, a token issued under any other
    hash is rejected. *)
Lemma edit_me_invalidates_tokens {H : PasswordHasher} {S : Signer}
  (w0 w w' : World) (st st' : Store) (json : EditUser)
  (authorization : option string) (ret : value) (user row : User)
  (p old_hash : string) (fields rm_fields : option names) :
  SignerLaws S ->
  KeyBinding S ->
  authorize w st authorization None None = Ok user ->
  get (users_by_id st (id user)) = Ok row ->
  given (edit_password json) = Some p ->
  edit_me w st json authorization = Ok (ret, st') ->
  old_hash <> hasher_hash (salt w) p ->
  verify_token w' st' (Some (create_token w0 (id user) old_hash))
    fields rm_fields =
  Raise (HTTPError 401 "Signature on Authorization is Invalid").
Proof.
  intros laws binding Hauth Hrow Hp Hedit Hdiff.
  destruct (edit_me_stores_new_hash w st st' json authorization ret user row
              p Hauth Hrow Hp Hedit) as [(row' & Hrow' & Hnew) _].
  now apply (stale_token_rejected w0 w' st' (id user) old_hash
               (hasher_hash (salt w) p) row').
Qed.

(** ** The sample collaborators satisfy the laws *)

Lemma append_inv_tail (a b c : string) : a ++ c = b ++ c -> a = b.
Proof.
  intros Heq.
  assert (Hlist : forall x y,
             list_ascii_of_string (x ++ y) =
             (list_ascii_of_string x ++ list_ascii_of_string y)%list).
  { intros x y.
    induction x as [ | ch x IH]; cbn; [ | rewrite IH]; reflexivity. }
  apply (f_equal list_ascii_of_string) in Heq. rewrite !Hlist in Heq.
  apply app_inv_tail in Heq.
  rewrite <- (string_of_list_ascii_of_string a).
  rewrite <- (string_of_list_ascii_of_string b). now rewrite Heq.
Qed.

Lemma b64encode_inj (a b : string) :
  Py.b64encode a = Py.b64encode b -> a = b.
Proof.
  intros Heq. apply (f_equal Py.b64decode) in Heq.
  rewrite !PyFacts.b64decode_b64encode in Heq. now injection Heq.
Qed.

Lemma sample_signer_laws : SignerLaws Sample.signer.
Proof.
  constructor;
    cbv [decode_timestamp encode_timestamp get_signature verify_signature
           Sample.signer].
  - intros key v. apply String.eqb_refl.
  - intros key v. apply PyFacts.b64encode_no_dot.
  - intros t. apply PyFacts.b64encode_no_dot.
  - intros t _. rewrite PyFacts.b64decode_b64encode.
    apply PyFacts.int_str_int.
Qed.

Lemma sample_signer_binds_key : KeyBinding Sample.signer.
Proof.
  constructor; cbv [get_signature verify_signature Sample.signer].
  intros key key' v Hdiff.
  apply String.eqb_neq. intros Heq. apply Hdiff.
  apply b64encode_inj in Heq. symmetry. now apply append_inv_tail in Heq.
Qed.

(** ** The theorems at sample inputs *)

Lemma create_token_verify_token_witness :
  @verify_token Sample.signer Sample.world Sample.store
    (Some (@create_token Sample.signer Sample.world 42 "s$wonderland"))
    None None = Ok Sample.alice /\
  id Sample.alice = 42.
Proof.
  apply (@create_token_verify_token Sample.signer Sample.world Sample.world
           Sample.store 42 "s$wonderland" Sample.alice).
  - exact sample_signer_laws.
  - cbn. lia.
  - reflexivity.
  - reflexivity.
Defined.

Lemma password_change_invalidates_token_witness :
  @verify_token Sample.signer Sample.world Sample.store
    (Some (@create_token Sample.signer Sample.world 42 "s$rabbit-hole"))
    None None =
  Raise (HTTPError 401 "Signature on Authorization is Invalid").
Proof.
  apply (proj1
           (@password_change_invalidates_token Sample.signer Sample.world
              Sample.world Sample.store 42 "s$rabbit-hole" "s$wonderland"
              Sample.alice None None sample_signer_laws
              sample_signer_binds_key eq_refl eq_refl
              ltac:(discriminate))).
Defined.

(** C8: a token whose id segment does not decode and a token of an unknown
    user are both rejected, with errors that differ. *)
Lemma verify_token_failures_differ :
  @rejects Sample.signer Sample.store "!!!.x.y" MalformedToken /\
  @rejects Sample.signer Sample.store
    (@create_token Sample.signer Sample.world 999 "s$nobody") UnknownUser /\
  @verify_token Sample.signer Sample.world Sample.store (Some "!!!.x.y")
    None None <>
  @verify_token Sample.signer Sample.world Sample.store
    (Some (@create_token Sample.signer Sample.world 999 "s$nobody"))
    None None.
Proof.
  split; [ | split].
  - apply rejects_malformed. reflexivity.
  - apply (rejects_unknown Sample.store _ 999 NotFound); reflexivity.
  - vm_compute. discriminate.
Qed.

Lemma verify_token_failures_are_401_witness :
  @verify_token Sample.signer Sample.world Sample.store
    (Some (@create_token Sample.signer Sample.world 42 "s$rabbit-hole"))
    None None =
  Raise (HTTPError 401 (failure_message SignatureMismatch)).
Proof.
  refine (proj1
            (@verify_token_failures_are_401 Sample.signer Sample.world
               Sample.store
               (@create_token Sample.signer Sample.world 42 "s$rabbit-hole")
               None None SignatureMismatch _)).
  apply (@rejects_signature Sample.signer Sample.store
           (@create_token Sample.signer Sample.world 42 "s$rabbit-hole")
           42 Sample.alice "s$wonderland");
    vm_compute; reflexivity.
Defined.

Lemma range_lower_bound (n : nat) :
  forall first x, In x (Sample.range first n) -> first <= x.
Proof.
  induction n as [ | n IH]; cbn; intros first x Hin; [contradiction | ].
  destruct Hin as [<- | Hin]; [lia | ]. apply IH in Hin. lia.
Qed.

Lemma range_NoDup (n : nat) : forall first, NoDup (Sample.range first n).
Proof.
  induction n as [ | n IH]; cbn; intros first; constructor; [ | apply IH].
  intros Hin. apply range_lower_bound in Hin. lia.
Qed.

Lemma crowded_store_distinct :
  NoDup (map discriminator
           (users_by_username Sample.crowded_store (Some "bob"))).
Proof.
  apply (NoDup_map_inv
           (fun d => match d with
                     | Some s =>
                         option_map Z.of_uint (NilEmpty.uint_of_string s)
                     | None => None
                     end)).
  rewrite map_map.
  replace (map _ (users_by_username Sample.crowded_store (Some "bob")))
    with (map Some (Sample.range 1 (Z.to_nat 9000)))
    by (vm_compute; reflexivity).
  apply Injective_map_NoDup; [ | apply range_NoDup].
  intros n m Heq. now injection Heq.
Qed.

(** C7: 9000 users named bob hold 9000 distinct discriminators, and a
    further bob is registered, with the discriminator 9001. *)
Lemma registration_with_9000_in_use :
  count (users_by_username Sample.crowded_store (Some "bob")) = 9000 /\
  NoDup (map discriminator
           (users_by_username Sample.crowded_store (Some "bob"))) /\
  registered
    (@create_user Sample.hasher Sample.world Sample.crowded_store
       Sample.new_bob) =
  Some {| id := 77;
          email := Some "newbob@example.org";
          password := Some "s$builder";
          username := Some "bob";
          discriminator := Some "9001";
          avatar := "";
          banner := "";
          flags := 0;
          bot := false;
          verified := Some false |}.
Proof.
  split; [vm_compute; reflexivity | ].
  split; [exact crowded_store_distinct | vm_compute; reflexivity].
Qed.

Lemma discriminator_allocation_witness :
  exists user st',
    @create_user Sample.hasher Sample.low_rolls Sample.store
      Sample.new_alice = Ok (user, st') /\
    username user = Some "alice" /\
    discriminator user = Some "0002" /\
    users st' = (users Sample.store ++ [user])%list.
Proof.
  pose proof (@discriminator_allocation Sample.hasher Sample.low_rolls
                Sample.store Sample.new_alice eq_refl) as Hcases.
  cbv zeta in Hcases. destruct Hcases as (_ & _ & Hfree).
  apply (Hfree ltac:(vm_compute; discriminate) 1%nat ltac:(lia)).
  - intros i Hi. assert (i = 0%nat) as -> by lia.
    exists Sample.alice. reflexivity.
  - reflexivity.
Defined.

Lemma get_gateway_single_shard_witness :
  bot Sample.robot = true /\
  guild_count Sample.store 7 = 5000 /\
  exists g st',
    @get_gateway Sample.signer Sample.world Sample.store
      (Some (@create_token Sample.signer Sample.world 7 "s$beep")) =
      Ok (g, st') /\
    shards g = 1.
Proof.
  split; [reflexivity | ]. split; [vm_compute; reflexivity | ].
  eexists _, _. split; [vm_compute; reflexivity | ].
  eapply (@get_gateway_single_shard Sample.signer Sample.world Sample.store
            (Some (@create_token Sample.signer Sample.world 7 "s$beep"))).
  vm_compute. reflexivity.
Defined.

(** * Further properties *)

(** ** Token verification *)

Lemma get_singleton {A : Type} (rows : list A) (row : A) :
  get rows = Ok row -> rows = [row].
Proof.
  destruct rows as [ | r [ | r' rows]]; try discriminate.
  intros Hget. now injection Hget as ->.
Qed.

Section more_token_facts.

Context {S : Signer}.

(** The record read with the default projection is the one row of its
    id. *)
Lemma authorize_default_row (w : World) (st : Store)
  (authorization : option string) (row : User) :
  authorize w st authorization None None = Ok row ->
  users_by_id st (id row) = [row].
Proof.
  unfold authorize, verify_token. cbn [option_map].
  destruct authorization as [tok | ]; [ | discriminate].
  destruct (token_user_id tok) as [user_id | ]; [ | discriminate].
  rewrite get_user_password_only.
  destruct (get (users_by_id st user_id)) as [row' | e] eqn:Hrow;
    [ | discriminate].
  destruct (password (instance w ["password"] row')) as [key | ];
    [ | discriminate].
  destruct (unsign key tok) as [payload | e]; [ | destruct e; discriminate].
  cbv zeta. cbn [as_list is_id_only truthy andb or_empty].
  rewrite get_user_all_columns, Hrow. intros Hok. injection Hok as ->.
  rewrite (get_filter_id _ _ _ Hrow). now apply get_singleton.
Qed.

(** X1: [verify_token] returns a record only for a token whose id segment
    decodes to the id of exactly one stored user and whose signature
    verifies with that user's stored password; with the default projection
    the record is that user's row. *)
Theorem verify_token_sound (w : World) (st : Store) (token : option string)
  (fields rm_fields : option names) (user : User) :
  verify_token w st token fields rm_fields = Ok user ->
  exists tok user_id row key payload,
    token = Some tok /\
    token_user_id tok = Some user_id /\
    users_by_id st user_id = [row] /\
    password row = Some key /\
    unsign key tok = Ok payload /\
    (fields = None -> rm_fields = None -> user = row).
Proof.
  unfold verify_token.
  destruct token as [tok | ]; [ | discriminate].
  destruct (token_user_id tok) as [user_id | ] eqn:Hid; [ | discriminate].
  rewrite get_user_password_only.
  destruct (get (users_by_id st user_id)) as [row | e] eqn:Hrow;
    [ | discriminate].
  change (password (instance w ["password"] row)) with (password row).
  destruct (password row) as [key | ] eqn:Hkey; [ | discriminate].
  destruct (unsign key tok) as [payload | e] eqn:Hsig;
    [ | destruct e; discriminate].
  intros Huser. exists tok, user_id, row, key, payload.
  split; [reflexivity | ]. split; [exact Hid | ].
  split; [now apply get_singleton | ].
  split; [exact Hkey | ]. split; [exact Hsig | ].
  intros -> ->. cbv zeta in Huser.
  cbn [as_list is_id_only truthy andb or_empty] in Huser.
  rewrite get_user_all_columns, Hrow in Huser. now injection Huser.
Qed.

(** X2: tokens issued for different user ids are different, whatever the
    passwords, the times and the signer. *)
Theorem create_token_distinct_users (w w' : World) (user_id user_id' : Z)
  (key key' : string) :
  user_id <> user_id' ->
  create_token w user_id key <> create_token w' user_id' key'.
Proof.
  intros Hdiff Heq. apply Hdiff.
  apply (f_equal token_user_id) in Heq.
  rewrite !token_user_id_create_token in Heq. now injection Heq.
Qed.

(** What [verify_token] answers for a token depends on the rows of the id
    in the token only. *)
Lemma verify_token_depends_on_rows (w : World) (st st' : Store)
  (tok : string) (fields rm_fields : option names) (user_id : Z) :
  token_user_id tok = Some user_id ->
  users_by_id st' user_id = users_by_id st user_id ->
  verify_token w st' (Some tok) fields rm_fields =
  verify_token w st (Some tok) fields rm_fields.
Proof.
  intros Hid Hrows. unfold verify_token. now rewrite Hid, Hrows.
Qed.

(** The record read with [rm_fields=['password']]. *)
Lemma authorize_without_password (w : World) (st : Store)
  (authorization : option string) (me : User) :
  authorize w st authorization None (Some (NameList ["password"])) = Ok me ->
  exists row,
    users_by_id st (id me) = [row] /\
    me = {| id := id row;
            email := email row;
            password := None;
            username := username row;
            discriminator := discriminator row;
            avatar := avatar row;
            banner := banner row;
            flags := flags row;
            bot := bot row;
            verified := verified row |}.
Proof.
  unfold authorize, verify_token. cbn [option_map].
  destruct authorization as [tok | ]; [ | discriminate].
  destruct (token_user_id tok) as [user_id | ]; [ | discriminate].
  rewrite get_user_password_only.
  destruct (get (users_by_id st user_id)) as [row | e] eqn:Hrow;
    [ | discriminate].
  destruct (password (instance w ["password"] row)) as [key | ];
    [ | discriminate].
  destruct (unsign key tok) as [payload | e]; [ | destruct e; discriminate].
  cbv zeta. cbn [as_list is_id_only truthy andb or_empty].
  unfold get_user.
  change (select_fields [] ["password"])
    with (Ok ["id"; "email"; "username"; "discriminator"; "avatar";
              "banner"; "flags"; "bot"; "verified"]).
  cbn [bind]. rewrite Hrow. cbn [bind].
  intros Hme. injection Hme as <-. exists row.
  pose proof (get_filter_id _ _ _ Hrow) as Hid.
  split; [ | reflexivity].
  cbn. rewrite Hid. now apply get_singleton.
Qed.

(** X3: the record [get_me] returns never carries the password hash: its
    [password] entry is [None], while [id], [email] and [username] are the
    stored ones. *)
Theorem get_me_hides_password (w : World) (st st' : Store)
  (authorization : option string) (ret : value) :
  get_me w st authorization = Ok (ret, st') ->
  dict_get "password" ret = Some VNone /\
  exists row,
    In row (users st) /\
    dict_get "id" ret = Some (VInt (id row)) /\
    dict_get "email" ret = Some (opt_str (email row)) /\
    dict_get "username" ret = Some (opt_str (username row)).
Proof.
  unfold get_me.
  destruct (authorize w st authorization None (Some (NameList ["password"])))
    as [me | e] eqn:Hauth; [ | discriminate].
  destruct (authorize_without_password w st authorization me Hauth)
    as (row & Hrows & Hme).
  assert (Hin : In row (users st)).
  { assert (Hin : In row (users_by_id st (id me)))
      by (rewrite Hrows; now left).
    unfold users_by_id in Hin. now apply filter_In in Hin. }
  cbn [bind]. rewrite Hme. cbn [verified id].
  destruct (verified row); intros Hret; injection Hret as <- _;
    (split; [reflexivity | exists row; repeat split; auto]).
Qed.

(** The token of a record read with [rm_fields=['password']] names the id
    of the record. *)
Lemma authorize_without_password_token (w : World) (st : Store)
  (authorization : option string) (me : User) :
  authorize w st authorization None (Some (NameList ["password"])) = Ok me ->
  exists tok,
    authorization = Some tok /\ token_user_id tok = Some (id me).
Proof.
  unfold authorize, verify_token. cbn [option_map].
  destruct authorization as [tok | ]; [ | discriminate].
  destruct (token_user_id tok) as [user_id | ] eqn:Hnames;
    [ | discriminate].
  rewrite get_user_password_only.
  destruct (get (users_by_id st user_id)) as [row | e] eqn:Hrow;
    [ | discriminate].
  destruct (password (instance w ["password"] row)) as [key | ];
    [ | discriminate].
  destruct (unsign key tok) as [payload | e]; [ | destruct e; discriminate].
  cbv zeta. cbn [as_list is_id_only truthy andb or_empty].
  unfold get_user.
  change (select_fields [] ["password"])
    with (Ok ["id"; "email"; "username"; "discriminator"; "avatar";
              "banner"; "flags"; "bot"; "verified"]).
  cbn [bind]. rewrite Hrow. cbn [bind].
  intros Hme. injection Hme as <-. exists tok.
  split; [reflexivity | ]. rewrite Hnames. cbn.
  now rewrite (get_filter_id _ _ _ Hrow).
Qed.

(** X4: [get_me] acts on the user the token names, whose id the record
    carries: it writes to the store only when that user's [verified] is
    unset, and then sets it to [False] on that user's row and changes
    nothing else; the record shows the value then stored. *)
Theorem get_me_migrates_verified (w : World) (st st' : Store)
  (authorization : option string) (ret : value) :
  get_me w st authorization = Ok (ret, st') ->
  exists tok row,
    authorization = Some tok /\
    token_user_id tok = Some (id row) /\
    users_by_id st (id row) = [row] /\
    dict_get "id" ret = Some (VInt (id row)) /\
    settings st' = settings st /\
    recovery_codes st' = recovery_codes st /\
    members st' = members st /\
    gateway_session_limit st' = gateway_session_limit st /\
    dispatched st' = dispatched st /\
    match verified row with
    | Some b => st' = st /\ dict_get "verified" ret = Some (VBool b)
    | None =>
        users_by_id st' (id row) = [set_verified row (Some false)] /\
        (forall other, id other <> id row ->
                       In other (users st') <-> In other (users st)) /\
        List.length (users st') = List.length (users st) /\
        dict_get "verified" ret = Some (VBool false)
    end.
Proof.
  unfold get_me.
  destruct (authorize w st authorization None (Some (NameList ["password"])))
    as [me | e] eqn:Hauth; [ | discriminate].
  destruct (authorize_without_password w st authorization me Hauth)
    as (row & Hrows & Hme).
  destruct (authorize_without_password_token w st authorization me Hauth)
    as (tok & Htok & Hnames).
  assert (Hid : id me = id row) by (now rewrite Hme).
  assert (Hv : verified me = verified row) by (now rewrite Hme).
  cbn [bind]. rewrite Hv. intros Hret.
  exists tok, row. split; [exact Htok | ].
  split; [now rewrite <- Hid | ]. split; [now rewrite <- Hid | ].
  destruct (verified row) as [b | ] eqn:Hver.
  - injection Hret as <- <-.
    split; [now rewrite Hme | ]. do 5 (split; [reflexivity | ]).
    split; [reflexivity | ]. rewrite Hme. reflexivity.
  - injection Hret as <- <-. rewrite <- Hid.
    split; [reflexivity | ]. do 5 (split; [reflexivity | ]).
    split; [ | split; [ | split; [ | reflexivity]]].
    + unfold users_by_id in *. cbn [users with_users].
      rewrite filter_id_map by (intros r; now destruct (id r =? id me)).
      rewrite Hrows. cbn [map]. now rewrite Hid, Z.eqb_refl.
    + cbn [users with_users]. intros other Hother. split; intros Hin.
      * apply in_map_iff in Hin as (r & Hr & Hin).
        destruct (id r =? id me) eqn:E; subst other; [ | exact Hin].
        apply Z.eqb_eq in E. cbn in Hother. congruence.
      * apply in_map_iff. exists other. split; [ | exact Hin].
        destruct (id other =? id me) eqn:E; [ | reflexivity].
        apply Z.eqb_eq in E. congruence.
    + cbn [users with_users]. apply length_map.
Qed.

End more_token_facts.

(** ** Editing the own account *)

Section edit_facts.

Context {H : PasswordHasher} {S : Signer}.

(** What a successful [edit_me] did. *)
Lemma edit_me_inversion (w : World) (st st' : Store) (json : EditUser)
  (authorization : option string) (ret : value) :
  edit_me w st json authorization = Ok (ret, st') ->
  exists row,
    authorize w st authorization None None = Ok row /\
    users_by_id st (id row) = [row] /\
    (forall d, given (edit_discriminator json) = Some d ->
               is_available st (username row) (Some d) = Ok tt) /\
    (forall n, given (edit_username json) = Some n ->
               is_available st (Some n)
                 (or_else (given (edit_discriminator json))
                    (discriminator row)) = Ok tt) /\
    ret =
      objectify
        (dict_of_user (validate (update_user (edit_query w json) row))) /\
    users st' =
      map (fun r => if id r =? id row
                    then update_user (edit_query w json) r else r)
        (users st) /\
    dispatched st' =
      (dispatched st ++
       match given (edit_password json) with
       | Some _ => [("security", password_change_event (id row))]
       | None => []
       end)%list /\
    settings st' = settings st /\
    recovery_codes st' = recovery_codes st /\
    members st' = members st /\
    gateway_session_limit st' = gateway_session_limit st.
Proof.
  unfold edit_me.
  destruct (authorize w st authorization None None) as [row | e] eqn:Hauth;
    [ | discriminate].
  cbn [bind].
  pose proof (authorize_default_row w st authorization row Hauth) as Hrows.
  destruct (match given (edit_discriminator json) with
            | Some d => is_available st (username row) (Some d)
            | None => Ok tt
            end) as [[] | e] eqn:Hd; [ | discriminate].
  cbn [bind].
  destruct (match given (edit_username json) with
            | Some n => _
            | None => Ok tt
            end) as [[] | e] eqn:Hn; [ | discriminate].
  cbn [bind]. intros Hret. injection Hret as <- <-.
  exists row. split; [reflexivity | ]. split; [exact Hrows | ].
  split; [intros d Hgiven; now rewrite Hgiven in Hd | ].
  split; [intros n Hgiven; now rewrite Hgiven in Hn | ].
  split; [reflexivity | ].
  unfold dispatch_event, edit_query.
  destruct (given (edit_password json)); repeat split; cbn;
    rewrite ?List.app_nil_r; reflexivity.
Qed.

(** X5: [edit_me] changes the row of the authorised user and nothing else:
    the rows of other users, the number of users and every other table stay
    as they were. *)
Theorem edit_me_touches_own_row_only (w : World) (st st' : Store)
  (json : EditUser) (authorization : option string) (ret : value)
  (me : User) :
  authorize w st authorization None None = Ok me ->
  edit_me w st json authorization = Ok (ret, st') ->
  (forall other, id other <> id me ->
                 In other (users st') <-> In other (users st)) /\
  List.length (users st') = List.length (users st) /\
  settings st' = settings st /\
  recovery_codes st' = recovery_codes st /\
  members st' = members st /\
  gateway_session_limit st' = gateway_session_limit st.
Proof.
  intros Hauth Hedit.
  destruct (edit_me_inversion w st st' json authorization ret Hedit)
    as (row & Hauth' & _ & _ & _ & _ & Husers & _ & Hs & Hr & Hm & Hg).
  rewrite Hauth in Hauth'. injection Hauth' as ->.
  split; [ | rewrite Husers, length_map; auto].
  intros other Hother. rewrite Husers. split; intros Hin.
  - apply in_map_iff in Hin as (r & Hr' & Hin).
    destruct (id r =? id row) eqn:E; subst other; [ | exact Hin].
    apply Z.eqb_eq in E. cbn in Hother. congruence.
  - apply in_map_iff. exists other. split; [ | exact Hin].
    destruct (id other =? id row) eqn:E; [ | reflexivity].
    apply Z.eqb_eq in E. congruence.
Qed.

(** X6: [edit_me] hands exactly one [USER_INTERNAL_DISCONNECT] event for the
    user to the event sink when a non-empty password is given, and none
    otherwise. *)
Theorem edit_me_dispatch (w : World) (st st' : Store) (json : EditUser)
  (authorization : option string) (ret : value) (me : User) :
  authorize w st authorization None None = Ok me ->
  edit_me w st json authorization = Ok (ret, st') ->
  dispatched st' =
    (dispatched st ++
     match edit_password json with
     | Some EmptyString | None => []
     | Some _ => [("security", password_change_event (id me))]
     end)%list.
Proof.
  intros Hauth Hedit.
  destruct (edit_me_inversion w st st' json authorization ret Hedit)
    as (row & Hauth' & _ & _ & _ & _ & _ & Hd & _).
  rewrite Hauth in Hauth'. injection Hauth' as ->.
  rewrite Hd. now destruct (edit_password json) as [[ | c p] | ].
Qed.

Lemma users_by_id_after_edit (st st' : Store) (row : User) (q : EditUser) :
  users_by_id st (id row) = [row] ->
  users st' =
    map (fun r => if id r =? id row then update_user q r else r) (users st) ->
  users_by_id st' (id row) = [update_user q row] /\
  (forall user_id, user_id <> id row ->
                   users_by_id st' user_id = users_by_id st user_id).
Proof.
  intros Hrows Husers. unfold users_by_id in *. rewrite Husers. split.
  - rewrite filter_id_map by (intros r; now destruct (id r =? id row)).
    rewrite Hrows. cbn [map]. now rewrite Z.eqb_refl.
  - intros user_id Hdiff. clear Hrows Husers.
    induction (users st) as [ | r rows IH]; cbn; [reflexivity | ].
    destruct (id r =? id row) eqn:E.
    + apply Z.eqb_eq in E. cbn [update_user id].
      assert (Hno : (id r =? user_id) = false)
        by (apply Z.eqb_neq; congruence).
      now rewrite Hno.
    + rewrite IH. reflexivity.
Qed.

(** X7: an edit that gives no password leaves the user's token valid:
    verified after the edit it returns the edited row. *)
Theorem edit_me_keeps_token (w0 w w' : World) (st st' : Store)
  (json : EditUser) (authorization : option string) (ret : value)
  (me : User) (key : string) :
  SignerLaws S ->
  0 <= now w0 ->
  authorize w st authorization None None = Ok me ->
  password me = Some key ->
  given (edit_password json) = None ->
  edit_me w st json authorization = Ok (ret, st') ->
  verify_token w' st' (Some (create_token w0 (id me) key)) None None =
  Ok (update_user (edit_query w json) me).
Proof.
  intros laws Hnow Hauth Hkey Hnone Hedit.
  destruct (edit_me_inversion w st st' json authorization ret Hedit)
    as (row & Hauth' & Hrows & _ & _ & _ & Husers & _).
  rewrite Hauth in Hauth'. injection Hauth' as ->.
  destruct (users_by_id_after_edit st st' row (edit_query w json) Hrows Husers)
    as [Hown _].
  rewrite (verify_token_checked w' st' _ None None (id row)
             (update_user (edit_query w json) row) key
             (Py.b64encode (Py.str_int (id row)))).
  - cbv zeta. cbn [as_list is_id_only truthy andb or_empty].
    now rewrite get_user_all_columns, Hown.
  - apply token_user_id_create_token.
  - now rewrite Hown.
  - unfold edit_query. rewrite Hnone. cbn. exact Hkey.
  - now apply unsign_create_token.
Qed.

(** X8: an edit by one user changes nothing for the tokens of the others:
    [verify_token] answers for them after the edit as before. *)
Theorem edit_me_spares_other_tokens (w w' : World) (st st' : Store)
  (json : EditUser) (authorization : option string) (ret : value)
  (me : User) (tok : string) (user_id : Z)
  (fields rm_fields : option names) :
  authorize w st authorization None None = Ok me ->
  edit_me w st json authorization = Ok (ret, st') ->
  token_user_id tok = Some user_id ->
  user_id <> id me ->
  verify_token w' st' (Some tok) fields rm_fields =
  verify_token w' st (Some tok) fields rm_fields.
Proof.
  intros Hauth Hedit Htok Hdiff.
  destruct (edit_me_inversion w st st' json authorization ret Hedit)
    as (row & Hauth' & Hrows & _ & _ & _ & Husers & _).
  rewrite Hauth in Hauth'. injection Hauth' as ->.
  destruct (users_by_id_after_edit st st' row (edit_query w json) Hrows Husers)
    as [_ Hothers].
  apply (verify_token_depends_on_rows w' st st' tok fields rm_fields user_id);
    auto.
Qed.

(** What [objectify] makes of [dict(user)]: only [id] and [flags] can be
    stringified. *)
Lemma objectify_dict_of_user (u : User) :
  objectify (dict_of_user u) =
  VDict
    [("id", if id u >? 2147483647 then VStr (Py.str_int (id u))
            else VInt (id u));
     ("email", opt_str (email u));
     ("password", opt_str (password u));
     ("username", opt_str (username u));
     ("discriminator", opt_str (discriminator u));
     ("avatar", VStr (avatar u));
     ("banner", VStr (banner u));
     ("flags", if flags u >? 2147483647 then VStr (Py.str_int (flags u))
               else VInt (flags u));
     ("bot", VBool (bot u));
     ("verified", opt_bool (verified u))].
Proof.
  unfold dict_of_user. rewrite objectify_dict.
  cbn [map]. unfold objectify_entry, must_stringify, MAX_INT32.
  change (Py.contains "permissions" "id") with false.
  change (Py.contains "permissions" "flags") with false.
  change (Py.contains "permissions" "bot") with false.
  change (Py.contains "permissions" "verified") with false.
  destruct (email u), (password u), (username u), (discriminator u),
    (verified u) as [[ | ] | ], (bot u);
    cbn [as_int opt_str opt_bool orb str];
    rewrite ?orb_false_r;
    destruct (id u >? 2147483647), (flags u >? 2147483647);
    reflexivity.
Qed.

(** X9: the record [edit_me] returns, entry by entry: the columns of the
    edited row after [objectify], with the id as a decimal string when it
    exceeds 2147483647, the password hash now stored, and [verified] shown
    as [False] when the column is unset, while the row stored keeps it
    unset. *)
Theorem edit_me_record (w : World) (st st' : Store) (json : EditUser)
  (authorization : option string) (ret : value) (me : User) :
  authorize w st authorization None None = Ok me ->
  edit_me w st json authorization = Ok (ret, st') ->
  ret =
    VDict
      [("id", if id me >? 2147483647 then VStr (Py.str_int (id me))
              else VInt (id me));
       ("email", opt_str (or_else (given (edit_email json)) (email me)));
       ("password",
        opt_str
          (match edit_password json with
           | Some EmptyString | None => password me
           | Some p => Some (hasher_hash (salt w) p)
           end));
       ("username",
        opt_str (or_else (given (edit_username json)) (username me)));
       ("discriminator",
        opt_str
          (or_else (given (edit_discriminator json)) (discriminator me)));
       ("avatar", VStr (avatar me));
       ("banner", VStr (banner me));
       ("flags", if flags me >? 2147483647 then VStr (Py.str_int (flags me))
                 else VInt (flags me));
       ("bot", VBool (bot me));
       ("verified",
        VBool match verified me with
              | Some b => b
              | None => false
              end)] /\
  exists row,
    users_by_id st' (id me) = [row] /\
    row = update_user (edit_query w json) me /\
    verified row = verified me.
Proof.
  intros Hauth Hedit.
  destruct (edit_me_inversion w st st' json authorization ret Hedit)
    as (row & Hauth' & Hrows & _ & _ & Hret & Husers & _).
  rewrite Hauth in Hauth'. injection Hauth' as ->.
  destruct (users_by_id_after_edit st st' row (edit_query w json) Hrows Husers)
    as [Hown _].
  split; [ | exists (update_user (edit_query w json) row); auto].
  rewrite Hret, objectify_dict_of_user.
  cbn [validate update_user edit_query id email password username
         discriminator avatar banner flags bot verified edit_email
         edit_password edit_username edit_discriminator opt_bool].
  destruct (verified row) as [b | ];
    destruct (edit_password json) as [[ | c p] | ]; reflexivity.
Qed.

Lemma get_not_found {A : Type} (rows : list A) :
  get rows = Raise NotFound -> rows = [].
Proof. now destruct rows as [ | r [ | r' rows]]. Qed.

Lemma is_available_ok (st : Store) (name d : option string) :
  is_available st name d = Ok tt -> users_by_tag st name d = [].
Proof.
  unfold is_available. intros Hok. apply get_not_found.
  destruct (get (users_by_tag st name d)) as [row | e];
    [discriminate | now destruct e].
Qed.

(** X10: [edit_me] rejects a username whose tag, with the new discriminator
    or else the current one, is held by a user.  The editing user counts:
    giving the own current username again is rejected. *)
Theorem edit_me_rejects_taken_tag (w : World) (st : Store) (json : EditUser)
  (authorization : option string) (me holder : User) (n : string) :
  authorize w st authorization None None = Ok me ->
  (forall d, given (edit_discriminator json) = Some d ->
             is_available st (username me) (Some d) = Ok tt) ->
  given (edit_username json) = Some n ->
  get (users_by_tag st (Some n)
         (or_else (given (edit_discriminator json)) (discriminator me))) =
    Ok holder ->
  edit_me w st json authorization =
  Raise (HTTPError 400 "Discriminator is already taken").
Proof.
  intros Hauth Hfirst Hname Hheld. unfold edit_me.
  rewrite Hauth. cbn [bind].
  destruct (given (edit_discriminator json)) as [d | ] eqn:Hd.
  - rewrite (Hfirst d eq_refl). cbn [bind]. rewrite Hname.
    unfold is_available at 1. cbn [or_else] in *. now rewrite Hheld.
  - cbn [bind]. rewrite Hname.
    unfold is_available at 1. cbn [or_else] in *. now rewrite Hheld.
Qed.

(** X11: an edit whose fields are all absent or empty changes nothing: the
    store is returned as it was and nothing is dispatched.  The record is
    [dict] of the user, with [verified] shown as [False] when the column is
    unset. *)
Theorem edit_me_nothing_given (w : World) (st : Store) (json : EditUser)
  (authorization : option string) (me : User) :
  authorize w st authorization None None = Ok me ->
  given (edit_email json) = None ->
  given (edit_discriminator json) = None ->
  given (edit_username json) = None ->
  given (edit_password json) = None ->
  exists ret,
    edit_me w st json authorization = Ok (ret, st) /\
    ret = objectify (dict_of_user (validate me)) /\
    dict_get "verified" ret =
      Some (VBool match verified me with
                  | Some b => b
                  | None => false
                  end) /\
    dict_get "password" ret = Some (opt_str (password me)).
Proof.
  intros Hauth He Hd Hn Hp. unfold edit_me.
  rewrite Hauth. cbn [bind]. rewrite He, Hd, Hn, Hp. cbn [bind option_map].
  assert (Hsame : forall r : User,
             update_user {| edit_email := None; edit_discriminator := None;
                            edit_username := None; edit_password := None |} r
             = r) by (now intros []).
  rewrite Hsame.
  assert (Hmap : map (fun r : User =>
                        if id r =? id me
                        then update_user
                               {| edit_email := None;
                                  edit_discriminator := None;
                                  edit_username := None;
                                  edit_password := None |} r
                        else r) (users st) = users st).
  { rewrite <- (map_id (users st)) at 2. apply map_ext. intros r.
    rewrite Hsame. now destruct (id r =? id me). }
  rewrite Hmap. exists (objectify (dict_of_user (validate me))).
  split; [now destruct st | ].
  split; [reflexivity | ]. rewrite objectify_dict_of_user.
  cbn [validate id email password username discriminator avatar banner
         flags bot verified].
  split; [destruct (verified me); reflexivity | reflexivity].
Qed.

(** X12: an edit that gives only an email is accepted for every authorised
    user and every non-empty email: the store is not consulted about the
    email, and the user's row then carries it. *)
Theorem edit_me_email_only (w : World) (st : Store) (json : EditUser)
  (authorization : option string) (me : User) (e : string) :
  authorize w st authorization None None = Ok me ->
  given (edit_email json) = Some e ->
  given (edit_discriminator json) = None ->
  given (edit_username json) = None ->
  given (edit_password json) = None ->
  exists ret st',
    edit_me w st json authorization = Ok (ret, st') /\
    users_by_id st' (id me) =
      [{| id := id me;
          email := Some e;
          password := password me;
          username := username me;
          discriminator := discriminator me;
          avatar := avatar me;
          banner := banner me;
          flags := flags me;
          bot := bot me;
          verified := verified me |}].
Proof.
  intros Hauth He Hd Hn Hp.
  pose proof (authorize_default_row w st authorization me Hauth) as Hrows.
  unfold edit_me. rewrite Hauth. cbn [bind].
  rewrite He, Hd, Hn, Hp. cbn [bind option_map]. eexists _, _.
  split; [reflexivity | ].
  match goal with
  | |- users_by_id (with_users _ (map (fun r => if _ then update_user ?q r
                                                else r) _)) _ = _ =>
      destruct (users_by_id_after_edit st
                  (with_users st
                     (map (fun r => if id r =? id me then update_user q r
                                    else r) (users st)))
                  me q Hrows eq_refl) as [Hown _]
  end.
  rewrite Hown. reflexivity.
Qed.

Lemma users_by_tag_filter (st : Store) (name d : string) :
  users_by_tag st (Some name) (Some d) =
  filter (fun u => opt_eqb (username u) name && opt_eqb (discriminator u) d)
    (users st).
Proof.
  unfold users_by_tag, users_by_username.
  induction (users st) as [ | r rows IH]; cbn; [reflexivity | ].
  destruct (opt_eqb (username r) name); cbn; [ | exact IH].
  destruct (opt_eqb (discriminator r) d); now rewrite IH.
Qed.

Lemma filter_singleton_split {A : Type} (p : A -> bool) (l : list A)
  (x : A) :
  filter p l = [x] ->
  exists l1 l2,
    l = (l1 ++ x :: l2)%list /\ filter p l1 = [] /\ filter p l2 = [].
Proof.
  induction l as [ | a l IH]; cbn; [discriminate | ].
  destruct (p a) eqn:E.
  - intros Heq. injection Heq as -> Hrest.
    exists [], l. cbn. auto.
  - intros Heq. destruct (IH Heq) as (l1 & l2 & -> & H1 & H2).
    exists (a :: l1), l2. cbn. rewrite E. auto.
Qed.

Lemma map_outside_filter {A : Type} (p : A -> bool) (f : A -> A)
  (l : list A) :
  filter p l = [] -> map (fun a => if p a then f a else a) l = l.
Proof.
  induction l as [ | a l IH]; cbn; [reflexivity | ].
  destruct (p a); [discriminate | ]. intros Hl. now rewrite IH.
Qed.

(** X13: [edit_me] keeps (username, discriminator) pairs unique: when no two
    users share a pair before a successful edit, none do after it. *)
Theorem edit_me_keeps_tags_unique (w : World) (st st' : Store)
  (json : EditUser) (authorization : option string) (ret : value) :
  unique_tags st ->
  edit_me w st json authorization = Ok (ret, st') ->
  unique_tags st'.
Proof.
  intros Huniq Hedit name d.
  destruct (edit_me_inversion w st st' json authorization ret Hedit)
    as (row & _ & Hrows & Hdisc & Hname & _ & Husers & _).
  specialize (Huniq name d).
  rewrite users_by_tag_filter in *. rewrite Husers.
  set (P := fun u => opt_eqb (username u) name
                     && opt_eqb (discriminator u) d) in *.
  unfold users_by_id in Hrows.
  destruct (filter_singleton_split _ _ _ Hrows) as (l1 & l2 & Hl & H1 & H2).
  rewrite Hl in *. rewrite map_app. cbn [map]. rewrite Z.eqb_refl.
  rewrite (map_outside_filter (fun r => id r =? id row)) by exact H1.
  rewrite (map_outside_filter (fun r => id r =? id row)) by exact H2.
  rewrite filter_app, length_app in *. cbn [filter] in *.
  destruct (P (update_user (edit_query w json) row)) eqn:Hnew;
    [ | destruct (P row); cbn [List.length] in *; lia].
  assert (Hnone : filter P (l1 ++ row :: l2) = [] \/ P row = true).
  { unfold P in Hnew. apply andb_prop in Hnew as [Hn Hd].
    cbn [update_user username discriminator edit_query edit_username
           edit_discriminator] in Hn, Hd.
    destruct (given (edit_username json)) as [n1 | ] eqn:En.
    - left. cbn [or_else] in Hn. apply String.eqb_eq in Hn. subst n1.
      specialize (Hname name eq_refl). apply is_available_ok in Hname.
      destruct (or_else (given (edit_discriminator json)) (discriminator row))
        as [d1 | ]; [ | discriminate].
      cbn [opt_eqb] in Hd. apply String.eqb_eq in Hd. subst d1.
      rewrite users_by_tag_filter, Hl in Hname. exact Hname.
    - cbn [or_else] in Hn.
      destruct (given (edit_discriminator json)) as [d1 | ] eqn:Ed.
      + left. cbn [or_else opt_eqb] in Hd. apply String.eqb_eq in Hd.
        subst d1. specialize (Hdisc d eq_refl).
        destruct (username row) as [n0 | ]; [ | discriminate].
        cbn [opt_eqb] in Hn. apply String.eqb_eq in Hn. subst n0.
        apply is_available_ok in Hdisc.
        rewrite users_by_tag_filter, Hl in Hdisc. exact Hdisc.
      + right. cbn [or_else] in Hd. unfold P. now rewrite Hn, Hd. }
  destruct Hnone as [Hempty | Hold].
  - rewrite filter_app in Hempty. cbn [filter] in Hempty.
    apply app_eq_nil in Hempty as [E1 E2].
    destruct (P row); [discriminate | ]. rewrite E1, E2. cbn. lia.
  - rewrite Hold in Huniq. cbn [List.length] in *. lia.
Qed.

End edit_facts.

(** ** Registration and login *)

Lemma pick_discriminator_some (w : World) (st : Store) (username : string)
  (left : nat) :
  forall drawn d,
    pick_discriminator w st username drawn left = Ok (Some d) ->
    users_by_tag st (Some username) (Some d) = [] /\
    exists i, (drawn <= i < drawn + left)%nat /\
              d = roll_discriminator (rolls w i).
Proof.
  induction left as [ | left IH]; intros drawn d; cbn [pick_discriminator];
    [discriminate | ].
  destruct (get (users_by_tag st (Some username)
                   (Some (roll_discriminator (rolls w drawn)))))
    as [row | e] eqn:Hget.
  - intros Hpick. destruct (IH _ _ Hpick) as [Hfree (i & Hi & Hd)].
    split; [exact Hfree | exists i; split; [lia | exact Hd]].
  - destruct e; try discriminate. intros Hpick. injection Hpick as <-.
    split; [now apply get_not_found | exists drawn; split; [lia | reflexivity]].
Qed.

Section register_facts.

Context {H : PasswordHasher}.

(** What a successful [create_user] did. *)
Lemma create_user_inversion (w : World) (st st' : Store)
  (json : Credentials) (user : User) :
  create_user w st json = Ok (user, st') ->
  exists d i,
    (i < 10)%nat /\
    d = roll_discriminator (rolls w i) /\
    users_by_email st (json_email json) = [] /\
    users_by_tag st (Some (json_username json)) (Some d) = [] /\
    user = {| id := forged w;
              email := Some (json_email json);
              password :=
                Some (hasher_hash (salt w) (json_password json));
              username := Some (json_username json);
              discriminator := Some d;
              avatar := "";
              banner := "";
              flags := 0;
              bot := false;
              verified := Some false |} /\
    users st' = (users st ++ [user])%list /\
    settings st' = (settings st ++ [new_settings (forged w)])%list /\
    recovery_codes st' = recovery_codes st /\
    members st' = members st /\
    gateway_session_limit st' = gateway_session_limit st /\
    dispatched st' = dispatched st.
Proof.
  unfold create_user.
  destruct (get (users_by_email st (json_email json))) as [row | e] eqn:He;
    [discriminate | ].
  destruct e; try discriminate.
  unfold get_available_discriminator.
  destruct (is_too_used st (json_username json)) as [[] | e];
    [ | discriminate].
  cbn [bind].
  destruct (pick_discriminator w st (json_username json) 0 10)
    as [[d | ] | e] eqn:Hpick; try discriminate.
  cbn [bind]. intros Hret. injection Hret as <- <-.
  destruct (pick_discriminator_some _ _ _ _ _ _ Hpick) as [Hfree (i & Hi & Hd)].
  exists d, i. split; [lia | ]. split; [exact Hd | ].
  split; [now apply get_not_found | ]. split; [exact Hfree | ].
  repeat split.
Qed.

(** X14: a successful registration keeps (username, discriminator) pairs
    unique: the discriminator it picked was held by no user of that
    name. *)
Theorem create_user_keeps_tags_unique (w : World) (st st' : Store)
  (json : Credentials) (user : User) :
  unique_tags st ->
  create_user w st json = Ok (user, st') ->
  unique_tags st' /\
  users_by_tag st' (username user) (discriminator user) = [user].
Proof.
  intros Huniq Hcreate.
  destruct (create_user_inversion w st st' json user Hcreate)
    as (d & i & _ & _ & _ & Hfree & Huser & Husers & _).
  rewrite users_by_tag_filter in Hfree.
  assert (Hn : username user = Some (json_username json))
    by (now rewrite Huser).
  assert (Hd : discriminator user = Some d) by (now rewrite Huser).
  assert (Hown : users_by_tag st' (username user) (discriminator user)
                 = [user]).
  { rewrite Hn, Hd, users_by_tag_filter, Husers, filter_app, Hfree.
    cbn [app filter]. rewrite Hn, Hd. cbn [opt_eqb].
    now rewrite !String.eqb_refl. }
  split; [ | exact Hown].
  intros name d'. specialize (Huniq name d').
  rewrite users_by_tag_filter in *. rewrite Husers, filter_app, length_app.
  cbn [filter].
  destruct (opt_eqb (username user) name && opt_eqb (discriminator user) d')
    eqn:E; cbn [List.length]; [ | lia].
  rewrite Hn, Hd in E. cbn [opt_eqb] in E. apply andb_prop in E as [En Ed].
  apply String.eqb_eq in En, Ed. subst name d'. rewrite Hfree. cbn. lia.
Qed.

(** X15: a successful registration keeps emails unique: the email was held
    by no user, and is held by the new user alone afterwards. *)
Theorem create_user_keeps_emails_unique (w : World) (st st' : Store)
  (json : Credentials) (user : User) :
  unique_emails st ->
  create_user w st json = Ok (user, st') ->
  unique_emails st' /\
  users_by_email st' (json_email json) = [user].
Proof.
  intros Huniq Hcreate.
  destruct (create_user_inversion w st st' json user Hcreate)
    as (d & i & _ & _ & Hfree & _ & Huser & Husers & _).
  unfold unique_emails, users_by_email in *.
  assert (Hmail : email user = Some (json_email json))
    by (now rewrite Huser).
  split.
  - intros e. specialize (Huniq e).
    rewrite Husers, filter_app, length_app. cbn [filter].
    destruct (opt_eqb (email user) e) eqn:E; cbn [List.length]; [ | lia].
    rewrite Hmail in E. cbn in E. apply String.eqb_eq in E. subst e.
    rewrite Hfree. cbn. lia.
  - rewrite Husers, filter_app, Hfree. cbn [filter app].
    rewrite Hmail. cbn. now rewrite String.eqb_refl.
Qed.

Context {S : Signer}.

(** X16: the token [register] returns authorises as the user it created:
    verified against the store after the registration it gives the new row,
    with the email and username of the request. *)
Theorem register_then_verify_token (w w' : World) (st st' : Store)
  (json : Credentials) (token : string) :
  SignerLaws S ->
  0 <= now w ->
  users_by_id st (forged w) = [] ->
  register w st json = Ok (token, st') ->
  exists user,
    verify_token w' st' (Some token) None None = Ok user /\
    In user (users st') /\
    id user = forged w /\
    email user = Some (json_email json) /\
    username user = Some (json_username json).
Proof.
  intros laws Hnow Hfresh. unfold register.
  destruct (create_user w st json) as [[user st1] | e] eqn:Hcreate;
    [ | discriminate].
  cbn [bind].
  destruct (create_user_inversion w st st1 json user Hcreate)
    as (d & i & _ & _ & _ & _ & Huser & Husers & _).
  assert (Hpw : password user =
                Some (hasher_hash (salt w) (json_password json)))
    by (now rewrite Huser).
  assert (Hid : id user = forged w) by (now rewrite Huser).
  unfold token_for. rewrite Hpw, Hid. cbn [bind].
  intros Hret. injection Hret as <- <-.
  assert (Hrows : users_by_id st1 (forged w) = [user]).
  { unfold users_by_id in *. rewrite Husers, filter_app, Hfresh.
    cbn [app filter]. now rewrite Hid, Z.eqb_refl. }
  exists user.
  split; [ | split; [rewrite Husers; apply in_or_app; right; now left | ]].
  - rewrite (verify_token_checked w' st1 _ None None (forged w) user
               (hasher_hash (salt w) (json_password json))
               (Py.b64encode (Py.str_int (forged w)))).
    + cbv zeta. cbn [as_list is_id_only truthy andb or_empty].
      now rewrite get_user_all_columns, Hrows.
    + apply token_user_id_create_token.
    + now rewrite Hrows.
    + exact Hpw.
    + now apply unsign_create_token.
  - split; [exact Hid | now rewrite Huser].
Qed.

Context {T : TOTPOracle}.

(** X17: right after a registration, [login] with the same email and
    password succeeds, whatever code is sent: the new account has MFA
    disabled. *)
Theorem register_then_login (w w' : World) (st st' : Store)
  (json json' : Credentials) (token : string) :
  HasherLaws H ->
  filter (fun s => settings_user_id s =? forged w) (settings st) = [] ->
  register w st json = Ok (token, st') ->
  json_email json' = json_email json ->
  json_password json' = json_password json ->
  login w' st' json' =
  Ok (create_token w' (forged w)
        (hasher_hash (salt w) (json_password json))).
Proof.
  intros laws Hsettings. unfold register.
  destruct (create_user w st json) as [[user st1] | e] eqn:Hcreate;
    [ | discriminate].
  cbn [bind].
  destruct (create_user_inversion w st st1 json user Hcreate)
    as (d & i & _ & _ & Hmail & _ & Huser & Husers & Hset & Hrec & _).
  assert (Hstored : password user =
                    Some (hasher_hash (salt w) (json_password json)))
    by (now rewrite Huser).
  assert (Hid : id user = forged w) by (now rewrite Huser).
  assert (Huemail : email user = Some (json_email json))
    by (now rewrite Huser).
  unfold token_for. rewrite Hstored, Hid. cbn [bind].
  intros Hret Hemail Hpw. injection Hret as _ <-.
  unfold login, get_user.
  change (select_fields ["password"; "id"] []) with (Ok ["id"; "password"]).
  cbn [bind].
  assert (Hrows : users_by_email st1 (json_email json') = [user]).
  { unfold users_by_email in *. rewrite Hemail, Husers, filter_app, Hmail.
    cbn [app filter]. rewrite Huemail. cbn [opt_eqb].
    now rewrite String.eqb_refl. }
  rewrite Hrows. cbn [get bind].
  change (password (instance w' ["id"; "password"] user))
    with (password user).
  change (id (instance w' ["id"; "password"] user)) with (id user).
  rewrite Hstored, Hid, Hpw, hash_verifies.
  unfold verify_mfa. rewrite Hset, filter_app, Hsettings.
  cbn. now rewrite Z.eqb_refl.
Qed.

(** X18: [login] hands out a token only when the email belongs to exactly
    one user, the password verifies against that user's stored hash and the
    MFA check passes; the token is the one [create_token] makes for that
    user and hash. *)
Theorem login_sound (w : World) (st : Store) (json : Credentials)
  (token : string) :
  login w st json = Ok token ->
  exists row stored,
    users_by_email st (json_email json) = [row] /\
    password row = Some stored /\
    hasher_verify stored (json_password json) = Verified /\
    verify_mfa w st (id row) (json_code json) = Ok tt /\
    token = create_token w (id row) stored.
Proof.
  unfold login, get_user.
  change (select_fields ["password"; "id"] []) with (Ok ["id"; "password"]).
  cbn [bind].
  destruct (get (users_by_email st (json_email json))) as [row | e] eqn:Hrow;
    [ | destruct e; discriminate].
  cbn [bind].
  change (password (instance w ["id"; "password"] row)) with (password row).
  change (id (instance w ["id"; "password"] row)) with (id row).
  destruct (password row) as [stored | ] eqn:Hstored; [ | discriminate].
  destruct (hasher_verify stored (json_password json)) eqn:Hverify;
    try discriminate.
  destruct (verify_mfa w st (id row) (json_code json)) as [[] | e] eqn:Hmfa;
    [ | discriminate].
  cbn [bind]. intros Htoken. injection Htoken as <-.
  exists row, stored. repeat split; auto using get_singleton.
Qed.

(** The user a token handed out by [login] was made for. *)
Lemma login_token_row (w : World) (st : Store) (json : Credentials)
  (token : string) :
  login w st json = Ok token ->
  exists row stored,
    In row (users st) /\
    email row = Some (json_email json) /\
    password row = Some stored /\
    token = create_token w (id row) stored.
Proof.
  unfold login, get_user.
  change (select_fields ["password"; "id"] []) with (Ok ["id"; "password"]).
  cbn [bind].
  destruct (get (users_by_email st (json_email json))) as [row | e] eqn:Hrow;
    [ | destruct e; discriminate].
  cbn [bind].
  change (password (instance w ["id"; "password"] row)) with (password row).
  change (id (instance w ["id"; "password"] row)) with (id row).
  destruct (password row) as [stored | ] eqn:Hstored; [ | discriminate].
  destruct (hasher_verify stored (json_password json)); try discriminate.
  destruct (verify_mfa w st (id row) (json_code json)) as [[] | e];
    [ | discriminate].
  cbn [bind]. intros Htoken. injection Htoken as <-.
  apply get_singleton in Hrow.
  assert (Hin : In row (users_by_email st (json_email json)))
    by (rewrite Hrow; now left).
  unfold users_by_email in Hin. apply filter_In in Hin as [Hin Hmail].
  exists row, stored. split; [exact Hin | ].
  split; [ | split; [exact Hstored | reflexivity]].
  destruct (email row) as [e | ]; [ | discriminate].
  cbn in Hmail. apply String.eqb_eq in Hmail. now subst e.
Qed.

(** X19: a token handed out by [login] authorises as the user who logged
    in: verified against the same store it gives the row with the email of
    the request. *)
Theorem login_then_verify_token (w w' : World) (st : Store)
  (json : Credentials) (token : string) :
  SignerLaws S ->
  0 <= now w ->
  unique_ids st ->
  login w st json = Ok token ->
  exists row,
    verify_token w' st (Some token) None None = Ok row /\
    email row = Some (json_email json).
Proof.
  intros laws Hnow Hids Hlogin.
  destruct (login_token_row w st json token Hlogin)
    as (row & stored & Hin & Hmail & Hstored & ->).
  assert (Hbyid : users_by_id st (id row) = [row]).
  { specialize (Hids (id row)).
    assert (Hin' : In row (users_by_id st (id row))).
    { unfold users_by_id. apply filter_In. split; [exact Hin | ].
      apply Z.eqb_refl. }
    destruct (users_by_id st (id row)) as [ | r [ | r' rows]].
    - contradiction.
    - destruct Hin' as [-> | []]. reflexivity.
    - cbn in Hids. lia. }
  exists row. split.
  - rewrite (verify_token_checked w' st _ None None (id row) row stored
               (Py.b64encode (Py.str_int (id row)))).
    + cbv zeta. cbn [as_list is_id_only truthy andb or_empty].
      now rewrite get_user_all_columns, Hbyid.
    + apply token_user_id_create_token.
    + now rewrite Hbyid.
    + exact Hstored.
    + now apply unsign_create_token.
  - exact Hmail.
Qed.

(** X20: with MFA enabled an integer code is never accepted: [0] counts as
    no code, every other integer as an invalid one. *)
Theorem verify_mfa_integer_code (w : World) (st : Store) (user_id n : Z)
  (setting : Settings) :
  get (filter (fun s => settings_user_id s =? user_id) (settings st)) =
    Ok setting ->
  mfa_enabled setting = true ->
  verify_mfa w st user_id (Some (CodeInt n)) =
  Raise (HTTPError 403
           (if n =? 0
            then "mfa_code is a required field for users with mfa."
            else "mfa code is invalid.")).
Proof.
  intros Hget Hon. unfold verify_mfa. rewrite Hget. cbn [bind].
  rewrite Hon. cbn [code_missing code_in negb]. now destruct (n =? 0).
Qed.

End register_facts.

Lemma range_In (n : nat) :
  forall first x,
    first <= x < first + Z.of_nat n -> In x (Sample.range first n).
Proof.
  induction n as [ | n IH]; intros first x Hx; [lia | ].
  cbn [Sample.range]. destruct (Z.eq_dec first x) as [-> | Hne];
    [now left | right]. apply IH. lia.
Qed.

(** X21: for every roll from 1 to 9999 [roll_discriminator] gives four
    decimal digits that read back as the roll, so different rolls give
    different discriminators and 0000 is never handed out. *)
Theorem roll_discriminator_four_digits (r : Z) :
  1 <= r <= 9999 ->
  String.length (roll_discriminator r) = 4%nat /\
  Py.all_digits (roll_discriminator r) = true /\
  Py.int (roll_discriminator r) = Some r.
Proof.
  intros Hr.
  assert (Hall :
            forallb
              (fun r =>
                 Nat.eqb (String.length (roll_discriminator r)) 4
                 && Py.all_digits (roll_discriminator r)
                 && match Py.int (roll_discriminator r) with
                    | Some n => n =? r
                    | None => false
                    end) (Sample.range 1 (Z.to_nat 9999)) = true)
    by (vm_compute; reflexivity).
  rewrite forallb_forall in Hall.
  specialize (Hall r (range_In (Z.to_nat 9999) 1 r ltac:(lia))).
  apply andb_prop in Hall as [Hall Hint].
  apply andb_prop in Hall as [Hlen Hdig].
  apply Nat.eqb_eq in Hlen. repeat split; auto.
  destruct (Py.int (roll_discriminator r)) as [n | ]; [ | discriminate].
  apply Z.eqb_eq in Hint. now subst n.
Qed.

(** ** The session-limit ledger over time *)

Section more_gateway_facts.

Context {S : Signer}.

(** The id-only record does not depend on the world, and of the store only
    on the [users] table. *)
Lemma authorize_id_only_stable (w w' : World) (st st' : Store)
  (authorization : option string) :
  users st' = users st ->
  authorize w' st' authorization (Some ["id"]) None =
  authorize w st authorization (Some ["id"]) None.
Proof.
  intros Husers. unfold authorize, verify_token, users_by_id.
  cbn [option_map]. rewrite Husers.
  destruct authorization as [tok | ]; [ | reflexivity].
  destruct (token_user_id tok) as [user_id | ]; [ | reflexivity].
  rewrite !get_user_password_only.
  destruct (get (filter (fun u => id u =? user_id) (users st)))
    as [row | e]; [ | reflexivity].
  change (password (instance w' ["password"] row)) with (password row).
  change (password (instance w ["password"] row)) with (password row).
  destruct (password row) as [key | ]; [ | reflexivity].
  destruct (unsign key tok) as [payload | e]; reflexivity.
Qed.

(** What a successful [get_gateway] did to the ledger. *)
Lemma get_gateway_inversion (w : World) (st st' : Store)
  (authorization : option string) (g : Gateway) :
  get_gateway w st authorization = Ok (g, st') ->
  exists user,
    authorize w st authorization (Some ["id"]) None = Ok user /\
    ((exists row,
         limits_by_user_id w st (id user) = [row] /\
         st' = st /\
         session_start_limit g = dict_of_limit (defer_user_id row)) \/
     (limits_by_user_id w st (id user) = [] /\
      st' = snd (create_limit w st (id user)) /\
      session_start_limit g =
        pop "user_id" (dict_of_limit (new_session_limit (id user))))).
Proof.
  unfold get_gateway.
  destruct (authorize w st authorization (Some ["id"]) None)
    as [user | e] eqn:Hauth; [ | discriminate].
  cbn [bind].
  destruct (get (limits_by_user_id w st (id user))) as [row | e] eqn:Hget.
  - cbn [bind]. intros Hg. injection Hg as <- <-.
    exists user. split; [reflexivity | left].
    exists row. split; [now apply get_singleton | split; reflexivity].
  - destruct e; try discriminate.
    unfold create_limit. cbn [bind snd]. intros Hg. injection Hg as <- <-.
    exists user. split; [reflexivity | right].
    split; [now apply get_not_found | split; reflexivity].
Qed.

Lemma ledger_after_create (w : World) (st : Store) (user_id : Z) :
  let st' := snd (create_limit w st user_id) in
  ledger_rows st' user_id = [(new_session_limit user_id, now w)] /\
  (forall other, other <> user_id ->
                 ledger_rows st' other = ledger_rows st other) /\
  users st' = users st.
Proof.
  cbn zeta. unfold create_limit, ledger_rows.
  cbn [snd gateway_session_limit with_limits users].
  repeat split.
  - rewrite filter_app. cbn [filter new_session_limit limit_user_id fst].
    rewrite Z.eqb_refl.
    replace (filter _ (filter _ (gateway_session_limit st))) with
      (@nil (GatewaySessionLimit * Z)); [reflexivity | ].
    induction (gateway_session_limit st) as [ | [row t] rows IH];
      cbn; [reflexivity | ].
    destruct (limit_user_id row) as [u | ] eqn:Hu; cbn; rewrite ?Hu.
    + destruct (u =? user_id) eqn:E; cbn; rewrite ?Hu, ?E; exact IH.
    + exact IH.
  - intros other Hother. rewrite filter_app.
    cbn [filter new_session_limit limit_user_id fst].
    assert (Hno : (user_id =? other) = false)
      by (apply Z.eqb_neq; congruence).
    rewrite Hno, List.app_nil_r.
    induction (gateway_session_limit st) as [ | [row t] rows IH];
      cbn; [reflexivity | ].
    destruct (limit_user_id row) as [u | ] eqn:Hu; cbn; rewrite ?Hu.
    + destruct (u =? user_id) eqn:E; cbn; rewrite ?Hu.
      * apply Z.eqb_eq in E. subst u. rewrite Hno. exact IH.
      * destruct (u =? other); now rewrite IH.
    + exact IH.
Qed.

Lemma limits_from_ledger (w : World) (st : Store) (user_id : Z) :
  limits_by_user_id w st user_id =
  map fst
    (filter (fun entry : GatewaySessionLimit * Z =>
               now w - snd entry <? default_time_to_live)
       (ledger_rows st user_id)).
Proof.
  unfold limits_by_user_id, ledger_rows. f_equal.
  induction (gateway_session_limit st) as [ | [row t] rows IH];
    cbn; [reflexivity | ].
  destruct (limit_user_id row) as [u | ]; [ | exact IH].
  destruct (u =? user_id); cbn; [ | exact IH].
  destruct (now w - t <? default_time_to_live); now rewrite IH.
Qed.

(** X22: after [get_gateway] has created the ledger entry of a user, a
    second call less than 43200 seconds later reads that entry and writes
    nothing: it returns total 1000, remaining 1000 and max_concurrency 16,
    and the store it was given. *)
Theorem get_gateway_again_within_ttl (w w' : World) (st st' : Store)
  (authorization : option string) (g : Gateway) (user : User) :
  authorize w st authorization (Some ["id"]) None = Ok user ->
  limits_by_user_id w st (id user) = [] ->
  get_gateway w st authorization = Ok (g, st') ->
  now w' - now w < 43200 ->
  exists g',
    get_gateway w' st' authorization = Ok (g', st') /\
    dict_get "total" (session_start_limit g') = Some (VInt 1000) /\
    dict_get "remaining" (session_start_limit g') = Some (VInt 1000) /\
    dict_get "max_concurrency" (session_start_limit g') = Some (VInt 16).
Proof.
  intros Hauth Hnone Hfirst Hsoon.
  destruct (get_gateway_inversion w st st' authorization g Hfirst)
    as (user' & Hauth' & [(row & Hrow & _) | (_ & Hst & _)]).
  { rewrite Hauth in Hauth'. injection Hauth' as <-.
    rewrite Hnone in Hrow. discriminate. }
  rewrite Hauth in Hauth'. injection Hauth' as <-.
  destruct (ledger_after_create w st (id user)) as (Hown & _ & Husers).
  rewrite <- Hst in Hown, Husers.
  assert (Hlive : limits_by_user_id w' st' (id user) =
                  [new_session_limit (id user)]).
  { rewrite limits_from_ledger, Hown. cbn [filter snd].
    assert (Hlt : (now w' - now w <? default_time_to_live) = true)
      by (apply Z.ltb_lt; unfold default_time_to_live; lia).
    now rewrite Hlt. }
  unfold get_gateway.
  rewrite (authorize_id_only_stable w w' st st' authorization Husers), Hauth.
  cbn [bind]. rewrite Hlive. cbn [get bind].
  eexists. split; [reflexivity | ]. repeat split.
Qed.

(** X23: a call 43200 seconds or more after the entry was written finds it
    expired and replaces it: afterwards the ledger holds one row for the
    user, written at the time of that call, with the defaults. *)
Theorem get_gateway_after_ttl (w w' : World) (st st' : Store)
  (authorization : option string) (g : Gateway) (user : User) :
  authorize w st authorization (Some ["id"]) None = Ok user ->
  limits_by_user_id w st (id user) = [] ->
  get_gateway w st authorization = Ok (g, st') ->
  43200 <= now w' - now w ->
  exists g' st'',
    get_gateway w' st' authorization = Ok (g', st'') /\
    ledger_rows st'' (id user) = [(new_session_limit (id user), now w')] /\
    session_start_limit g' =
      VDict [("total", VInt 1000); ("remaining", VInt 1000);
             ("max_concurrency", VInt 16)].
Proof.
  intros Hauth Hnone Hfirst Hlate.
  destruct (get_gateway_inversion w st st' authorization g Hfirst)
    as (user' & Hauth' & [(row & Hrow & _) | (_ & Hst & _)]).
  { rewrite Hauth in Hauth'. injection Hauth' as <-.
    rewrite Hnone in Hrow. discriminate. }
  rewrite Hauth in Hauth'. injection Hauth' as <-.
  destruct (ledger_after_create w st (id user)) as (Hown & _ & Husers).
  rewrite <- Hst in Hown, Husers.
  assert (Hdead : limits_by_user_id w' st' (id user) = []).
  { rewrite limits_from_ledger, Hown. cbn [filter snd].
    assert (Hge : (now w' - now w <? default_time_to_live) = false)
      by (apply Z.ltb_ge; unfold default_time_to_live; lia).
    now rewrite Hge. }
  unfold get_gateway.
  rewrite (authorize_id_only_stable w w' st st' authorization Husers), Hauth.
  cbn [bind]. rewrite Hdead. cbn [get].
  destruct (ledger_after_create w' st' (id user)) as (Hnew & _ & _).
  destruct (create_limit w' st' (id user)) as [row st''] eqn:Hcreate.
  cbn [snd] in Hnew. cbn [bind].
  assert (Hrow : row = new_session_limit (id user))
    by (unfold create_limit in Hcreate; now injection Hcreate).
  subst row. eexists _, _. split; [reflexivity | ].
  split; [exact Hnew | reflexivity].
Qed.

(** X24: [get_gateway] changes the ledger rows of the authorised user and
    nothing else: the rows of every other user, live or expired, are
    exactly as before, and so is every other table.  The rows of the user
    are either left as they were or replaced by one row written at the
    time of the call; a ledger with one row per user at most stays so. *)
Theorem get_gateway_touches_own_rows_only (w : World) (st st' : Store)
  (authorization : option string) (g : Gateway) (user : User) :
  authorize w st authorization (Some ["id"]) None = Ok user ->
  get_gateway w st authorization = Ok (g, st') ->
  (forall other, other <> id user ->
                 ledger_rows st' other = ledger_rows st other) /\
  (ledger_rows st' (id user) = ledger_rows st (id user) \/
   ledger_rows st' (id user) = [(new_session_limit (id user), now w)]) /\
  (unique_ledger st -> unique_ledger st') /\
  users st' = users st /\
  settings st' = settings st /\
  recovery_codes st' = recovery_codes st /\
  members st' = members st /\
  dispatched st' = dispatched st.
Proof.
  intros Hauth Hget.
  destruct (get_gateway_inversion w st st' authorization g Hget)
    as (user' & Hauth' & [(row & _ & -> & _) | (_ & -> & _)]);
    rewrite Hauth in Hauth'; injection Hauth' as <-.
  - split; [reflexivity | ]. split; [now left | ].
    split; [auto | ]. repeat split.
  - destruct (ledger_after_create w st (id user)) as (Hown & Hothers & Husers).
    split; [exact Hothers | ]. split; [now right | ].
    split; [ | repeat split].
    intros Huniq user_id.
    destruct (Z.eq_dec user_id (id user)) as [-> | Hne].
    + rewrite Hown. cbn. lia.
    + rewrite Hothers by exact Hne. apply Huniq.
Qed.

End more_gateway_facts.

(** ** What [objectify] changes and what it keeps *)

Lemma only_stringified_list (xs ys : list value) :
  only_stringified (VList xs) (VList ys) = items_stringified xs ys.
Proof. reflexivity. Qed.

Lemma only_stringified_dict (xs ys : list (string * value)) :
  only_stringified (VDict xs) (VDict ys) = entries_stringified xs ys.
Proof. reflexivity. Qed.

Lemma items_stringified_map (f : value -> value) (xs : list value) :
  Forall (fun x => only_stringified x (f x) = true) xs ->
  items_stringified xs (map f xs) = true.
Proof.
  induction 1 as [ | x xs Hx _ IH]; cbn; [reflexivity | ].
  now rewrite Hx, IH.
Qed.

Lemma entries_stringified_map (f : string * value -> string * value)
  (xs : list (string * value)) :
  Forall (fun kv => fst (f kv) = fst kv /\
                    only_stringified (snd kv) (snd (f kv)) = true) xs ->
  entries_stringified xs (map f xs) = true.
Proof.
  induction 1 as [ | x xs [Hk Hx] _ IH]; cbn; [reflexivity | ].
  now rewrite Hk, String.eqb_refl, Hx, IH.
Qed.

Lemma only_stringified_refl (x : value) : only_stringified x x = true.
Proof.
  induction x as [ | b | n | s | items IH | entries IH ]
    using value_nested_ind.
  - reflexivity.
  - now destruct b.
  - apply Z.eqb_refl.
  - apply String.eqb_refl.
  - rewrite only_stringified_list.
    induction IH as [ | x xs Hx _ IHxs]; cbn; [reflexivity | ].
    now rewrite Hx, IHxs.
  - rewrite only_stringified_dict.
    induction IH as [ | kv xs Hx _ IHxs]; cbn; [reflexivity | ].
    now rewrite String.eqb_refl, Hx, IHxs.
Qed.

Lemma only_stringified_str (v : value) : only_stringified v (str v) = true.
Proof.
  destruct v; cbn [str]; try apply only_stringified_refl;
    cbn; apply String.eqb_refl.
Qed.

Lemma objectify_entry_key (kv : string * value) :
  fst (objectify_entry kv) = fst kv.
Proof.
  destruct kv as [k v]. unfold objectify_entry.
  destruct (must_stringify k v); [reflexivity | now destruct v].
Qed.

(** X25: whatever the record, [objectify] only ever replaces integers and
    booleans by the string [str] prints for them: keys and their order,
    the length of every sequence, strings and [None] come back as they
    were. *)
Theorem objectify_only_stringifies (x : value) :
  only_stringified x (objectify x) = true.
Proof.
  induction x as [ | b | n | s | items IH | entries IH ]
    using value_nested_ind; try apply only_stringified_refl.
  - rewrite objectify_list, only_stringified_list.
    apply items_stringified_map.
    eapply Forall_impl; [ | exact IH]. intros item Hitem.
    destruct item; try apply only_stringified_refl; exact Hitem.
  - rewrite objectify_dict, only_stringified_dict.
    apply entries_stringified_map.
    eapply Forall_impl; [ | exact IH]. intros [k v] Hv. cbn [snd] in Hv.
    split; [apply objectify_entry_key | ].
    unfold objectify_entry.
    destruct (must_stringify k v); cbn [snd];
      [apply only_stringified_str | ].
    destruct v; cbn [snd]; try apply only_stringified_refl.
    rewrite <- objectify_list. exact Hv.
Qed.

Lemma dict_get_objectify (entries : list (string * value)) (k : string) :
  dict_get k (objectify (VDict entries)) =
  option_map (fun v => snd (objectify_entry (k, v)))
    (dict_get k (VDict entries)).
Proof.
  rewrite objectify_dict. unfold dict_get.
  induction entries as [ | [k0 v0] entries IH]; cbn [map find];
    [reflexivity | ].
  rewrite objectify_entry_key. cbn [fst].
  destruct (String.eqb k0 k) eqn:E; [ | exact IH].
  apply String.eqb_eq in E. subst k0. reflexivity.
Qed.

(** X26: an integer field of the record comes back as its decimal string
    when it exceeds 2147483647 or its key contains [permissions], and as
    the integer otherwise; the string reads back as the integer, so no
    digit is lost. *)
Theorem objectify_integer_field (entries : list (string * value))
  (k : string) (n : Z) :
  dict_get k (VDict entries) = Some (VInt n) ->
  dict_get k (objectify (VDict entries)) =
    Some (if (n >? 2147483647) || Py.contains "permissions" k
          then VStr (Py.str_int n) else VInt n) /\
  Py.int (Py.str_int n) = Some n.
Proof.
  intros Hget. split; [ | apply PyFacts.int_str_int].
  rewrite dict_get_objectify, Hget. cbn [option_map].
  unfold objectify_entry, must_stringify, MAX_INT32. cbn [as_int].
  now destruct ((n >? 2147483647) || Py.contains "permissions" k).
Qed.

(** X27: a boolean passes [isinstance(v, int)]: under a key that contains
    [permissions] it comes back as the string [True] or [False], under any
    other key it is left a boolean. *)
Theorem objectify_boolean_field (entries : list (string * value))
  (k : string) (b : bool) :
  dict_get k (VDict entries) = Some (VBool b) ->
  dict_get k (objectify (VDict entries)) =
    Some (if Py.contains "permissions" k
          then VStr (if b then "True" else "False") else VBool b).
Proof.
  intros Hget. rewrite dict_get_objectify, Hget. cbn [option_map].
  unfold objectify_entry, must_stringify, MAX_INT32. cbn [as_int].
  assert (Hsmall : ((if b then 1 else 0) >? 2147483647) = false)
    by (now destruct b).
  rewrite Hsmall. cbn [orb].
  destruct (Py.contains "permissions" k); [ | reflexivity].
  now destruct b.
Qed.

(** ** The contact points of the store *)

Lemma split_on_nonempty (sep : ascii) (s : string) : split_on sep s <> [].
Proof.
  destruct s as [ | c s]; cbn; [discriminate | ].
  destruct (Ascii.eqb c sep); [discriminate | ].
  now destruct (split_on sep s).
Qed.

Lemma join_with_cons (sep : ascii) (part : string) (rest : list string) :
  rest <> [] ->
  join_with sep (part :: rest) = part ++ String sep (join_with sep rest).
Proof. now destruct rest. Qed.

Lemma join_split_on (sep : ascii) (s : string) :
  join_with sep (split_on sep s) = s.
Proof.
  induction s as [ | c s IH]; [reflexivity | ]. cbn [split_on].
  destruct (Ascii.eqb c sep) eqn:E.
  - apply Ascii.eqb_eq in E. subst c.
    rewrite join_with_cons by apply split_on_nonempty.
    cbn. now rewrite IH.
  - pose proof (split_on_nonempty sep s) as Hne.
    destruct (split_on sep s) as [ | head tail]; [contradiction | ].
    destruct tail as [ | next tail].
    + cbn in *. now rewrite IH.
    + rewrite join_with_cons in * by discriminate.
      rewrite <- IH. reflexivity.
Qed.

Lemma split_on_no_sep (sep : ascii) (s : string) :
  Forall (fun part => Py.has_char sep part = false) (split_on sep s).
Proof.
  induction s as [ | c s IH]; cbn [split_on].
  - constructor; [reflexivity | constructor].
  - destruct (Ascii.eqb c sep) eqn:E.
    + constructor; [reflexivity | exact IH].
    + destruct (split_on sep s) as [ | head tail];
        [constructor; [cbn; now rewrite E | constructor] | ].
      inversion IH as [ | ? ? Hhead Htail]; subst.
      constructor; [ | exact Htail]. cbn. now rewrite E.
Qed.

(** X28: when [SCYLLA_HOSTS] is set, [get_hosts] gives a list that is never
    empty (the empty string gives one empty host), whose items hold no
    comma and, joined with commas, give the variable back. *)
Theorem get_hosts_joins_back (hs : string) :
  exists hosts,
    get_hosts (Some hs) = Some hosts /\
    hosts <> [] /\
    Forall (fun host => Py.has_char ","%char host = false) hosts /\
    join_with ","%char hosts = hs.
Proof.
  exists (split_on ","%char hs). split; [reflexivity | ].
  split; [apply split_on_nonempty | ].
  split; [apply split_on_no_sep | apply join_split_on].
Qed.

(** ** The further properties at sample inputs *)

Lemma substring_whole (s : string) : substring 0 (String.length s) s = s.
Proof. induction s as [ | c s IH]; cbn; [reflexivity | now rewrite IH]. Qed.

Lemma substring_app_suffix (a b : string) :
  substring (String.length (a ++ b) - String.length b) (String.length b)
    (a ++ b) = b.
Proof.
  assert (Hlen : forall x y : string,
             String.length (x ++ y) =
             (String.length x + String.length y)%nat).
  { intros x y. induction x as [ | c x IH]; cbn; [reflexivity | ].
    now rewrite IH. }
  rewrite Hlen, Nat.add_sub.
  induction a as [ | c a IH]; cbn; [apply substring_whole | exact IH].
Qed.

Lemma sample_hasher_laws : HasherLaws Sample.hasher.
Proof.
  constructor. intros salt pw.
  cbv [hasher_verify hasher_hash Sample.hasher Sample.ends_with].
  now rewrite substring_app_suffix, String.eqb_refl.
Qed.

(** A query that fixes a key finds at most one row where the keys of the
    rows differ. *)
Lemma filter_at_most_one {A K : Type} (key : A -> K) (p : A -> bool) (k : K)
  (l : list A) :
  (forall a, p a = true -> key a = k) ->
  NoDup (map key l) ->
  (List.length (filter p l) <= 1)%nat.
Proof.
  intros Hp. induction l as [ | a l IH]; cbn; intros Hnd; [lia | ].
  inversion Hnd as [ | ? ? Hout Hrest]; subst.
  destruct (p a) eqn:E; [ | now apply IH].
  assert (Hnone : filter p l = []).
  { destruct (filter p l) as [ | b rest] eqn:F; [reflexivity | exfalso].
    assert (Hin : In b (filter p l)) by (rewrite F; now left).
    apply filter_In in Hin as [Hin Hb]. apply Hout.
    rewrite (Hp a E), <- (Hp b Hb). now apply in_map. }
  rewrite Hnone. cbn. lia.
Qed.

Lemma fixture_unique_tags : unique_tags Fixture.store.
Proof.
  intros name d. rewrite users_by_tag_filter.
  apply (filter_at_most_one (fun u => (username u, discriminator u)) _
           (Some name, Some d)).
  - intros a Ha. apply andb_prop in Ha as [Hn Hd].
    destruct (username a), (discriminator a); try discriminate.
    cbn in Hn, Hd. apply String.eqb_eq in Hn, Hd. now subst.
  - cbn. repeat constructor; cbn; intuition discriminate.
Qed.

Lemma fixture_unique_ids : unique_ids Fixture.store.
Proof.
  intros user_id. unfold users_by_id.
  apply (filter_at_most_one id _ user_id).
  - intros a Ha. now apply Z.eqb_eq.
  - cbn. repeat constructor; cbn; intuition discriminate.
Qed.

Lemma fixture_unique_emails : unique_emails Fixture.store.
Proof.
  intros e. unfold users_by_email.
  apply (filter_at_most_one email _ (Some e)).
  - intros a Ha. destruct (email a); [ | discriminate].
    cbn in Ha. apply String.eqb_eq in Ha. now subst.
  - cbn. repeat constructor; cbn; intuition discriminate.
Qed.

Lemma verify_token_sound_witness :
  exists tok user_id row key payload,
    Some Fixture.alice_token = Some tok /\
    token_user_id tok = Some user_id /\
    users_by_id Fixture.store user_id = [row] /\
    password row = Some key /\
    @unsign Sample.signer key tok = Ok payload /\
    (@None names = None -> @None names = None -> Sample.alice = row).
Proof.
  apply (@verify_token_sound Sample.signer Sample.world Fixture.store
           (Some Fixture.alice_token) None None Sample.alice).
  vm_compute. reflexivity.
Defined.

Lemma create_token_distinct_users_witness :
  @create_token Sample.signer Sample.world 42 "s$wonderland" <>
  @create_token Sample.signer Fixture.later 99 "s$croquet".
Proof.
  apply (@create_token_distinct_users Sample.signer Sample.world
           Fixture.later 42 99 "s$wonderland" "s$croquet").
  lia.
Defined.

Lemma get_me_hides_password_witness :
  dict_get "password" (dict_of_user Fixture.carol_seen) = Some VNone /\
  exists row,
    In row (users Fixture.store) /\
    dict_get "id" (dict_of_user Fixture.carol_seen) =
      Some (VInt (id row)) /\
    dict_get "email" (dict_of_user Fixture.carol_seen) =
      Some (opt_str (email row)) /\
    dict_get "username" (dict_of_user Fixture.carol_seen) =
      Some (opt_str (username row)).
Proof.
  apply (@get_me_hides_password Sample.signer Sample.world Fixture.store
           Fixture.seen_store (Some Fixture.carol_token)
           (dict_of_user Fixture.carol_seen)).
  vm_compute. reflexivity.
Defined.

Lemma get_me_migrates_verified_witness :
  exists tok row,
    Some Fixture.carol_token = Some tok /\
    token_user_id tok = Some (id row) /\
    users_by_id Fixture.store (id row) = [row] /\
    dict_get "id" (dict_of_user Fixture.carol_seen) = Some (VInt (id row)) /\
    settings Fixture.seen_store = settings Fixture.store /\
    recovery_codes Fixture.seen_store = recovery_codes Fixture.store /\
    members Fixture.seen_store = members Fixture.store /\
    gateway_session_limit Fixture.seen_store =
      gateway_session_limit Fixture.store /\
    dispatched Fixture.seen_store = dispatched Fixture.store /\
    match verified row with
    | Some b =>
        Fixture.seen_store = Fixture.store /\
        dict_get "verified" (dict_of_user Fixture.carol_seen) =
          Some (VBool b)
    | None =>
        users_by_id Fixture.seen_store (id row) =
          [set_verified row (Some false)] /\
        (forall other, id other <> id row ->
                       In other (users Fixture.seen_store) <->
                       In other (users Fixture.store)) /\
        List.length (users Fixture.seen_store) =
          List.length (users Fixture.store) /\
        dict_get "verified" (dict_of_user Fixture.carol_seen) =
          Some (VBool false)
    end.
Proof.
  apply (@get_me_migrates_verified Sample.signer Sample.world Fixture.store
           Fixture.seen_store (Some Fixture.carol_token)
           (dict_of_user Fixture.carol_seen)).
  vm_compute. reflexivity.
Defined.

Lemma edit_me_touches_own_row_only_witness :
  (forall other, id other <> id Fixture.carol ->
                 In other (users Fixture.edited_store) <->
                 In other (users Fixture.store)) /\
  List.length (users Fixture.edited_store) =
    List.length (users Fixture.store) /\
  settings Fixture.edited_store = settings Fixture.store /\
  recovery_codes Fixture.edited_store = recovery_codes Fixture.store /\
  members Fixture.edited_store = members Fixture.store /\
  gateway_session_limit Fixture.edited_store =
    gateway_session_limit Fixture.store.
Proof.
  apply (@edit_me_touches_own_row_only Sample.hasher Sample.signer
           Sample.world Fixture.store Fixture.edited_store
           Fixture.carol_edit (Some Fixture.carol_token)
           (objectify (dict_of_user (validate Fixture.carol_edited)))
           Fixture.carol);
    vm_compute; reflexivity.
Defined.

Lemma edit_me_dispatch_witness :
  dispatched Fixture.edited_store =
  (dispatched Fixture.store ++
   [("security", password_change_event 99)])%list.
Proof.
  refine (@edit_me_dispatch Sample.hasher Sample.signer Sample.world
            Fixture.store Fixture.edited_store Fixture.carol_edit
            (Some Fixture.carol_token)
            (objectify (dict_of_user (validate Fixture.carol_edited)))
            Fixture.carol
            _ _);
    vm_compute; reflexivity.
Defined.

Lemma edit_me_keeps_token_witness :
  @verify_token Sample.signer Fixture.much_later Fixture.renamed_store
    (Some Fixture.carol_token) None None = Ok Fixture.carol_renamed.
Proof.
  refine (@edit_me_keeps_token Sample.hasher Sample.signer Sample.world
            Fixture.later Fixture.much_later Fixture.store
            Fixture.renamed_store Fixture.rename (Some Fixture.carol_token)
            (objectify (dict_of_user (validate Fixture.carol_renamed)))
            Fixture.carol
            "s$croquet" sample_signer_laws _ _ _ _ _).
  - cbn. lia.
  - vm_compute. reflexivity.
  - reflexivity.
  - reflexivity.
  - vm_compute. reflexivity.
Defined.

Lemma edit_me_spares_other_tokens_witness :
  @verify_token Sample.signer Fixture.later Fixture.edited_store
    (Some Fixture.alice_token) None None =
  @verify_token Sample.signer Fixture.later Fixture.store
    (Some Fixture.alice_token) None None.
Proof.
  apply (@edit_me_spares_other_tokens Sample.hasher Sample.signer
           Sample.world Fixture.later Fixture.store Fixture.edited_store
           Fixture.carol_edit (Some Fixture.carol_token)
           (objectify (dict_of_user (validate Fixture.carol_edited)))
           Fixture.carol
           Fixture.alice_token 42 None None).
  - vm_compute. reflexivity.
  - vm_compute. reflexivity.
  - vm_compute. reflexivity.
  - cbn. lia.
Defined.

Lemma edit_me_record_witness :
  objectify (dict_of_user (validate Fixture.carol_edited)) =
    VDict
      [("id", VInt 99); ("email", VStr "carol@example.com");
       ("password", VStr "s$mallet"); ("username", VStr "caroline");
       ("discriminator", VStr "0421"); ("avatar", VStr "");
       ("banner", VStr ""); ("flags", VInt 0); ("bot", VBool false);
       ("verified", VBool false)] /\
  exists row,
    users_by_id Fixture.edited_store 99 = [row] /\
    row = Fixture.carol_edited /\
    verified row = None.
Proof.
  refine (@edit_me_record Sample.hasher Sample.signer Sample.world
            Fixture.store Fixture.edited_store Fixture.carol_edit
            (Some Fixture.carol_token)
            (objectify (dict_of_user (validate Fixture.carol_edited)))
            Fixture.carol _ _);
    vm_compute; reflexivity.
Defined.

Lemma edit_me_rejects_taken_tag_witness :
  @edit_me Sample.hasher Sample.signer Sample.world Fixture.store
    Fixture.same_name (Some Fixture.carol_token) =
  Raise (HTTPError 400 "Discriminator is already taken").
Proof.
  apply (@edit_me_rejects_taken_tag Sample.hasher Sample.signer Sample.world
           Fixture.store Fixture.same_name (Some Fixture.carol_token)
           Fixture.carol Fixture.carol "carol").
  - vm_compute. reflexivity.
  - intros d Hd. discriminate Hd.
  - reflexivity.
  - vm_compute. reflexivity.
Defined.

Lemma edit_me_nothing_given_witness :
  exists ret,
    @edit_me Sample.hasher Sample.signer Sample.world Fixture.store
      Fixture.no_edit (Some Fixture.carol_token) = Ok (ret, Fixture.store) /\
    ret = objectify (dict_of_user (validate Fixture.carol)) /\
    dict_get "verified" ret = Some (VBool false) /\
    dict_get "password" ret = Some (VStr "s$croquet").
Proof.
  refine (@edit_me_nothing_given Sample.hasher Sample.signer Sample.world
            Fixture.store Fixture.no_edit (Some Fixture.carol_token)
            Fixture.carol _ _ _ _ _);
    [vm_compute; reflexivity | reflexivity ..].
Defined.

Lemma edit_me_email_only_witness :
  exists ret st',
    @edit_me Sample.hasher Sample.signer Sample.world Fixture.store
      Fixture.email_only (Some Fixture.carol_token) = Ok (ret, st') /\
    users_by_id st' 99 =
      [{| id := 99;
          email := Some "alice@example.org";
          password := Some "s$croquet";
          username := Some "carol";
          discriminator := Some "0420";
          avatar := "";
          banner := "";
          flags := 0;
          bot := false;
          verified := None |}].
Proof.
  refine (@edit_me_email_only Sample.hasher Sample.signer Sample.world
            Fixture.store Fixture.email_only (Some Fixture.carol_token)
            Fixture.carol "alice@example.org" _ _ _ _ _);
    [vm_compute; reflexivity | reflexivity ..].
Defined.

Lemma edit_me_keeps_tags_unique_witness : unique_tags Fixture.edited_store.
Proof.
  apply (@edit_me_keeps_tags_unique Sample.hasher Sample.signer Sample.world
           Fixture.store Fixture.edited_store Fixture.carol_edit
           (Some Fixture.carol_token)
           (objectify (dict_of_user (validate Fixture.carol_edited)))).
  - exact fixture_unique_tags.
  - vm_compute. reflexivity.
Defined.

Lemma create_user_keeps_tags_unique_witness :
  unique_tags Fixture.registered_store /\
  users_by_tag Fixture.registered_store (Some "alice") (Some "9001") =
    [Fixture.new_alice_row].
Proof.
  refine (@create_user_keeps_tags_unique Sample.hasher Sample.world
            Fixture.store Fixture.registered_store Sample.new_alice
            Fixture.new_alice_row fixture_unique_tags _).
  vm_compute. reflexivity.
Defined.

Lemma create_user_keeps_emails_unique_witness :
  unique_emails Fixture.registered_store /\
  users_by_email Fixture.registered_store "alice@example.com" =
    [Fixture.new_alice_row].
Proof.
  refine (@create_user_keeps_emails_unique Sample.hasher Sample.world
            Fixture.store Fixture.registered_store Sample.new_alice
            Fixture.new_alice_row fixture_unique_emails _).
  vm_compute. reflexivity.
Defined.

Lemma register_then_verify_token_witness :
  exists user,
    @verify_token Sample.signer Fixture.later Fixture.registered_store
      (Some Fixture.new_alice_token) None None = Ok user /\
    In user (users Fixture.registered_store) /\
    id user = 77 /\
    email user = Some "alice@example.com" /\
    username user = Some "alice".
Proof.
  refine (@register_then_verify_token Sample.hasher Sample.signer
            Sample.world Fixture.later Fixture.store
            Fixture.registered_store Sample.new_alice
            Fixture.new_alice_token sample_signer_laws _ _ _).
  - cbn. lia.
  - reflexivity.
  - vm_compute. reflexivity.
Defined.

Lemma register_then_login_witness :
  @login Sample.hasher Sample.totp Sample.signer Fixture.later
    Fixture.registered_store Fixture.new_alice_login =
  Ok (@create_token Sample.signer Fixture.later 77 "s$tea-party").
Proof.
  refine (@register_then_login Sample.hasher Sample.signer Sample.totp
            Sample.world Fixture.later Fixture.store
            Fixture.registered_store Sample.new_alice
            Fixture.new_alice_login Fixture.new_alice_token
            sample_hasher_laws _ _ _ _).
  - reflexivity.
  - vm_compute. reflexivity.
  - reflexivity.
  - reflexivity.
Defined.

Lemma login_sound_witness :
  exists row stored,
    users_by_email Fixture.store "robot@example.org" = [row] /\
    password row = Some stored /\
    @hasher_verify Sample.hasher stored "beep" = Verified /\
    @verify_mfa Sample.totp Sample.world Fixture.store (id row) None =
      Ok tt /\
    Fixture.robot_token =
      @create_token Sample.signer Sample.world (id row) stored.
Proof.
  refine (@login_sound Sample.hasher Sample.signer Sample.totp Sample.world
            Fixture.store Fixture.robot_login Fixture.robot_token _).
  vm_compute. reflexivity.
Defined.

Lemma login_then_verify_token_witness :
  exists row,
    @verify_token Sample.signer Fixture.later Fixture.store
      (Some Fixture.robot_token) None None = Ok row /\
    email row = Some "robot@example.org".
Proof.
  refine (@login_then_verify_token Sample.hasher Sample.signer Sample.totp
            Sample.world Fixture.later Fixture.store Fixture.robot_login
            Fixture.robot_token sample_signer_laws _ fixture_unique_ids _).
  - cbn. lia.
  - vm_compute. reflexivity.
Defined.

Lemma verify_mfa_integer_code_witness :
  @verify_mfa Sample.totp Sample.world Fixture.store 42
    (Some (CodeInt 123456)) =
  Raise (HTTPError 403 "mfa code is invalid.").
Proof.
  refine (@verify_mfa_integer_code Sample.totp Sample.world Fixture.store
            42 123456 Sample.alice_settings _ _);
    reflexivity.
Defined.

Lemma roll_discriminator_four_digits_witness :
  String.length (roll_discriminator 7) = 4%nat /\
  Py.all_digits (roll_discriminator 7) = true /\
  Py.int (roll_discriminator 7) = Some 7.
Proof.
  apply (roll_discriminator_four_digits 7). lia.
Defined.

Lemma get_gateway_again_within_ttl_witness :
  exists g',
    @get_gateway Sample.signer Fixture.later Fixture.gateway_store
      (Some Fixture.carol_token) = Ok (g', Fixture.gateway_store) /\
    dict_get "total" (session_start_limit g') = Some (VInt 1000) /\
    dict_get "remaining" (session_start_limit g') = Some (VInt 1000) /\
    dict_get "max_concurrency" (session_start_limit g') = Some (VInt 16).
Proof.
  refine (@get_gateway_again_within_ttl Sample.signer Sample.world
            Fixture.later Fixture.store Fixture.gateway_store
            (Some Fixture.carol_token) Fixture.first_gateway
            Fixture.carol_by_id _ _ _ _).
  - vm_compute. reflexivity.
  - reflexivity.
  - vm_compute. reflexivity.
  - cbn. lia.
Defined.

Lemma get_gateway_after_ttl_witness :
  exists g' st'',
    @get_gateway Sample.signer Fixture.much_later Fixture.gateway_store
      (Some Fixture.carol_token) = Ok (g', st'') /\
    ledger_rows st'' 99 = [(new_session_limit 99, 1667050000)] /\
    session_start_limit g' =
      VDict [("total", VInt 1000); ("remaining", VInt 1000);
             ("max_concurrency", VInt 16)].
Proof.
  refine (@get_gateway_after_ttl Sample.signer Sample.world
            Fixture.much_later Fixture.store Fixture.gateway_store
            (Some Fixture.carol_token) Fixture.first_gateway
            Fixture.carol_by_id _ _ _ _).
  - vm_compute. reflexivity.
  - reflexivity.
  - vm_compute. reflexivity.
  - cbn. lia.
Defined.

Lemma get_gateway_touches_own_rows_only_witness :
  (forall other, other <> 7 ->
                 ledger_rows Fixture.two_limits_store other =
                 ledger_rows Fixture.gateway_store other) /\
  (ledger_rows Fixture.two_limits_store 7 =
     ledger_rows Fixture.gateway_store 7 \/
   ledger_rows Fixture.two_limits_store 7 =
     [(new_session_limit 7, 1667003600)]) /\
  (unique_ledger Fixture.gateway_store ->
   unique_ledger Fixture.two_limits_store) /\
  users Fixture.two_limits_store = users Fixture.gateway_store /\
  settings Fixture.two_limits_store = settings Fixture.gateway_store /\
  recovery_codes Fixture.two_limits_store =
    recovery_codes Fixture.gateway_store /\
  members Fixture.two_limits_store = members Fixture.gateway_store /\
  dispatched Fixture.two_limits_store = dispatched Fixture.gateway_store.
Proof.
  refine (@get_gateway_touches_own_rows_only Sample.signer Fixture.later
            Fixture.gateway_store Fixture.two_limits_store
            (Some Fixture.robot_token) Fixture.first_gateway
            Fixture.robot_by_id _ _);
    vm_compute; reflexivity.
Defined.

Lemma objectify_integer_field_witness :
  dict_get "id" (objectify (VDict Fixture.role_record)) =
    Some (VStr "3000000000") /\
  Py.int (Py.str_int 3000000000) = Some 3000000000.
Proof.
  refine (objectify_integer_field Fixture.role_record "id" 3000000000 _).
  reflexivity.
Defined.

Lemma objectify_boolean_field_witness :
  dict_get "has_permissions" (objectify (VDict Fixture.role_record)) =
    Some (VStr "True").
Proof.
  refine (objectify_boolean_field Fixture.role_record "has_permissions"
            true _).
  reflexivity.
Defined.
